(** * dabubble: navigation state and live message list

    A shallow embedding of two pieces of the client:

    - [MessagesListView]: the messages list component
      (messages-list-view.component.ts), which keeps [this.messages] in
      step with the Firestore snapshot listener of the attached path;
    - [Navigation]: the navigation service
      (src/app/utils/services/navigation.service.ts), which owns the
      current chat view object, its path and the current thread.

    JavaScript objects are compared by reference ([===]); objects whose
    identity matters carry an explicit reference.  The message objects held
    by the component live in a store indexed by reference, so that
    [message.update(...)] is a mutation of the store and the array
    [this.messages] is a list of references. *)

From Stdlib Require Import ZArith List String Bool Lia.
From Stdlib Require Import Sorting.Sorted Sorting.Permutation.
From stdpp Require Import base list strings.
Import ListNotations.

Local Open Scope string_scope.
Local Open Scope Z_scope.

(** ** JavaScript helpers *)

(** Truthiness of a JS string: only the empty string is falsy. *)
Definition truthy (s : string) : bool := negb (String.eqb s "").

(** Truthiness of a value of type [string | undefined]. *)
Definition truthy_opt (o : option string) : bool :=
  match o with
  | Some s => truthy s
  | None => false
  end.

(** [Array.prototype.sort(cmp)]: the sort is stable, and [cmp a b <= 0]
    keeps [a] in front of [b].  For a consistent comparator the result of a
    stable sort does not depend on the algorithm; insertion from the right
    is the reference implementation used here. *)
Fixpoint insert_by {A : Type} (cmp : A -> A -> Z) (x : A) (l : list A) : list A :=
  match l with
  | [] => [x]
  | y :: l' => if cmp x y <=? 0 then x :: l else y :: insert_by cmp x l'
  end.

Definition Array_sort {A : Type} (cmp : A -> A -> Z) (l : list A) : list A :=
  foldr (insert_by cmp) [] l.

(** ** Model classes *)

(** shared/models/message.class.ts is read through these fields;
    [createdAt] is [createdAt.getTime()], the epoch milliseconds of a valid
    date. *)
Record Message := mkMessage {
  id : string;
  creatorID : string;
  createdAt : Z;
  answerable : bool;
  answerPath : string;
  content : string
}.

(** * The messages list component *)

Module MessagesListView.

Inductive ChangeType := added | modified | removed.

(** The constructor [new Message(data, path, id)] and the method
    [message.update(data)], over the document data of a Firestore change
    ([change.doc.data()]).  The class is declared outside the files at
    hand, so it is taken as an interface. *)
Class MessageClass (DocData : Type) := {
  Message_new : DocData -> string -> string -> Message;
  Message_update : Message -> DocData -> Message
}.

Section Component.

Context {DocData : Type} `{!MessageClass DocData}.

Record DocumentChange := mkChange {
  type : ChangeType;
  doc_id : string;
  doc_data : DocData
}.

(** The component together with the part of Firestore it talks to.
    [store] holds the Message objects ever constructed, at the index that
    is their reference; [listeners] are the snapshot listeners currently
    attached, each with the path its callback closes over; [unsubMessages]
    is the handle whose unsubscribe function the component holds.  The
    field [messagesDates] is only ever reset and is left out. *)
Record Component := mkComponent {
  store : list Message;
  messages : list nat;
  unsubMessages : option nat;
  listeners : list (nat * string);
  next_handle : nat;
  messageEditorOpen : bool
}.

(** Field initialisers of the class. *)
Definition init : Component :=
  mkComponent [] [] None [] 0%nat false.

Definition createdAt_of (s : list Message) (r : nat) : Z :=
  match s !! r with
  | Some m => createdAt m
  | None => 0
  end.

Definition has_id (s : list Message) (i : string) (r : nat) : bool :=
  match s !! r with
  | Some m => String.eqb (id m) i
  | None => false
  end.

(** [this.messages.push(new Message(data, messagesPath, id))] *)
Definition push_new (d : DocData) (messagesPath i : string) (c : Component) : Component :=
  mkComponent (store c ++ [Message_new d messagesPath i])
              (messages c ++ [length (store c)])
              (unsubMessages c) (listeners c) (next_handle c) (messageEditorOpen c).

(** [const message = this.messages.find(m => m.id === id);
     if (message) message.update(data);] *)
Definition update_found (i : string) (d : DocData) (c : Component) : Component :=
  match List.find (has_id (store c) i) (messages c) with
  | Some r =>
      match store c !! r with
      | Some m =>
          mkComponent (<[r := Message_update m d]> (store c))
                      (messages c)
                      (unsubMessages c) (listeners c) (next_handle c) (messageEditorOpen c)
      | None => c
      end
  | None => c
  end.

(** [this.messages = this.messages.filter(m => m.id !== id);] *)
Definition filter_out (i : string) (c : Component) : Component :=
  mkComponent (store c)
              (List.filter (fun r => negb (has_id (store c) i r)) (messages c))
              (unsubMessages c) (listeners c) (next_handle c) (messageEditorOpen c).

(** The body of [snapshot.docChanges().forEach], threading [sortNeeded]. *)
Definition apply_change (messagesPath : string)
    (acc : bool * Component) (change : DocumentChange) : bool * Component :=
  let '(sortNeeded, c) := acc in
  match type change with
  | added => (true, push_new (doc_data change) messagesPath (doc_id change) c)
  | modified => (sortNeeded, update_found (doc_id change) (doc_data change) c)
  | removed => (sortNeeded, filter_out (doc_id change) c)
  end.

Definition compare_createdAt (s : list Message) (a b : nat) : Z :=
  createdAt_of s a - createdAt_of s b.

Definition sort_messages (c : Component) : Component :=
  mkComponent (store c)
              (Array_sort (compare_createdAt (store c)) (messages c))
              (unsubMessages c) (listeners c) (next_handle c) (messageEditorOpen c).

(** The snapshot callback; its result is the state at
    [this._cdr.detectChanges()], which is what the view gets to see. *)
Definition on_snapshot (messagesPath : string) (batch : list DocumentChange)
    (c : Component) : Component :=
  let '(sortNeeded, c') := fold_left (apply_change messagesPath) batch (false, c) in
  if sortNeeded then sort_messages c' else c'.

(** Calling the unsubscribe function of handle [h]; detaching twice is
    harmless. *)
Definition detach (h : nat) (ls : list (nat * string)) : list (nat * string) :=
  List.filter (fun l => negb (Nat.eqb (fst l) h)) ls.

(** [subscribeMessages(messagesPath)] *)
Definition subscribeMessages (messagesPath : option string) (c : Component) : Component :=
  let ls :=
    match unsubMessages c with
    | Some h => detach h (listeners c)
    | None => listeners c
    end in
  match messagesPath with
  | Some p =>
      if truthy p then
        mkComponent (store c) (messages c)
                    (Some (next_handle c))
                    (ls ++ [(next_handle c, p)])
                    (S (next_handle c)) (messageEditorOpen c)
      else
        mkComponent (store c) (messages c) (unsubMessages c) ls
                    (next_handle c) (messageEditorOpen c)
  | None =>
      mkComponent (store c) (messages c) (unsubMessages c) ls
                  (next_handle c) (messageEditorOpen c)
  end.

(** The setter of the [messagesPath] input. *)
Definition set_messagesPath (value : option string) (c : Component) : Component :=
  let c1 := mkComponent (store c) [] (unsubMessages c) (listeners c)
                        (next_handle c) (messageEditorOpen c) in
  let c2 := subscribeMessages value c1 in
  mkComponent (store c2) (messages c2) (unsubMessages c2) (listeners c2)
              (next_handle c2) false.

(** Firestore delivers a batch to the listener with handle [h]; a detached
    listener is never called. *)
Definition path_of (h : nat) (ls : list (nat * string)) : option string :=
  snd <$> List.find (fun l => Nat.eqb (fst l) h) ls.

Definition deliver (h : nat) (batch : list DocumentChange) (c : Component) : Component :=
  match path_of h (listeners c) with
  | Some p => on_snapshot p batch c
  | None => c
  end.

(** [ngOnDestroy()], as far as the listener goes. *)
Definition ngOnDestroy (c : Component) : Component :=
  mkComponent (store c) (messages c) (unsubMessages c)
              match unsubMessages c with
              | Some h => detach h (listeners c)
              | None => listeners c
              end
              (next_handle c) (messageEditorOpen c).

Inductive Event :=
| SetMessagesPath (value : option string)
| Snapshot (h : nat) (batch : list DocumentChange)
| Destroy.

Definition step (c : Component) (e : Event) : Component :=
  match e with
  | SetMessagesPath v => set_messagesPath v c
  | Snapshot h batch => deliver h batch c
  | Destroy => ngOnDestroy c
  end.

Definition run (es : list Event) (c : Component) : Component :=
  fold_left step es c.

End Component.

(** Orders on references, read through the store [s].  References are
    handed out in the order the messages are constructed, so [a < b] says
    that message [a] arrived before message [b]. *)
Definition by_createdAt (s : list Message) (a b : nat) : Prop :=
  createdAt_of s a <= createdAt_of s b.

Definition arrival_order (s : list Message) (a b : nat) : Prop :=
  createdAt_of s a = createdAt_of s b -> (a < b)%nat.

Definition before (s : list Message) (a b : nat) : Prop :=
  createdAt_of s a < createdAt_of s b
  \/ (createdAt_of s a = createdAt_of s b /\ (a < b)%nat).

(** The references held are references of constructed messages. *)
Definition valid (c : Component) : Prop :=
  List.Forall (fun r => (r < length (store c))%nat) (messages c).

(** What holds of the list while a batch is being applied: until the first
    [added] delta the list is still sorted; afterwards equal-time
    messages are still in arrival order. *)
Definition applying (acc : bool * Component) : Prop :=
  valid (snd acc)
  /\ StronglySorted (arrival_order (store (snd acc))) (messages (snd acc))
  /\ (fst acc = false ->
      StronglySorted (before (store (snd acc))) (messages (snd acc))).

(** What holds between batches. *)
Definition at_rest (c : Component) : Prop :=
  valid c /\ StronglySorted (before (store c)) (messages c).

(** A message with id [i] is in the held list. *)
Definition present (c : Component) (i : string) : Prop :=
  exists r, In r (messages c) /\ has_id (store c) i r = true.

(** At most one snapshot listener is attached, and it is the one whose
    unsubscribe function the component holds. *)
Definition one_feed (c : Component) : Prop :=
  listeners c = []
  \/ exists h p, unsubMessages c = Some h /\ listeners c = [(h, p)]
                 /\ (h < next_handle c)%nat.

(** The path a value of the [messagesPath] input attaches, if any. *)
Definition attached (value : option string) : option string :=
  match value with
  | Some p => if truthy p then Some p else None
  | None => None
  end.

Arguments DocumentChange : clear implicits.
Arguments Event : clear implicits.

End MessagesListView.

(** Modelled from the spec: shared/models/message.class.ts is outside the
    files at hand.  A message is built from the payload of an [added]
    delta; a [modified] delta updates the payload fields and leaves the id
    and the creation time as they are. *)
Module MessageModel.

Record DocData := mkData {
  data_creatorID : string;
  data_createdAt : Z;
  data_answerable : bool;
  data_content : string
}.

(** Modelled from the spec: the constructor takes the id from the
    document id and the other fields from the payload. *)
Definition new (d : DocData) (path i : string) : Message :=
  mkMessage i (data_creatorID d) (data_createdAt d) (data_answerable d)
            (path ++ "/" ++ i ++ "/answers") (data_content d).

(** Modelled from the spec: [update] replaces the payload and keeps the
    identity, the id and the creation time. *)
Definition update (m : Message) (d : DocData) : Message :=
  mkMessage (id m) (creatorID m) (createdAt m) (answerable m) (answerPath m)
            (data_content d).

#[global] Instance message_class : MessagesListView.MessageClass DocData :=
  {| MessagesListView.Message_new := new;
     MessagesListView.Message_update := update |}.

End MessageModel.

(** * The navigation service *)

Module Navigation.

(** shared/models: the fields the service reads.  A Channel is compared by
    reference in [setChatViewObject], so it carries its reference. *)
Record Channel := mkChannel {
  channel_ref : nat;
  channel_id : string;
  channel_name : string;
  channel_memberIDs : list string;
  channelMessagesPath : string
}.

Record Chat := mkChat {
  chat_id : string;
  memberIDs : list string;
  chatMessagesPath : string
}.

Record User := mkUser {
  user_id : string;
  user_name : string
}.

(** [Channel | Chat] *)
Inductive ViewObject :=
| VChannel (channel : Channel)
| VChat (chat : Chat).

Inductive ChangeNavigation :=
| unknow
| chatViewObjectSetAsChannel
| chatViewObjectSetAsChat
| threadViewObjectSet
| threadViewObjectCleared.

(** What the service reads from UsersService and ChannelService without
    waiting: the collaborators themselves are outside the files at hand. *)
Record Services := mkServices {
  defaultChannel : Channel;
  currentUser : option User;
  getUserByID : string -> option User
}.

(** An [async setChatViewObjectAsChat(user)] suspended at one of its two
    [await]s. *)
Inductive Task :=
| AwaitGetChat (user : User)
| AwaitAddChat (user : User).

(** The two uses of [setTimeout(..., 100)].  All delays are equal, so the
    timers fire in the order they were set. *)
Inductive Timer :=
| ResumeSetChatViewObject (call : nat) (object : Channel + User)
| Unsubscribe (sub : nat).

Inductive ServiceCall :=
| getChatWithUserByID (call : nat) (userID : string)
| addChatWithUserOnFirestore (call : nat) (userID : string).

(** How a promise of a collaborator settles. *)
Inductive Settled (A : Type) :=
| Resolves (value : A)
| Rejects.
Arguments Resolves {A} value.
Arguments Rejects {A}.

Inductive Outcome := Fulfilled | Rejected.

Record State := mkState {
  (* fields of the service *)
  _chatViewObject : option ViewObject;
  _chatViewPath : option string;
  _threadViewObject : option Message;
  _threadViewPath : option string;
  (* values of changeSubject, oldest first, its initial value included;
     number of [next()] calls on navigationCompleteSubject; the calls
     that emitted navigationComplete *)
  changes : list ChangeNavigation;
  navigationCompleteSubject : nat;
  navigationComplete : list nat;
  (* ChannelService: its chat list, the calls received, and the
     subscribers of chatListChange$ with the chatID each callback holds *)
  chats : list Chat;
  service_calls : list ServiceCall;
  subscriptions : list (nat * string);
  (* the event loop *)
  tasks : list (nat * Task);
  timers : list Timer;
  (* how the promise of each setChatViewObject call settled, and the calls
     whose setChatViewObjectAsChat promise was rejected with nobody
     awaiting it *)
  settled : list (nat * Outcome);
  unhandled : list nat;
  (* bookkeeping for the statements, never read by the service: the chat
     that the resolution started by a call produced *)
  resolved : list (nat * Chat);
  next_call : nat
}.

Definition init : State :=
  mkState None None None None [unknow] 0%nat [] [] [] [] [] [] [] [] [] 0%nat.

(** get chatViewObject() *)
Definition chatViewObject (env : Services) (s : State) : ViewObject :=
  match _chatViewObject s with
  | None => VChannel (defaultChannel env)
  | Some v => v
  end.

Definition chatViewPath (s : State) : option string := _chatViewPath s.
Definition threadViewObject (s : State) : option Message := _threadViewObject s.
Definition threadViewPath (s : State) : option string := _threadViewPath s.

(** Field updates. *)
Definition set_view (v : ViewObject) (p : option string) (s : State) : State :=
  mkState (Some v) p (_threadViewObject s) (_threadViewPath s)
          (changes s) (navigationCompleteSubject s) (navigationComplete s)
          (chats s) (service_calls s) (subscriptions s) (tasks s) (timers s)
          (settled s) (unhandled s) (resolved s) (next_call s).

Definition set_thread (m : option Message) (p : option string) (s : State) : State :=
  mkState (_chatViewObject s) (_chatViewPath s) m p
          (changes s) (navigationCompleteSubject s) (navigationComplete s)
          (chats s) (service_calls s) (subscriptions s) (tasks s) (timers s)
          (settled s) (unhandled s) (resolved s) (next_call s).

(** [this.changeSubject.next(c)] *)
Definition changeSubject_next (c : ChangeNavigation) (s : State) : State :=
  mkState (_chatViewObject s) (_chatViewPath s) (_threadViewObject s) (_threadViewPath s)
          (changes s ++ [c]) (navigationCompleteSubject s) (navigationComplete s)
          (chats s) (service_calls s) (subscriptions s) (tasks s) (timers s)
          (settled s) (unhandled s) (resolved s) (next_call s).

Definition set_completion (n : nat) (emitted : list nat) (s : State) : State :=
  mkState (_chatViewObject s) (_chatViewPath s) (_threadViewObject s) (_threadViewPath s)
          (changes s) n emitted
          (chats s) (service_calls s) (subscriptions s) (tasks s) (timers s)
          (settled s) (unhandled s) (resolved s) (next_call s).

Definition set_chats (cs : list Chat) (s : State) : State :=
  mkState (_chatViewObject s) (_chatViewPath s) (_threadViewObject s) (_threadViewPath s)
          (changes s) (navigationCompleteSubject s) (navigationComplete s)
          cs (service_calls s) (subscriptions s) (tasks s) (timers s)
          (settled s) (unhandled s) (resolved s) (next_call s).

Definition log_call (c : ServiceCall) (s : State) : State :=
  mkState (_chatViewObject s) (_chatViewPath s) (_threadViewObject s) (_threadViewPath s)
          (changes s) (navigationCompleteSubject s) (navigationComplete s)
          (chats s) (service_calls s ++ [c]) (subscriptions s) (tasks s) (timers s)
          (settled s) (unhandled s) (resolved s) (next_call s).

Definition set_subscriptions (subs : list (nat * string)) (s : State) : State :=
  mkState (_chatViewObject s) (_chatViewPath s) (_threadViewObject s) (_threadViewPath s)
          (changes s) (navigationCompleteSubject s) (navigationComplete s)
          (chats s) (service_calls s) subs (tasks s) (timers s)
          (settled s) (unhandled s) (resolved s) (next_call s).

Definition set_tasks (ts : list (nat * Task)) (s : State) : State :=
  mkState (_chatViewObject s) (_chatViewPath s) (_threadViewObject s) (_threadViewPath s)
          (changes s) (navigationCompleteSubject s) (navigationComplete s)
          (chats s) (service_calls s) (subscriptions s) ts (timers s)
          (settled s) (unhandled s) (resolved s) (next_call s).

Definition set_timers (ts : list Timer) (s : State) : State :=
  mkState (_chatViewObject s) (_chatViewPath s) (_threadViewObject s) (_threadViewPath s)
          (changes s) (navigationCompleteSubject s) (navigationComplete s)
          (chats s) (service_calls s) (subscriptions s) (tasks s) ts
          (settled s) (unhandled s) (resolved s) (next_call s).

Definition settle (k : nat) (o : Outcome) (s : State) : State :=
  mkState (_chatViewObject s) (_chatViewPath s) (_threadViewObject s) (_threadViewPath s)
          (changes s) (navigationCompleteSubject s) (navigationComplete s)
          (chats s) (service_calls s) (subscriptions s) (tasks s) (timers s)
          (settled s ++ [(k, o)]) (unhandled s) (resolved s) (next_call s).

Definition reject_unhandled (k : nat) (s : State) : State :=
  mkState (_chatViewObject s) (_chatViewPath s) (_threadViewObject s) (_threadViewPath s)
          (changes s) (navigationCompleteSubject s) (navigationComplete s)
          (chats s) (service_calls s) (subscriptions s) (tasks s) (timers s)
          (settled s) (unhandled s ++ [k]) (resolved s) (next_call s).

Definition note_resolved (k : nat) (c : Chat) (s : State) : State :=
  mkState (_chatViewObject s) (_chatViewPath s) (_threadViewObject s) (_threadViewPath s)
          (changes s) (navigationCompleteSubject s) (navigationComplete s)
          (chats s) (service_calls s) (subscriptions s) (tasks s) (timers s)
          (settled s) (unhandled s) (resolved s ++ [(k, c)]) (next_call s).

Definition bump_call (s : State) : State :=
  mkState (_chatViewObject s) (_chatViewPath s) (_threadViewObject s) (_threadViewPath s)
          (changes s) (navigationCompleteSubject s) (navigationComplete s)
          (chats s) (service_calls s) (subscriptions s) (tasks s) (timers s)
          (settled s) (unhandled s) (resolved s) (S (next_call s)).

Definition task_in (k : nat) (ts : list (nat * Task)) : option Task :=
  snd <$> List.find (fun t => Nat.eqb (fst t) k) ts.

Definition task_of (k : nat) (s : State) : option Task := task_in k (tasks s).

Definition drop_task (k : nat) (s : State) : State :=
  set_tasks (List.filter (fun t => negb (Nat.eqb (fst t) k)) (tasks s)) s.

Definition put_task (k : nat) (t : Task) (s : State) : State :=
  set_tasks (tasks (drop_task k s) ++ [(k, t)]) s.

(** ** The methods *)

Definition setChatViewObjectAsChannel (channel : Channel) (s : State) : State :=
  changeSubject_next chatViewObjectSetAsChannel
    (set_view (VChannel channel)
              (if String.eqb (channelMessagesPath channel) "" then None
               else Some (channelMessagesPath channel))
              s).

Definition clearThreadViewObject (s : State) : State :=
  changeSubject_next threadViewObjectCleared (set_thread None None s).

Definition setThreadViewObject (message : Message) (s : State) : State :=
  if answerable message then
    changeSubject_next threadViewObjectSet
      (set_thread (Some message) (Some (answerPath message)) s)
  else s.

(** [setChatViewObjectAsChat(user)] up to its first [await]: the lookup is
    requested and the function is suspended as task [k]. *)
Definition setChatViewObjectAsChat_start (k : nat) (user : User) (s : State) : State :=
  put_task k (AwaitGetChat user) (log_call (getChatWithUserByID k (user_id user)) s).

(** [setChatViewObject(object)] up to its [await] of the 100 ms timer.
    The call to [setChatViewObjectAsChat] is not awaited. *)
Definition setChatViewObject (object : Channel + User) (s : State) : State :=
  let k := next_call s in
  let s1 :=
    match object with
    | inl channel => setChatViewObjectAsChannel channel s
    | inr user => setChatViewObjectAsChat_start k user s
    end in
  let s2 := clearThreadViewObject s1 in
  bump_call (set_timers (timers s2 ++ [ResumeSetChatViewObject k object]) s2).

(** [this._chatViewObject === object] *)
Definition same_object (v : option ViewObject) (object : Channel + User) : bool :=
  match v, object with
  | Some (VChannel c), inl channel => Nat.eqb (channel_ref c) (channel_ref channel)
  | _, _ => false
  end.

Definition is_Chat (v : option ViewObject) : bool :=
  match v with
  | Some (VChat _) => true
  | _ => false
  end.

Definition is_User (object : Channel + User) : bool :=
  match object with
  | inr _ => true
  | inl _ => false
  end.

(** The rest of [setChatViewObject], after the timer. *)
Definition setChatViewObject_resume (k : nat) (object : Channel + User) (s : State) : State :=
  let s1 := set_completion (S (navigationCompleteSubject s)) (navigationComplete s) s in
  let s2 :=
    if same_object (_chatViewObject s1) object
       || (is_Chat (_chatViewObject s1) && is_User object)
    then set_completion (navigationCompleteSubject s1) (navigationComplete s1 ++ [k]) s1
    else s1 in
  settle k Fulfilled s2.

(** [setChatViewObjectAsChat] resumed with the result of
    [getChatWithUserByID]. *)
Definition setChatViewObjectAsChat_got (k : nat) (user : User)
    (r : Settled (option Chat)) (s : State) : State :=
  match r with
  | Resolves (Some chat) =>
      changeSubject_next chatViewObjectSetAsChat
        (note_resolved k chat
          (set_view (VChat chat) (Some (chatMessagesPath chat)) (drop_task k s)))
  | Resolves None =>
      put_task k (AwaitAddChat user)
        (log_call (addChatWithUserOnFirestore k (user_id user)) s)
  | Rejects => reject_unhandled k (drop_task k s)
  end.

(** [setChatViewObjectAsChat] resumed with the result of
    [addChatWithUserOnFirestore]; the subscription takes the number of the
    call. *)
Definition setChatViewObjectAsChat_added (k : nat)
    (r : Settled (option string)) (s : State) : State :=
  match r with
  | Resolves chatID =>
      let s1 := drop_task k s in
      let s2 :=
        match chatID with
        | Some i =>
            if truthy i then set_subscriptions (subscriptions s1 ++ [(k, i)]) s1
            else s1
        | None => s1
        end in
      changeSubject_next chatViewObjectSetAsChat s2
  | Rejects => reject_unhandled k (drop_task k s)
  end.

(** The callback subscribed to [chatListChange$], for the subscription
    [(k, chatID)]. *)
Definition on_chatListChange (s : State) (sub : nat * string) : State :=
  let '(k, chatID) := sub in
  match List.find (fun chat => String.eqb (chat_id chat) chatID) (chats s) with
  | Some chat =>
      let s1 := note_resolved k chat
                  (set_view (VChat chat) (Some (chatMessagesPath chat)) s) in
      set_timers (timers s1 ++ [Unsubscribe k]) s1
  | None => s
  end.

(** ChannelService replaces its chat list and [chatListChange$] emits:
    every subscriber of that moment is called, in order of subscription.
    The stream is a stream of notifications: subscribing to it does not
    by itself call the callback. *)
Definition chatListChange (cs : list Chat) (s : State) : State :=
  let s1 := set_chats cs s in
  fold_left on_chatListChange (subscriptions s1) s1.

Definition unsubscribe (k : nat) (s : State) : State :=
  set_subscriptions
    (List.filter (fun sub => negb (Nat.eqb (fst sub) k)) (subscriptions s)) s.

Definition fire (t : Timer) (s : State) : State :=
  match t with
  | ResumeSetChatViewObject k object => setChatViewObject_resume k object s
  | Unsubscribe k => unsubscribe k s
  end.

(** ** The event loop *)

Inductive Event :=
| Call_setChatViewObject (object : Channel + User)
| Call_setThreadViewObject (message : Message)
| Call_clearThreadViewObject
| Settle_getChatWithUserByID (k : nat) (r : Settled (option Chat))
| Settle_addChatWithUserOnFirestore (k : nat) (r : Settled (option string))
| ChatListChange (cs : list Chat)
| TimerFires.

Definition step (s : State) (e : Event) : State :=
  match e with
  | Call_setChatViewObject object => setChatViewObject object s
  | Call_setThreadViewObject message => setThreadViewObject message s
  | Call_clearThreadViewObject => clearThreadViewObject s
  | Settle_getChatWithUserByID k r =>
      match task_of k s with
      | Some (AwaitGetChat user) => setChatViewObjectAsChat_got k user r s
      | _ => s
      end
  | Settle_addChatWithUserOnFirestore k r =>
      match task_of k s with
      | Some (AwaitAddChat _) => setChatViewObjectAsChat_added k r s
      | _ => s
      end
  | ChatListChange cs => chatListChange cs s
  | TimerFires =>
      match timers s with
      | t :: ts => fire t (set_timers ts s)
      | [] => s
      end
  end.

Definition run (es : list Event) (s : State) : State := fold_left step es s.

(** ** Search context *)

(** [id !== this.userService.currentUser?.id] *)
Definition not_current (env : Services) (i : string) : bool :=
  match currentUser env with
  | Some u => negb (String.eqb i (user_id u))
  | None => true
  end.

Definition getChatPartnerName (env : Services) (s : State) : option string :=
  match chatViewObject env s with
  | VChat chat =>
      match List.find (not_current env) (memberIDs chat) with
      | Some chatPartnerID =>
          if truthy chatPartnerID
          then user_name <$> getUserByID env chatPartnerID
          else None
      | None => None
      end
  | VChannel _ => None
  end.

Definition isSelfChat (env : Services) (s : State) : bool :=
  match chatViewObject env s, currentUser env with
  | VChat chat, Some u =>
      forallb (fun i => String.eqb i (user_id u)) (memberIDs chat)
  | _, _ => false
  end.

(** [`${this.userService.currentUser?.name}`] *)
Definition currentUser_name (env : Services) : string :=
  match currentUser env with
  | Some u => user_name u
  | None => "undefined"
  end.

Definition getSearchContext (env : Services) (s : State) : string :=
  match chatViewObject env s with
  | VChat _ =>
      let chatPartner := getChatPartnerName env s in
      if truthy_opt chatPartner then
        "in:@" ++ default "" chatPartner
      else if isSelfChat env s then
        "in:@" ++ currentUser_name env
      else ""
  | VChannel channel => "in:#" ++ channel_name channel
  end.

(** ** Notions used in the statements *)

(** The view object that call [k] asked for with [object]: the very
    channel it passed, or a chat that its own resolution produced. *)
Definition requested (s : State) (k : nat) (object : Channel + User)
    (v : option ViewObject) : Prop :=
  match object, v with
  | inl channel, Some (VChannel c) => channel_ref c = channel_ref channel
  | inr _, Some (VChat chat) => In (k, chat) (resolved s)
  | _, _ => False
  end.

(** The creation requests that call [k] has sent. *)
Definition creations_in (k : nat) (cs : list ServiceCall) : list ServiceCall :=
  List.filter
    (fun c => match c with
              | addChatWithUserOnFirestore k' _ => Nat.eqb k' k
              | getChatWithUserByID _ _ => false
              end)
    cs.

Definition creations (k : nat) (s : State) : list ServiceCall :=
  creations_in k (service_calls s).

(** The creation request did not deliver a usable chat id. *)
Definition creation_failed (r : Settled (option string)) : bool :=
  match r with
  | Resolves chatID => negb (truthy_opt chatID)
  | Rejects => true
  end.

(** Every member of the chat is the current user. *)
Definition self_chat (env : Services) (chat : Chat) : Prop :=
  exists u, currentUser env = Some u
            /\ List.Forall (fun i => i = user_id u) (memberIDs chat).

(** The first member that is not the current user. *)
Definition chat_partner (env : Services) (chat : Chat) : option string :=
  List.find (not_current env) (memberIDs chat).

(** Call numbers are handed out in order: whatever is pending or logged
    belongs to a call already made, and a call whose lookup is still
    pending has sent no creation request; no call sends two. *)
Definition calls_in_order (s : State) : Prop :=
  forall k,
    (length (creations k s) <= 1)%nat
    /\ ((next_call s <= k)%nat -> task_of k s = None /\ creations k s = [])
    /\ (forall user, task_of k s = Some (AwaitGetChat user) -> creations k s = []).

End Navigation.

(** * The claims that the service does not meet, as they are worded *)

Module AsStated.

Import Navigation.

(** C2: the notification that shows the awaited chat makes it the view
    object and ends the subscription there and then. *)
Definition C2_as_stated : Prop :=
  forall s subs later k i cs chat,
    subscriptions s = (subs ++ (k, i) :: later)%list ->
    List.find (fun c => String.eqb (chat_id c) i) cs = Some chat ->
    List.Forall
      (fun sub => List.find (fun c => String.eqb (chat_id c) (snd sub)) cs = None)
      later ->
    let s' := step s (ChatListChange cs) in
    _chatViewObject s' = Some (VChat chat)
    /\ (forall j, ~ In (k, j) (subscriptions s'))
    /\ (forall cs', _chatViewObject (step s' (ChatListChange cs'))
                    = _chatViewObject s').

(** C3: [navigationComplete] is emitted for a call only when the view
    object is what that call asked for. *)
Definition C3_as_stated : Prop :=
  forall es k object rest,
    let s := run es init in
    timers s = ResumeSetChatViewObject k object :: rest ->
    navigationComplete (step s TimerFires) <> navigationComplete s ->
    requested s k object (_chatViewObject s).

(** C5: the partner's name is used whenever the directory has the
    partner. *)
Definition C5_as_stated : Prop :=
  forall env s,
    (forall channel, chatViewObject env s = VChannel channel ->
       getSearchContext env s = "in:#" ++ channel_name channel)
    /\ (forall chat pid u,
          chatViewObject env s = VChat chat ->
          chat_partner env chat = Some pid ->
          getUserByID env pid = Some u ->
          getSearchContext env s = "in:@" ++ user_name u)
    /\ (forall chat u,
          chatViewObject env s = VChat chat ->
          currentUser env = Some u ->
          List.Forall (fun i => i = user_id u) (memberIDs chat) ->
          getSearchContext env s = "in:@" ++ user_name u)
    /\ (forall chat,
          chatViewObject env s = VChat chat ->
          ~ (exists pid u, chat_partner env chat = Some pid
                           /\ getUserByID env pid = Some u) ->
          ~ self_chat env chat ->
          getSearchContext env s = "").

(** C6: a creation request that fails is reported to the caller: the
    promise of the call ends up rejected. *)
Definition C6_as_stated : Prop :=
  forall es k user r,
    let s := run es init in
    task_of k s = Some (AwaitAddChat user) ->
    creation_failed r = true ->
    exists es',
      In (k, Rejected)
         (settled (run es' (step s (Settle_addChatWithUserOnFirestore k r)))).

(** C8: an empty messages path becomes [undefined], for a channel and for
    a chat. *)
Definition C8_as_stated : Prop :=
  (forall s channel,
     let s' := step s (Call_setChatViewObject (inl channel)) in
     _chatViewObject s' = Some (VChannel channel)
     /\ (channelMessagesPath channel = "" -> chatViewPath s' = None)
     /\ (channelMessagesPath channel <> "" ->
         chatViewPath s' = Some (channelMessagesPath channel)))
  /\ (forall s k user chat,
        task_of k s = Some (AwaitGetChat user) ->
        chatMessagesPath chat = "" ->
        chatViewPath (step s (Settle_getChatWithUserByID k (Resolves (Some chat))))
        = None).

(** C10: with nobody logged in, the name of the first member is used
    whenever the directory has that member. *)
Definition C10_as_stated : Prop :=
  forall env s chat,
    currentUser env = None ->
    chatViewObject env s = VChat chat ->
    isSelfChat env s = false
    /\ (forall first u,
          head (memberIDs chat) = Some first ->
          getUserByID env first = Some u ->
          getSearchContext env s = "in:@" ++ user_name u)
    /\ (~ (exists first u, head (memberIDs chat) = Some first
                           /\ getUserByID env first = Some u) ->
        getSearchContext env s = "").

End AsStated.

(** * The earlier revision of the service

    navigation.service.ts is at hand in two revisions.  [Navigation]
    follows the later one, which has the typed change values and creates
    the chat that is missing.  The two agree on [getSearchContext],
    [isSelfChat], [getChatPartnerName], on the path of a selected channel
    or chat and on the test before [navigationComplete]; the earlier one
    creates no chat, and its [setThreadViewObject] has no guard. *)

Module EarlierRevision.

Record ThreadView := mkThreadView {
  _threadViewObject : option Message;
  _threadViewPath : option string;
  changes : list string
}.

Definition setThreadViewObject (message : Message) (s : ThreadView) : ThreadView :=
  mkThreadView (Some message) (Some (answerPath message))
               (changes s ++ ["message"]).

End EarlierRevision.

(** * A small workspace

    Concrete users, channels, chats and batches, for the examples and the
    scenarios further down. *)

Module Sample.

Import Navigation.

Definition alice : User := mkUser "u1" "alice".
Definition bob : User := mkUser "u2" "bob".
Definition nameless : User := mkUser "u3" "".

Definition directory (i : string) : option User :=
  if String.eqb i "u1" then Some alice
  else if String.eqb i "u2" then Some bob
  else if String.eqb i "u3" then Some nameless
  else None.

Definition general : Channel :=
  mkChannel 0 "c0" "general" ["u1"; "u2"; "u3"] "".
Definition dev : Channel :=
  mkChannel 1 "c1" "dev" ["u1"; "u2"] "channels/c1/messages".

(** Logged in as alice, and not logged in. *)
Definition as_alice : Services := mkServices general (Some alice) directory.
Definition logged_out : Services := mkServices general None directory.

Definition chat_alice_bob : Chat :=
  mkChat "chat-ab" ["u1"; "u2"] "chats/chat-ab/messages".
Definition chat_alice_alice : Chat :=
  mkChat "chat-aa" ["u1"; "u1"] "chats/chat-aa/messages".
Definition chat_alice_nameless : Chat :=
  mkChat "chat-an" ["u1"; "u3"] "chats/chat-an/messages".
Definition chat_nameless_nameless : Chat :=
  mkChat "chat-nn" ["u3"; "u3"] "chats/chat-nn/messages".
Definition chat_without_path : Chat :=
  mkChat "chat-np" ["u1"; "u2"] "".

(** The state in which [v] is on display and nothing is pending. *)
Definition showing (v : ViewObject) (p : option string) : State :=
  set_view v p init.

Definition question : Message :=
  mkMessage "m1" "u1" 1700000000000 true "channels/c1/messages/m1/answers" "why?".
Definition notice : Message :=
  mkMessage "m2" "u2" 1700000000500 false "" "joined".

(** alice selects bob, no chat exists, the creation request returns
    ["chat-ab"], the timer of the call fires, and the chat list then
    shows the new chat. *)
Definition bob_chat_created : list Event :=
  [ Call_setChatViewObject (inr bob);
    Settle_getChatWithUserByID 0 (Resolves None);
    Settle_addChatWithUserOnFirestore 0 (Resolves (Some "chat-ab"));
    TimerFires;
    ChatListChange [chat_alice_bob] ].

(** nameless is selected, then bob, and both lookups find a chat before
    the timer of the first call fires. *)
Definition nameless_then_bob : list Event :=
  [ Call_setChatViewObject (inr nameless);
    Settle_getChatWithUserByID 0 (Resolves (Some chat_alice_nameless));
    Call_setChatViewObject (inr bob);
    Settle_getChatWithUserByID 1 (Resolves (Some chat_alice_bob)) ].

(** bob is selected, no chat exists and the creation request is
    rejected; then the timer of the call fires. *)
Definition bob_chat_refused : list Event :=
  [ Call_setChatViewObject (inr bob);
    Settle_getChatWithUserByID 0 (Resolves None);
    Settle_addChatWithUserOnFirestore 0 Rejects;
    TimerFires ].

Import MessagesListView.

Definition doc (creator : string) (at_ : Z) (text : string) : MessageModel.DocData :=
  MessageModel.mkData creator at_ true text.

Definition first_batch : list (DocumentChange MessageModel.DocData) :=
  [ mkChange added "m1" (doc "u1" 50 "one");
    mkChange added "m2" (doc "u2" 30 "two");
    mkChange added "m3" (doc "u1" 50 "three") ].

Definition edit_m1 : DocumentChange MessageModel.DocData :=
  mkChange modified "m1" (doc "u1" 50 "one, edited").

Definition remove_m1 : DocumentChange MessageModel.DocData :=
  mkChange removed "m1" (doc "u1" 50 "one").

Definition second_batch : list (DocumentChange MessageModel.DocData) :=
  [ mkChange removed "m2" (doc "u2" 30 "two");
    edit_m1;
    mkChange added "m4" (doc "u2" 40 "four") ].

Definition session : list (Event MessageModel.DocData) :=
  [ SetMessagesPath (Some "channels/c1/messages");
    Snapshot 0 first_batch;
    Snapshot 0 second_batch ].

Definition after_first_batch : Component :=
  run [ SetMessagesPath (Some "channels/c1/messages");
        Snapshot 0 first_batch ] init.

End Sample.

(** * More of the messages list component *)

Module MessagesListHelpers.

Import MessagesListView.

(** [this.messages[index]]: the message at a place of the list, if the
    place exists. *)
Definition message_at (c : Component) (index : nat) : option Message :=
  match messages c !! index with
  | Some r => store c !! r
  | None => None
  end.

Section Helpers.

(** [date.getDate()]: the day of the month, in local time, of an instant
    given in epoch milliseconds. *)
Variable getDate : Z -> Z.

(** [ifDaySeparatorIsNeeded(index)].  Reading [createdAt] of a place that
    does not exist throws; [None] stands for the TypeError. *)
Definition ifDaySeparatorIsNeeded (c : Component) (index : nat) : option bool :=
  if Nat.eqb index 0 then Some true
  else
    match message_at c index, message_at c (index - 1) with
    | Some m, Some m' =>
        Some (negb (getDate (createdAt m) =? getDate (createdAt m')))
    | _, _ => None
    end.

End Helpers.

(** [ifMessageFromSameUserAsPrevious(index)] *)
Definition ifMessageFromSameUserAsPrevious (c : Component) (index : nat) : option bool :=
  if Nat.eqb index 0 then Some false
  else
    match message_at c index, message_at c (index - 1) with
    | Some m, Some m' => Some (String.eqb (creatorID m) (creatorID m'))
    | _, _ => None
    end.

Section Counting.

Context {DocData : Type}.

Definition is_added (change : DocumentChange DocData) : bool :=
  match type change with
  | added => true
  | _ => false
  end.

Definition is_removed (change : DocumentChange DocData) : bool :=
  match type change with
  | removed => true
  | _ => false
  end.

End Counting.

(** The references held are references of constructed messages, each
    held once. *)
Definition held_once (c : Component) : Prop :=
  valid c /\ List.NoDup (messages c).

(** The held references whose message has id [i]. *)
Definition held_with_id (c : Component) (i : string) : list nat :=
  List.filter (has_id (store c) i) (messages c).

End MessagesListHelpers.

(** * Scrolling to a message

    [scrollToMessageInView] of the messages list component.  The DOM is
    read through [present], which says whether
    [document.getElementById(message.id)] finds the element at a given
    time; times are the nominal times of the timers, in milliseconds.  The
    result is the list of what the function does to the DOM. *)

Module ScrollToMessage.

Inductive Action :=
| getElementById (t : Z)
| scrollIntoView (t : Z)
| classList_add (t : Z)
| classList_remove (t : Z).

Definition maxAttempts : nat := 5.

Section Scroll.

Variable present : Z -> bool.

(** The closure [scrollToElement], run at time [t] with the counter at
    [attempts]; [fuel] bounds the number of retries that are followed. *)
Fixpoint scrollToElement (fuel attempts : nat) (t : Z) : list Action :=
  getElementById t ::
  if present t then
    [scrollIntoView t; classList_add t; classList_remove (t + 1750)]
  else if Nat.ltb attempts maxAttempts then
    match fuel with
    | S fuel' => scrollToElement fuel' (S attempts) (t + 500)
    | O => []
    end
  else [].

(** [scrollToMessageInView(message)] called at time [t0]. *)
Definition scrollToMessageInView (t0 : Z) : list Action :=
  scrollToElement maxAttempts 0 (t0 + 100).

End Scroll.

(** The time of the attempt with number [i], counted from 0. *)
Definition attempt_time (t0 : Z) (i : nat) : Z := t0 + 100 + 500 * Z.of_nat i.

Definition lookups (t0 : Z) (n : nat) : list Action :=
  map (fun i => getElementById (attempt_time t0 i)) (seq 0 n).

End ScrollToMessage.

(** * The thread view component

    threadview.component.ts.  The [defaultChannel] flag of a Channel is
    read through a function. *)

Module Threadview.

Import Navigation.

Section Component.

Variable is_defaultChannel : Channel -> bool.

Record Component := mkComponent {
  currentChannel : option ViewObject;
  isAChannel : bool;
  isAChat : bool;
  isDefaultChannel : bool;
  requiredAvatars : list string
}.

(** Field initialisers; the input [currentChannel] is not set yet. *)
Definition init : Component := mkComponent None false false true [].

Definition setObjectType (c : Component) : Component :=
  mkComponent (currentChannel c)
              (match currentChannel c with
               | Some (VChannel _) => true
               | _ => isAChannel c
               end)
              (match currentChannel c with
               | Some (VChat _) => true
               | _ => isAChat c
               end)
              (isDefaultChannel c) (requiredAvatars c).

(** [memberIDs.slice(0, 3)] *)
Definition getRequiredAvatars (c : Component) : Component :=
  mkComponent (currentChannel c) (isAChannel c) (isAChat c) (isDefaultChannel c)
              (match currentChannel c with
               | Some (VChannel channel) => take 3 (channel_memberIDs channel)
               | _ => requiredAvatars c
               end).

(** [ngOnChanges(changes)]; [change] is [changes['currentChannel'].currentValue]
    when [changes] has that key. *)
Definition ngOnChanges (change : option ViewObject) (c : Component) : Component :=
  match change with
  | Some v =>
      getRequiredAvatars
        (setObjectType
           (mkComponent (Some v) (isAChannel c) (isAChat c)
                        (match v with
                         | VChannel channel => is_defaultChannel channel
                         | VChat _ => false
                         end)
                        (requiredAvatars c)))
  | None => c
  end.

Definition run (changes : list (option ViewObject)) (c : Component) : Component :=
  fold_left (fun c change => ngOnChanges change c) changes c.

End Component.

(** The argument of [getTitle]: [Channel | Chat | Message | undefined]. *)
Inductive TitleOf :=
| OfChannel (channel : Channel)
| OfChat (chat : Chat)
| OfMessage (message : Message)
| OfUndefined.

Definition getTitle (object : TitleOf) : string :=
  match object with
  | OfChannel channel => channel_name channel
  | _ => ""
  end.

(** The last element of a list for which [g] gives something. *)
Definition last_some {A B : Type} (g : B -> option A) (l : list B) : option A :=
  fold_left (fun acc x => match g x with
                          | Some y => Some y
                          | None => acc
                          end) l None.

Definition channel_of (change : option ViewObject) : option Channel :=
  match change with
  | Some (VChannel channel) => Some channel
  | _ => None
  end.

(** The last channel, and the last value, that the input has taken. *)
Definition last_channel (changes : list (option ViewObject)) : option Channel :=
  last_some channel_of changes.

Definition last_value (changes : list (option ViewObject)) : option ViewObject :=
  last_some (fun change => change) changes.

Definition is_channel_change (change : option ViewObject) : bool :=
  match change with
  | Some (VChannel _) => true
  | _ => false
  end.

Definition is_chat_change (change : option ViewObject) : bool :=
  match change with
  | Some (VChat _) => true
  | _ => false
  end.

End Threadview.

(** * More notions for the navigation service *)

Module NavigationNotions.

Import Navigation.

(** The path that goes with a view object: what [setChatViewObjectAsChannel]
    and [setChatViewObjectAsChat] store beside it. *)
Definition path_for (v : option ViewObject) : option string :=
  match v with
  | Some (VChannel channel) =>
      if String.eqb (channelMessagesPath channel) "" then None
      else Some (channelMessagesPath channel)
  | Some (VChat chat) => Some (chatMessagesPath chat)
  | None => None
  end.

(** The thread path is the answer path of the thread message, and only an
    answerable message is ever the thread. *)
Definition thread_consistent (s : State) : Prop :=
  match _threadViewObject s with
  | Some message =>
      answerable message = true /\ _threadViewPath s = Some (answerPath message)
  | None => _threadViewPath s = None
  end.

(** The calls whose 100 ms timer has not fired yet, in the order of the
    queue. *)
Definition resume_calls (ts : list Timer) : list nat :=
  omap (fun t => match t with
                 | ResumeSetChatViewObject k _ => Some k
                 | Unsubscribe _ => None
                 end) ts.

(** Every call is either waiting for its timer or has had its promise
    settled, in the order of the calls; [navigationCompleteSubject] has had
    one [next()] for each settled call, and [navigationComplete] was
    emitted for settled calls only, each once, in their order. *)
Definition accounted (s : State) : Prop :=
  (map fst (settled s) ++ resume_calls (timers s))%list = seq 0 (next_call s)
  /\ navigationCompleteSubject s = length (settled s)
  /\ sublist (navigationComplete s) (map fst (settled s)).

(** The events that are calls of a method of the service. *)
Definition is_call (e : Event) : bool :=
  match e with
  | Call_setChatViewObject _ | Call_setThreadViewObject _
  | Call_clearThreadViewObject => true
  | _ => false
  end.

End NavigationNotions.

(** * The earlier revision of the service, as a whole

    The revision of navigation.service.ts without chat creation.  Its
    [setChatViewObject] awaits the lookup, so what follows the lookup
    (clearing the thread, the change value, the timer) happens when the
    lookup settles; a rejected lookup rejects the promise of the call. *)

Module EarlierService.

Import Navigation.

Record State := mkState {
  _chatViewObject : option ViewObject;
  _chatViewPath : option string;
  _threadViewObject : option Message;
  _threadViewPath : option string;
  (* values of changeSubject, oldest first, its initial value included *)
  changes : list string;
  navigationCompleteSubject : nat;
  navigationComplete : list nat;
  (* the calls of getChatWithUserByID, the calls suspended at the lookup,
     the 100 ms timers in the order they were set *)
  lookups : list (nat * string);
  tasks : list (nat * User);
  timers : list (nat * (Channel + User));
  settled : list (nat * Outcome);
  next_call : nat
}.

Definition init : State :=
  mkState None None None None [""] 0%nat [] [] [] [] [] 0%nat.

Definition chatViewObject (env : Services) (s : State) : ViewObject :=
  match _chatViewObject s with
  | None => VChannel (defaultChannel env)
  | Some v => v
  end.

Definition ifMainMessageObjectIsChannel (s : State) : bool :=
  match _chatViewObject s with
  | Some (VChannel _) => true
  | _ => false
  end.

Definition ifMainMessageObjectIsChat (s : State) : bool :=
  match _chatViewObject s with
  | Some (VChat _) => true
  | _ => false
  end.

Definition set_view (v : ViewObject) (p : option string) (s : State) : State :=
  mkState (Some v) p (_threadViewObject s) (_threadViewPath s)
          (changes s) (navigationCompleteSubject s) (navigationComplete s)
          (lookups s) (tasks s) (timers s) (settled s) (next_call s).

(** [clearThread(); changeSubject.next('chatViewObjectSet');] and the
    timer before the rest of [setChatViewObject]. *)
Definition after_selection (k : nat) (object : Channel + User) (s : State) : State :=
  mkState (_chatViewObject s) (_chatViewPath s) None None
          (changes s ++ ["chatViewObjectSet"])
          (navigationCompleteSubject s) (navigationComplete s)
          (lookups s) (tasks s) (timers s ++ [(k, object)]) (settled s)
          (next_call s).

Definition task_of (k : nat) (s : State) : option User :=
  snd <$> List.find (fun t => Nat.eqb (fst t) k) (tasks s).

Definition drop_task (k : nat) (s : State) : State :=
  mkState (_chatViewObject s) (_chatViewPath s)
          (_threadViewObject s) (_threadViewPath s)
          (changes s) (navigationCompleteSubject s) (navigationComplete s)
          (lookups s)
          (List.filter (fun t => negb (Nat.eqb (fst t) k)) (tasks s))
          (timers s) (settled s) (next_call s).

Definition bump_call (s : State) : State :=
  mkState (_chatViewObject s) (_chatViewPath s)
          (_threadViewObject s) (_threadViewPath s)
          (changes s) (navigationCompleteSubject s) (navigationComplete s)
          (lookups s) (tasks s) (timers s) (settled s) (S (next_call s)).

(** [setChatViewObject(object)] up to its first [await]. *)
Definition setChatViewObject (object : Channel + User) (s : State) : State :=
  let k := next_call s in
  bump_call
    match object with
    | inl channel =>
        after_selection k object
          (set_view (VChannel channel)
                    (if String.eqb (channelMessagesPath channel) "" then None
                     else Some (channelMessagesPath channel))
                    s)
    | inr user =>
        mkState (_chatViewObject s) (_chatViewPath s)
                (_threadViewObject s) (_threadViewPath s)
                (changes s) (navigationCompleteSubject s) (navigationComplete s)
                (lookups s ++ [(k, user_id user)])
                (tasks s ++ [(k, user)])
                (timers s) (settled s) (next_call s)
    end.

(** [setChatViewObject(user)] resumed with the result of the lookup. *)
Definition setChatViewObject_got (k : nat) (user : User)
    (r : Settled (option Chat)) (s : State) : State :=
  match r with
  | Resolves (Some chat) =>
      after_selection k (inr user)
        (set_view (VChat chat) (Some (chatMessagesPath chat)) (drop_task k s))
  | Resolves None => after_selection k (inr user) (drop_task k s)
  | Rejects =>
      let s1 := drop_task k s in
      mkState (_chatViewObject s1) (_chatViewPath s1)
              (_threadViewObject s1) (_threadViewPath s1)
              (changes s1) (navigationCompleteSubject s1) (navigationComplete s1)
              (lookups s1) (tasks s1) (timers s1)
              (settled s1 ++ [(k, Rejected)]) (next_call s1)
  end.

(** The rest of [setChatViewObject], after the timer. *)
Definition setChatViewObject_resume (k : nat) (object : Channel + User)
    (ts : list (nat * (Channel + User))) (s : State) : State :=
  mkState (_chatViewObject s) (_chatViewPath s)
          (_threadViewObject s) (_threadViewPath s)
          (changes s) (S (navigationCompleteSubject s))
          (if same_object (_chatViewObject s) object
              || (is_Chat (_chatViewObject s) && is_User object)
           then navigationComplete s ++ [k] else navigationComplete s)
          (lookups s) (tasks s) ts (settled s ++ [(k, Fulfilled)]) (next_call s).

Definition setThreadViewObject (message : Message) (s : State) : State :=
  mkState (_chatViewObject s) (_chatViewPath s)
          (Some message) (Some (answerPath message))
          (changes s ++ ["message"])
          (navigationCompleteSubject s) (navigationComplete s)
          (lookups s) (tasks s) (timers s) (settled s) (next_call s).

Inductive Event :=
| Call_setChatViewObject (object : Channel + User)
| Call_setThreadViewObject (message : Message)
| Settle_getChatWithUserByID (k : nat) (r : Settled (option Chat))
| TimerFires.

Definition step (s : State) (e : Event) : State :=
  match e with
  | Call_setChatViewObject object => setChatViewObject object s
  | Call_setThreadViewObject message => setThreadViewObject message s
  | Settle_getChatWithUserByID k r =>
      match task_of k s with
      | Some user => setChatViewObject_got k user r s
      | None => s
      end
  | TimerFires =>
      match timers s with
      | (k, object) :: ts => setChatViewObject_resume k object ts s
      | [] => s
      end
  end.

Definition run (es : list Event) (s : State) : State := fold_left step es s.

End EarlierService.

(** * Further sample states of the service *)

Module MoreSample.

Import Navigation Sample.

(** bob is selected and the lookup is under way. *)
Definition bob_selected : State := run [Call_setChatViewObject (inr bob)] init.

(** bob is selected, no chat exists, and the creation request has returned
    ["chat-ab"]: the service waits for that chat in the chat list. *)
Definition awaiting_bob_chat : State :=
  run [ Call_setChatViewObject (inr bob);
        Settle_getChatWithUserByID 0 (Resolves None);
        Settle_addChatWithUserOnFirestore 0 (Resolves (Some "chat-ab")) ] init.

End MoreSample.

(** * Facts about the list helpers *)

Section ListFacts.

Context {A : Type}.

Lemma insert_by_perm (cmp : A -> A -> Z) (x : A) (l : list A) :
  Permutation (insert_by cmp x l) (x :: l).
Proof.
  induction l as [|y l IH]; simpl.
  - apply Permutation_refl.
  - destruct (cmp x y <=? 0).
    + apply Permutation_refl.
    + eapply perm_trans; [apply perm_skip, IH | apply perm_swap].
Qed.

Lemma Array_sort_perm (cmp : A -> A -> Z) (l : list A) :
  Permutation (Array_sort cmp l) l.
Proof.
  induction l as [|x l IH]; simpl.
  - apply perm_nil.
  - eapply perm_trans; [apply insert_by_perm | apply perm_skip, IH].
Qed.

(** [Array_sort] by a key is a stable sort: the result is ordered by the
    key, and the elements of any one key keep their order. *)
Lemma insert_by_stable (key : A -> Z) (t : Z) (x : A) (l : list A) :
  List.filter (fun a => key a =? t) (insert_by (fun a b => key a - key b) x l)
  = List.filter (fun a => key a =? t) (x :: l).
Proof.
  induction l as [|y l IH]; [reflexivity|].
  cbn [insert_by].
  destruct (Z.leb_spec (key x - key y) 0) as [Hle|Hgt]; [reflexivity|].
  cbn [List.filter] in *. rewrite IH.
  destruct (Z.eqb_spec (key y) t) as [Hy|Hy]; [|reflexivity].
  destruct (Z.eqb_spec (key x) t) as [Hx|Hx]; [lia | reflexivity].
Qed.

Lemma Array_sort_stable (key : A -> Z) (t : Z) (l : list A) :
  List.filter (fun a => key a =? t) (Array_sort (fun a b => key a - key b) l)
  = List.filter (fun a => key a =? t) l.
Proof.
  induction l as [|x l IH]; [reflexivity|].
  cbn [Array_sort foldr]. fold (Array_sort (fun a b => key a - key b) l).
  rewrite insert_by_stable. cbn [List.filter]. now rewrite IH.
Qed.

Lemma insert_by_sorted (key : A -> Z) (x : A) (l : list A) :
  StronglySorted (fun a b => key a <= key b) l ->
  StronglySorted (fun a b => key a <= key b)
                 (insert_by (fun a b => key a - key b) x l).
Proof.
  induction 1 as [|y l Hs IH Hall]; cbn [insert_by].
  - repeat constructor.
  - destruct (Z.leb_spec (key x - key y) 0) as [Hle|Hgt].
    + constructor; [now constructor|].
      constructor; [lia|].
      eapply List.Forall_impl; [|exact Hall]. cbv beta. intros; lia.
    + constructor; [exact IH|].
      rewrite List.Forall_forall in Hall |- *. intros z Hz.
      apply (Permutation_in _ (insert_by_perm _ x l)) in Hz.
      destruct Hz as [<-|Hz]; [lia | now apply Hall].
Qed.

Lemma Array_sort_sorted (key : A -> Z) (l : list A) :
  StronglySorted (fun a b => key a <= key b)
                 (Array_sort (fun a b => key a - key b) l).
Proof.
  induction l as [|x l IH]; [constructor|].
  cbn [Array_sort foldr]. now apply insert_by_sorted.
Qed.

Lemma StronglySorted_on (R R' : A -> A -> Prop) (l : list A) :
  (forall a b, In a l -> In b l -> R a b -> R' a b) ->
  StronglySorted R l -> StronglySorted R' l.
Proof.
  intros HR Hs. induction Hs as [|a l Hs IH Hall].
  - constructor.
  - constructor.
    + apply IH. intros x y Hx Hy. apply HR; now right.
    + rewrite List.Forall_forall in Hall |- *.
      intros y Hy. apply HR; [now left | now right | now apply Hall].
Qed.

Lemma StronglySorted_snoc (R : A -> A -> Prop) (l : list A) (x : A) :
  StronglySorted R l -> List.Forall (fun a => R a x) l ->
  StronglySorted R (l ++ [x]).
Proof.
  induction 1 as [|a l Hs IH Hall]; intros Hx; simpl.
  - repeat constructor.
  - inversion Hx as [|? ? Hax Hlx]; subst.
    constructor; [now apply IH |].
    apply List.Forall_app. split; [exact Hall | now repeat constructor].
Qed.

Lemma StronglySorted_List_filter (R : A -> A -> Prop) (f : A -> bool) (l : list A) :
  StronglySorted R l -> StronglySorted R (List.filter f l).
Proof.
  induction 1 as [|a l Hs IH Hall]; simpl.
  - constructor.
  - destruct (f a); [|exact IH].
    constructor; [exact IH |].
    rewrite List.Forall_forall in Hall |- *.
    intros y Hy. apply Hall. apply List.filter_In in Hy. tauto.
Qed.

End ListFacts.

(** * Facts about the messages list component *)

Module MessagesListViewFacts.

Import MessagesListView.

Lemma before_by_createdAt s a b : before s a b -> by_createdAt s a b.
Proof. unfold before, by_createdAt. lia. Qed.

Lemma before_arrival_order s a b : before s a b -> arrival_order s a b.
Proof. unfold before, arrival_order. lia. Qed.

(** Inserting a reference that arrived before every equal-time reference of
    a sorted list keeps the list sorted by time and then by arrival. *)
Lemma insert_by_before s x l :
  StronglySorted (before s) l ->
  List.Forall (arrival_order s x) l ->
  StronglySorted (before s) (insert_by (compare_createdAt s) x l).
Proof.
  induction 1 as [|y l Hs IH Hall]; intros Hx; simpl.
  - repeat constructor.
  - inversion Hx as [|? ? Hxy Hxl]; subst.
    unfold compare_createdAt at 1.
    destruct (Z.leb_spec (createdAt_of s x - createdAt_of s y) 0) as [Hle|Hgt].
    + constructor; [now constructor |].
      constructor.
      * unfold before, arrival_order in *. lia.
      * rewrite List.Forall_forall in Hall, Hxl |- *.
        intros z Hz. specialize (Hall z Hz). specialize (Hxl z Hz).
        unfold before, arrival_order in *. lia.
    + constructor; [now apply IH |].
      rewrite List.Forall_forall in Hall |- *.
      intros z Hz.
      apply (Permutation_in _ (insert_by_perm _ x l)) in Hz.
      destruct Hz as [<-|Hz]; [|now apply Hall].
      unfold before. lia.
Qed.

Lemma Array_sort_before s l :
  StronglySorted (arrival_order s) l ->
  StronglySorted (before s) (Array_sort (compare_createdAt s) l).
Proof.
  induction 1 as [|x l Hs IH Hall]; simpl.
  - constructor.
  - apply insert_by_before; [exact IH |].
    rewrite List.Forall_forall in Hall |- *.
    intros z Hz. apply Hall.
    now apply (Permutation_in _ (Array_sort_perm (compare_createdAt s) l)).
Qed.

Section Facts.

Context {DocData : Type} `{!MessageClass DocData}.

(** [message.update(data)] leaves the creation time and the id alone. *)
Hypothesis update_createdAt :
  forall m d, createdAt (Message_update m d) = createdAt m.
Hypothesis update_id :
  forall m d, id (Message_update m d) = id m.

Lemma createdAt_of_update s r m d r' :
  s !! r = Some m ->
  createdAt_of (<[r := Message_update m d]> s) r' = createdAt_of s r'.
Proof.
  intros Hr. unfold createdAt_of.
  destruct (decide (r = r')) as [<-|Hne].
  - rewrite list_lookup_insert_eq by (eapply lookup_lt_Some; eauto).
    rewrite Hr. apply update_createdAt.
  - now rewrite list_lookup_insert_ne.
Qed.

Lemma createdAt_of_push s m r :
  (r < length s)%nat -> createdAt_of (s ++ [m]) r = createdAt_of s r.
Proof. intros Hr. unfold createdAt_of. now rewrite lookup_app_l. Qed.

(** A message that is pushed gets a reference above every reference held:
    the order of the references is the order of arrival. *)
Lemma push_new_arrives_last d path i (c : Component) :
  valid c ->
  messages (push_new d path i c) = (messages c ++ [length (store c)])%list
  /\ List.Forall (fun r => (r < length (store c))%nat) (messages c)
  /\ store (push_new d path i c) !! length (store c) = Some (Message_new d path i).
Proof.
  intros Hv. split; [reflexivity|]. split; [exact Hv|].
  simpl. rewrite lookup_app_r by lia. now rewrite Nat.sub_diag.
Qed.

Lemma apply_change_applying path acc (change : DocumentChange DocData) :
  applying acc -> applying (apply_change path acc change).
Proof using update_createdAt.
  destruct acc as [b c]. intros (Hv & Ha & Hb). unfold applying in *. simpl in *.
  unfold apply_change.
  destruct (type change); simpl.
  - (* added *)
    split; [|split; [|discriminate]].
    + unfold valid in *. simpl. apply List.Forall_app. split.
      * eapply List.Forall_impl; [|exact Hv]. simpl. intros r Hr.
        rewrite length_app. simpl. lia.
      * repeat constructor. rewrite length_app. simpl. lia.
    + apply StronglySorted_snoc.
      * eapply StronglySorted_on; [|exact Ha].
        intros a b' Hin Hin'. unfold arrival_order, valid in *.
        rewrite List.Forall_forall in Hv.
        rewrite !createdAt_of_push by now apply Hv. trivial.
      * unfold valid in Hv. eapply List.Forall_impl; [|exact Hv].
        simpl. intros r Hr _. exact Hr.
  - (* modified *)
    unfold update_found.
    destruct (List.find _ _) as [r|]; [|tauto].
    destruct (store c !! r) as [m|] eqn:Hr; [|tauto]. simpl.
    split; [|split].
    + unfold valid in *. simpl. now rewrite length_insert.
    + eapply StronglySorted_on; [|exact Ha].
      intros a b' _ _. unfold arrival_order.
      now rewrite !(createdAt_of_update _ _ _ _ _ Hr).
    + intros Hf. eapply StronglySorted_on; [|exact (Hb Hf)].
      intros a b' _ _. unfold before.
      now rewrite !(createdAt_of_update _ _ _ _ _ Hr).
  - (* removed *)
    split; [|split].
    + unfold valid in *. simpl.
      rewrite List.Forall_forall in Hv |- *.
      intros r Hr. apply List.filter_In in Hr. now apply Hv.
    + now apply StronglySorted_List_filter.
    + intros Hf. now apply StronglySorted_List_filter, Hb.
Qed.

Lemma fold_apply_change_applying path batch acc :
  applying acc -> applying (fold_left (apply_change path) batch acc).
Proof using update_createdAt.
  revert acc. induction batch as [|ch batch IH]; intros acc Hacc; simpl.
  - exact Hacc.
  - apply IH. now apply apply_change_applying.
Qed.

Lemma on_snapshot_at_rest path batch c :
  at_rest c -> at_rest (on_snapshot path batch c).
Proof using update_createdAt.
  intros [Hv Hs]. unfold on_snapshot.
  pose proof (fold_apply_change_applying path batch (false, c)) as H.
  destruct (fold_left _ batch (false, c)) as [b c'].
  destruct H as (Hv' & Ha & Hb).
  { split; [exact Hv|]. split; [|intros _; exact Hs].
    eapply StronglySorted_on; [|exact Hs]. intros. now apply before_arrival_order. }
  simpl in *. destruct b.
  - split.
    + unfold valid in *. simpl.
      rewrite List.Forall_forall in Hv' |- *.
      intros r Hr. apply Hv'.
      now apply (Permutation_in _ (Array_sort_perm (compare_createdAt (store c')) (messages c'))).
    + simpl. now apply Array_sort_before.
  - split; [exact Hv' | now apply Hb].
Qed.

Lemma step_at_rest c e : at_rest c -> at_rest (step c e).
Proof using update_createdAt.
  intros Hc. destruct e as [v|h batch|]; simpl.
  - unfold set_messagesPath, subscribeMessages. simpl.
    destruct v as [p|]; [destruct (truthy p)|]; simpl;
      (split; [constructor | constructor]).
  - unfold deliver.
    destruct (path_of h (listeners c)); [|exact Hc].
    now apply on_snapshot_at_rest.
  - exact Hc.
Qed.

Lemma run_at_rest es c : at_rest c -> at_rest (run es c).
Proof using update_createdAt.
  revert c. induction es as [|e es IH]; intros c Hc; simpl.
  - exact Hc.
  - apply IH. now apply step_at_rest.
Qed.

Lemma init_at_rest : at_rest init.
Proof. split; constructor. Qed.

(** C1.  Whatever the component has been through (paths attached, batches
    delivered), the list on display after a batch is sorted by createdAt,
    non-decreasing, and messages with the same createdAt stand in the
    order in which they arrived.  The view is refreshed at the end of the
    snapshot callback only, after the sort, so no other list is shown. *)
Theorem C1_messages_sorted_by_createdAt_stable
    (es : list (Event DocData)) :
  let c := run es init in
  StronglySorted (by_createdAt (store c)) (messages c)
  /\ StronglySorted (arrival_order (store c)) (messages c).
Proof using update_createdAt.
  simpl. destruct (run_at_rest es init init_at_rest) as [_ Hs].
  split; (eapply StronglySorted_on; [|exact Hs]); intros.
  - now apply before_by_createdAt.
  - now apply before_arrival_order.
Qed.

(** ** A [modified] delta *)

Lemma find_has_id_Some s i l r :
  List.find (has_id s i) l = Some r ->
  In r l /\ exists m, s !! r = Some m /\ id m = i.
Proof.
  intros Hf. apply List.find_some in Hf as [Hin Hid]. split; [exact Hin|].
  unfold has_id in Hid. destruct (s !! r) as [m|]; [|discriminate].
  exists m. split; [reflexivity|]. now apply String.eqb_eq.
Qed.

Lemma find_has_id_None (c : Component) i :
  List.find (has_id (store c) i) (messages c) = None <-> ~ present c i.
Proof.
  split.
  - intros Hf (r & Hin & Hid).
    pose proof (List.find_none _ _ Hf r Hin) as Hn. congruence.
  - intros Hn. destruct (List.find _ _) as [r|] eqn:Hf; [|reflexivity].
    exfalso. apply Hn. exists r. now apply List.find_some in Hf.
Qed.

Lemma filter_out_not_present (c : Component) i : ~ present (filter_out i c) i.
Proof.
  intros (r & Hin & Hid). simpl in *.
  apply List.filter_In in Hin as [_ Hin]. rewrite Hid in Hin. discriminate.
Qed.

Lemma update_found_absent (c : Component) i (d : DocData) :
  ~ present c i -> update_found i d c = c.
Proof.
  intros Hn. unfold update_found.
  apply find_has_id_None in Hn. now rewrite Hn.
Qed.

Lemma update_found_present (c : Component) i (d : DocData) :
  present c i ->
  exists r m,
    List.find (has_id (store c) i) (messages c) = Some r
    /\ In r (messages c) /\ store c !! r = Some m /\ id m = i
    /\ update_found i d c =
       mkComponent (<[r := Message_update m d]> (store c)) (messages c)
                   (unsubMessages c) (listeners c) (next_handle c)
                   (messageEditorOpen c).
Proof.
  intros Hp. unfold update_found.
  destruct (List.find _ _) as [r|] eqn:Hf.
  - destruct (find_has_id_Some _ _ _ _ Hf) as (Hin & m & Hm & Hid).
    exists r, m. rewrite Hm. repeat split; assumption || reflexivity.
  - exfalso. now apply find_has_id_None in Hf.
Qed.

(** C4.  A [modified] delta leaves the array of references as it is (same
    objects at the same places, so the same length, nothing doubled,
    nothing dropped) and does not ask for a sort.  When a message with the
    id of the delta is held, the first such object, and only it, is
    updated with the payload, and every id stays what it was; when none is
    held the delta changes nothing, and this is the case right after a
    [removed] delta for the same id. *)
Theorem C4_modified_updates_in_place
    (path : string) (sortNeeded : bool) (c : Component)
    (change : DocumentChange DocData) :
  type change = modified ->
  let i := doc_id change in
  let d := doc_data change in
  let c' := snd (apply_change path (sortNeeded, c) change) in
  fst (apply_change path (sortNeeded, c) change) = sortNeeded
  /\ messages c' = messages c
  /\ length (store c') = length (store c)
  /\ (forall r, id <$> store c' !! r = id <$> store c !! r)
  /\ (present c i ->
      exists r m,
        List.find (has_id (store c) i) (messages c) = Some r
        /\ store c !! r = Some m /\ id m = i
        /\ store c' !! r = Some (Message_update m d)
        /\ forall r', r' <> r -> store c' !! r' = store c !! r')
  /\ (~ present c i -> c' = c)
  /\ (forall removal : DocumentChange DocData,
        type removal = removed -> doc_id removal = i ->
        apply_change path (apply_change path (sortNeeded, c) removal) change
        = apply_change path (sortNeeded, c) removal).
Proof using update_id.
  intros Hty i d c'. subst i d c'. unfold apply_change. rewrite Hty. simpl.
  split; [reflexivity|].
  assert (Hcases : ~ present c (doc_id change) \/ present c (doc_id change)).
  { destruct (List.find (has_id (store c) (doc_id change)) (messages c)) eqn:Hf.
    - right. exists n. now apply List.find_some in Hf.
    - left. now apply find_has_id_None. }
  repeat split.
  - destruct Hcases as [Hn|Hp].
    + now rewrite update_found_absent.
    + destruct (update_found_present c _ (doc_data change) Hp)
        as (r & m & _ & _ & _ & _ & ->). reflexivity.
  - destruct Hcases as [Hn|Hp].
    + now rewrite update_found_absent.
    + destruct (update_found_present c _ (doc_data change) Hp)
        as (r & m & _ & _ & _ & _ & ->). simpl. apply length_insert.
  - intros r'. destruct Hcases as [Hn|Hp].
    + now rewrite update_found_absent.
    + destruct (update_found_present c _ (doc_data change) Hp)
        as (r & m & _ & _ & Hm & _ & ->). simpl.
      destruct (decide (r = r')) as [<-|Hne].
      * rewrite list_lookup_insert_eq by (eapply lookup_lt_Some; eauto).
        rewrite Hm. simpl. now rewrite update_id.
      * now rewrite list_lookup_insert_ne.
  - intros Hp.
    destruct (update_found_present c _ (doc_data change) Hp)
      as (r & m & Hf & _ & Hm & Hid & ->). simpl.
    exists r, m. repeat split; try assumption.
    + apply list_lookup_insert_eq. eapply lookup_lt_Some; eauto.
    + intros r' Hne. now apply list_lookup_insert_ne.
  - intros Hn. now apply update_found_absent.
  - intros removal Hrem Hid. rewrite Hrem. simpl. f_equal.
    apply update_found_absent. rewrite Hid. apply filter_out_not_present.
Qed.

(** ** Switching the path *)

Lemma apply_change_feed path acc (change : DocumentChange DocData) :
  let c' := snd (apply_change path acc change) in
  unsubMessages c' = unsubMessages (snd acc)
  /\ listeners c' = listeners (snd acc)
  /\ next_handle c' = next_handle (snd acc).
Proof.
  destruct acc as [b c]. unfold apply_change. destruct (type change); simpl.
  - auto.
  - unfold update_found. destruct (List.find _ _); [|auto].
    destruct (store c !! _); simpl; auto.
  - auto.
Qed.

Lemma fold_apply_change_feed path batch acc :
  let c' := snd (fold_left (apply_change path) batch acc) in
  unsubMessages c' = unsubMessages (snd acc)
  /\ listeners c' = listeners (snd acc)
  /\ next_handle c' = next_handle (snd acc).
Proof.
  revert acc. induction batch as [|ch batch IH]; intros acc; simpl.
  - auto.
  - destruct (IH (apply_change path acc ch)) as (-> & -> & ->).
    apply apply_change_feed.
Qed.

Lemma on_snapshot_feed path batch (c : Component) :
  let c' := on_snapshot path batch c in
  unsubMessages c' = unsubMessages c
  /\ listeners c' = listeners c
  /\ next_handle c' = next_handle c.
Proof.
  unfold on_snapshot.
  pose proof (fold_apply_change_feed path batch (false, c)) as H.
  destruct (fold_left _ batch (false, c)) as [b c']. simpl in H.
  destruct b; simpl; exact H.
Qed.

Lemma detach_single h p : detach h [(h, p)] = [].
Proof. unfold detach. simpl. now rewrite Nat.eqb_refl. Qed.

Lemma set_messagesPath_listeners value (c : Component) :
  one_feed c ->
  listeners (set_messagesPath value c) =
    match attached value with
    | Some p => [(next_handle c, p)]
    | None => []
    end.
Proof.
  intros [Hl|(h & p & Hu & Hl & _)]; unfold set_messagesPath, subscribeMessages, attached;
    simpl; rewrite ?Hu, Hl; simpl; rewrite ?Nat.eqb_refl; simpl.
  - destruct (unsubMessages c); destruct value as [q|]; [destruct (truthy q)| |destruct (truthy q)|];
      reflexivity.
  - destruct value as [q|]; [destruct (truthy q)|]; reflexivity.
Qed.

Lemma step_one_feed (c : Component) e : one_feed c -> one_feed (step c e).
Proof.
  intros Hc. destruct e as [v|h batch|]; simpl.
  - unfold one_feed. rewrite (set_messagesPath_listeners v c Hc).
    unfold set_messagesPath, subscribeMessages, attached.
    destruct v as [q|]; [destruct (truthy q)|]; simpl; eauto.
    right. exists (next_handle c), q. auto.
  - unfold deliver. destruct (path_of h (listeners c)); [|exact Hc].
    destruct (on_snapshot_feed s batch c) as (Hu & Hl & Hn).
    unfold one_feed. now rewrite Hu, Hl, Hn.
  - left. unfold ngOnDestroy. simpl.
    destruct Hc as [Hl|(h & p & Hu & Hl & _)].
    + rewrite Hl. now destruct (unsubMessages c).
    + rewrite Hu, Hl. apply detach_single.
Qed.

Lemma run_one_feed es (c : Component) : one_feed c -> one_feed (run es c).
Proof.
  revert c. induction es as [|e es IH]; intros c Hc; simpl.
  - exact Hc.
  - apply IH. now apply step_one_feed.
Qed.

(** C9.  Setting the [messagesPath] input, in any state the component can
    be in, empties the held list and detaches the listener of the previous
    path: the only listener left is the one of the new path, if the value
    attaches one.  Hence a batch that arrives afterwards is either ignored
    or handled by the callback of the new path, starting from the empty
    list. *)
Theorem C9_switching_path_cancels_and_resets
    (es : list (Event DocData)) (value : option string) :
  let c := run es init in
  let c' := set_messagesPath value c in
  messages c' = []
  /\ listeners c' =
       match attached value with
       | Some p => [(next_handle c, p)]
       | None => []
       end
  /\ (forall h p, unsubMessages c = Some h -> In (h, p) (listeners c) ->
      ~ In (h, p) (listeners c'))
  /\ (forall h batch,
      deliver h batch c' =
        match attached value with
        | Some p => if Nat.eqb (next_handle c) h then on_snapshot p batch c' else c'
        | None => c'
        end).
Proof.
  cbv zeta.
  assert (Hone : one_feed (run es init)) by (apply run_one_feed; now left).
  pose proof (set_messagesPath_listeners value _ Hone) as Hl.
  split; [|split; [exact Hl|split]].
  - unfold set_messagesPath, subscribeMessages.
    destruct value as [q|]; [destruct (truthy q)|]; reflexivity.
  - intros h p Hu Hin. rewrite Hl.
    destruct Hone as [He|(h' & p' & Hu' & He & Hlt)].
    + rewrite He in Hin. destruct Hin.
    + rewrite He in Hin.
      destruct Hin as [Heq|[]]. inversion Heq; subst.
      destruct (attached value); [|auto]. simpl.
      intros [Heq'|[]]. inversion Heq'. lia.
  - intros h batch. unfold deliver, path_of. rewrite Hl.
    destruct (attached value) as [p|]; simpl; [|reflexivity].
    destruct (Nat.eqb (next_handle (run es init)) h); reflexivity.
Qed.

End Facts.

End MessagesListViewFacts.

(** * Facts about the navigation service *)

Module NavigationFacts.

Import Navigation.

(** ** Threads *)

(** C7.  [setThreadViewObject] on a message that is not answerable changes
    nothing at all: thread, thread path and the list of emitted changes
    are what they were.  On an answerable message it stores the message
    and its answer path and emits [threadViewObjectSet]; the chat view is
    not touched. *)
Theorem C7_setThreadViewObject_only_if_answerable (message : Message) (s : State) :
  let s' := step s (Call_setThreadViewObject message) in
  (answerable message = false -> s' = s)
  /\ (answerable message = true ->
      threadViewObject s' = Some message
      /\ threadViewPath s' = Some (answerPath message)
      /\ changes s' = (changes s ++ [threadViewObjectSet])%list
      /\ _chatViewObject s' = _chatViewObject s
      /\ chatViewPath s' = chatViewPath s).
Proof.
  simpl. unfold setThreadViewObject. split; intros ->.
  - reflexivity.
  - repeat split.
Qed.

(** ** The search context *)

Lemma find_not_current_None env l :
  List.find (not_current env) l = None ->
  match currentUser env with
  | Some u => List.Forall (fun i => i = user_id u) l
  | None => l = []
  end.
Proof.
  intros Hf. unfold not_current in Hf.
  destruct (currentUser env) as [u|].
  - apply List.Forall_forall. intros i Hi.
    pose proof (List.find_none _ _ Hf i Hi) as Hn. simpl in Hn.
    apply negb_false_iff in Hn. now apply String.eqb_eq.
  - destruct l as [|i l]; [reflexivity | discriminate].
Qed.

Lemma find_not_current_Some env l pid :
  List.find (not_current env) l = Some pid ->
  forall u, currentUser env = Some u ->
            ~ List.Forall (fun i => i = user_id u) l.
Proof.
  intros Hf u Hu Hall. apply List.find_some in Hf as [Hin Hne].
  unfold not_current in Hne. rewrite Hu in Hne.
  rewrite List.Forall_forall in Hall. rewrite (Hall _ Hin) in Hne.
  now rewrite String.eqb_refl in Hne.
Qed.

Lemma forallb_self (u : User) (l : list string) :
  List.Forall (fun i => i = user_id u) l <->
  forallb (fun i => String.eqb i (user_id u)) l = true.
Proof.
  rewrite List.forallb_forall, List.Forall_forall.
  split; intros H i Hi; specialize (H i Hi); now apply String.eqb_eq.
Qed.

Lemma truthy_true s : truthy s = true <-> s <> "".
Proof.
  unfold truthy. rewrite negb_true_iff. split.
  - intros H ->. now rewrite String.eqb_refl in H.
  - intros H. now apply String.eqb_neq.
Qed.

Lemma isSelfChat_spec env s chat :
  chatViewObject env s = VChat chat ->
  isSelfChat env s = true <-> self_chat env chat.
Proof.
  intros Hv. unfold isSelfChat, self_chat. rewrite Hv. split.
  - destruct (currentUser env) as [u|]; [|discriminate].
    intros H. exists u. split; [reflexivity|]. now apply forallb_self.
  - intros (u & -> & H). now apply forallb_self.
Qed.

(** C5, as the code has it.  For a channel the context is [in:#] followed
    by the channel name.  For a chat: when there is a member other than
    the current user, its id is not the empty string and the directory
    gives a user with a non-empty name for it, the context is [in:@]
    followed by that name; when every member is the current user, it is
    [in:@] followed by the current user's name; in every other case it is
    the empty string. *)
Theorem C5_getSearchContext_cases (env : Services) (s : State) :
  (forall channel, chatViewObject env s = VChannel channel ->
     getSearchContext env s = "in:#" ++ channel_name channel)
  /\ (forall chat pid u,
        chatViewObject env s = VChat chat ->
        chat_partner env chat = Some pid -> pid <> "" ->
        getUserByID env pid = Some u -> user_name u <> "" ->
        getSearchContext env s = "in:@" ++ user_name u)
  /\ (forall chat u,
        chatViewObject env s = VChat chat ->
        currentUser env = Some u ->
        List.Forall (fun i => i = user_id u) (memberIDs chat) ->
        getSearchContext env s = "in:@" ++ user_name u)
  /\ (forall chat,
        chatViewObject env s = VChat chat ->
        ~ (exists pid u, chat_partner env chat = Some pid /\ pid <> ""
                         /\ getUserByID env pid = Some u /\ user_name u <> "") ->
        ~ self_chat env chat ->
        getSearchContext env s = "").
Proof.
  unfold getSearchContext, getChatPartnerName, chat_partner.
  repeat split.
  - intros channel ->. reflexivity.
  - intros chat pid u -> Hf Hpid Hu Hname. rewrite Hf.
    apply truthy_true in Hpid. rewrite Hpid, Hu. simpl.
    apply truthy_true in Hname. now rewrite Hname.
  - intros chat u Hv Hcu Hall.
    assert (Hself : isSelfChat env s = true).
    { apply (isSelfChat_spec env s chat Hv). exists u. auto. }
    rewrite Hv in *.
    destruct (List.find (not_current env) (memberIDs chat)) as [pid|] eqn:Hf.
    + exfalso. exact (find_not_current_Some _ _ _ Hf u Hcu Hall).
    + simpl. rewrite Hself. unfold currentUser_name. now rewrite Hcu.
  - intros chat Hv Hno Hns.
    assert (Hself : isSelfChat env s = false).
    { destruct (isSelfChat env s) eqn:E; [|reflexivity].
      exfalso. apply Hns. now apply (isSelfChat_spec env s chat Hv). }
    rewrite Hv in *. rewrite Hself.
    destruct (List.find (not_current env) (memberIDs chat)) as [pid|] eqn:Hf;
      [|reflexivity].
    destruct (truthy pid) eqn:Hpid; [|reflexivity].
    destruct (getUserByID env pid) as [u|] eqn:Hu; [|reflexivity]. simpl.
    destruct (truthy (user_name u)) eqn:Hname; [|reflexivity].
    exfalso. apply Hno. exists pid, u.
    repeat split; try assumption; now apply truthy_true.
Qed.

(** C10, as the code has it.  With no current user, [isSelfChat] is false
    and the first member of the chat is taken for the partner: the context
    is [in:@] followed by its name when its id is not the empty string and
    the directory gives a user with a non-empty name for it, and the empty
    string in every other case, also for a chat whose members are all the
    same user. *)
Theorem C10_getSearchContext_without_current_user
    (env : Services) (s : State) (chat : Chat) :
  currentUser env = None ->
  chatViewObject env s = VChat chat ->
  isSelfChat env s = false
  /\ chat_partner env chat = head (memberIDs chat)
  /\ (forall first u,
        head (memberIDs chat) = Some first -> first <> "" ->
        getUserByID env first = Some u -> user_name u <> "" ->
        getSearchContext env s = "in:@" ++ user_name u)
  /\ (~ (exists first u,
           head (memberIDs chat) = Some first /\ first <> ""
           /\ getUserByID env first = Some u /\ user_name u <> "") ->
      getSearchContext env s = "").
Proof.
  intros Hcu Hv.
  assert (Hself : isSelfChat env s = false).
  { unfold isSelfChat. rewrite Hv, Hcu. reflexivity. }
  assert (Hp : chat_partner env chat = head (memberIDs chat)).
  { unfold chat_partner, not_current. rewrite Hcu.
    destruct (memberIDs chat); reflexivity. }
  split; [exact Hself|]. split; [exact Hp|].
  unfold getSearchContext, getChatPartnerName. rewrite Hv, Hself.
  fold (chat_partner env chat). rewrite Hp. split.
  - intros first u -> Hfirst Hu Hname.
    apply truthy_true in Hfirst. rewrite Hfirst, Hu. simpl.
    apply truthy_true in Hname. now rewrite Hname.
  - intros Hno. destruct (head (memberIDs chat)) as [first|]; [|reflexivity].
    destruct (truthy first) eqn:Hfirst; [|reflexivity].
    destruct (getUserByID env first) as [u|] eqn:Hu; [|reflexivity]. simpl.
    destruct (truthy (user_name u)) eqn:Hname; [|reflexivity].
    exfalso. apply Hno. exists first, u.
    repeat split; try assumption; now apply truthy_true.
Qed.

(** ** Frame facts *)

Lemma find_app_key {B : Type} (f : B -> bool) (l1 l2 : list B) :
  List.find f (l1 ++ l2) =
    match List.find f l1 with
    | Some x => Some x
    | None => List.find f l2
    end.
Proof.
  induction l1 as [|x l1 IH]; simpl; [reflexivity|].
  destruct (f x); [reflexivity | exact IH].
Qed.

Lemma find_key_filter {B : Type} (k k' : nat) (l : list (nat * B)) :
  List.find (fun t => Nat.eqb (fst t) k)
            (List.filter (fun t => negb (Nat.eqb (fst t) k')) l) =
    if Nat.eqb k' k then None else List.find (fun t => Nat.eqb (fst t) k) l.
Proof.
  induction l as [|[n b] l IH]; simpl.
  - now destruct (Nat.eqb k' k).
  - destruct (Nat.eqb_spec n k') as [->|Hn]; simpl.
    + rewrite IH. destruct (Nat.eqb_spec k' k) as [->|Hk]; [reflexivity|].
      reflexivity.
    + rewrite IH. destruct (Nat.eqb_spec n k) as [->|Hnk].
      * destruct (Nat.eqb_spec k' k) as [->|Hk]; [contradiction | reflexivity].
      * reflexivity.
Qed.

Ltac frame_fields :=
  repeat match goal with
         | |- _ /\ _ => split
         end; reflexivity.

(** The callback of a chat list subscription touches the view, the timers
    and the bookkeeping only. *)
Lemma on_chatListChange_frame s sub :
  let s' := on_chatListChange s sub in
  chats s' = chats s /\ subscriptions s' = subscriptions s
  /\ tasks s' = tasks s /\ service_calls s' = service_calls s
  /\ next_call s' = next_call s /\ settled s' = settled s
  /\ changes s' = changes s /\ navigationComplete s' = navigationComplete s
  /\ _threadViewObject s' = _threadViewObject s
  /\ _threadViewPath s' = _threadViewPath s.
Proof.
  destruct sub as [k i]. unfold on_chatListChange.
  destruct (List.find _ _); simpl; frame_fields.
Qed.

Lemma fold_on_chatListChange_frame subs s :
  let s' := fold_left on_chatListChange subs s in
  chats s' = chats s /\ subscriptions s' = subscriptions s
  /\ tasks s' = tasks s /\ service_calls s' = service_calls s
  /\ next_call s' = next_call s /\ settled s' = settled s
  /\ changes s' = changes s /\ navigationComplete s' = navigationComplete s
  /\ _threadViewObject s' = _threadViewObject s
  /\ _threadViewPath s' = _threadViewPath s.
Proof.
  revert s. induction subs as [|sub subs IH]; intros s; simpl.
  - frame_fields.
  - destruct (IH (on_chatListChange s sub))
      as (-> & -> & -> & -> & -> & -> & -> & -> & -> & ->).
    apply on_chatListChange_frame.
Qed.

(** With nobody subscribed, a chat list change only replaces the list. *)
Lemma chatListChange_unsubscribed cs s :
  subscriptions s = [] -> chatListChange cs s = set_chats cs s.
Proof. intros H. unfold chatListChange. simpl. now rewrite H. Qed.

(** A subscriber whose chat is not in the list does nothing. *)
Lemma fold_on_chatListChange_no_match subs s :
  List.Forall
    (fun sub => List.find (fun c => String.eqb (chat_id c) (snd sub)) (chats s) = None)
    subs ->
  fold_left on_chatListChange subs s = s.
Proof.
  induction 1 as [|[k i] subs Hsub Hall IH]; simpl; [reflexivity|].
  simpl in Hsub. rewrite Hsub. exact IH.
Qed.

(** Of the subscribers whose chat is in the list, the most recent one has
    the last word on the view. *)
Lemma chatListChange_last cs s subs later k i chat :
  subscriptions s = (subs ++ (k, i) :: later)%list ->
  List.find (fun c => String.eqb (chat_id c) i) cs = Some chat ->
  List.Forall
    (fun sub => List.find (fun c => String.eqb (chat_id c) (snd sub)) cs = None)
    later ->
  let s' := chatListChange cs s in
  _chatViewObject s' = Some (VChat chat)
  /\ _chatViewPath s' = Some (chatMessagesPath chat)
  /\ In (Unsubscribe k) (timers s')
  /\ In (k, chat) (resolved s')
  /\ subscriptions s' = subscriptions s.
Proof.
  intros Hsubs Hfind Hlater. unfold chatListChange. cbv zeta.
  change (subscriptions (set_chats cs s)) with (subscriptions s).
  rewrite Hsubs, fold_left_app.
  destruct (fold_on_chatListChange_frame subs (set_chats cs s))
    as (Hchats & Hsub & _).
  set (s2 := fold_left on_chatListChange subs (set_chats cs s)) in *.
  change (chats (set_chats cs s)) with cs in Hchats.
  cbn [fold_left].
  assert (Hs3 : on_chatListChange s2 (k, i) =
                set_timers (timers s2 ++ [Unsubscribe k])
                  (note_resolved k chat
                     (set_view (VChat chat) (Some (chatMessagesPath chat)) s2))).
  { unfold on_chatListChange. now rewrite Hchats, Hfind. }
  rewrite Hs3. rewrite fold_on_chatListChange_no_match.
  - repeat split.
    + cbn. apply List.in_or_app. right. now left.
    + cbn. apply List.in_or_app. right. now left.
    + cbn. now rewrite Hsub, <- Hsubs.
  - cbn. now rewrite Hchats.
Qed.

(** ** The path of the view *)

(** C8, as the code has it.  Selecting a channel makes that channel the
    view object at once, with its messages path as the path, [undefined]
    standing in for the empty string.  A chat, whether found by the lookup
    or surfaced by a chat list change, becomes the view object with its
    messages path taken as it is, the empty string included.  The messages
    list attaches no listener for [undefined] and none for the empty
    string. *)
Theorem C8_view_object_and_path :
  (forall s channel,
     let s' := step s (Call_setChatViewObject (inl channel)) in
     _chatViewObject s' = Some (VChannel channel)
     /\ (channelMessagesPath channel = "" -> chatViewPath s' = None)
     /\ (channelMessagesPath channel <> "" ->
         chatViewPath s' = Some (channelMessagesPath channel)))
  /\ (forall s k user chat,
        task_of k s = Some (AwaitGetChat user) ->
        let s' := step s (Settle_getChatWithUserByID k (Resolves (Some chat))) in
        _chatViewObject s' = Some (VChat chat)
        /\ chatViewPath s' = Some (chatMessagesPath chat))
  /\ (forall s subs later k i cs chat,
        subscriptions s = (subs ++ (k, i) :: later)%list ->
        List.find (fun c => String.eqb (chat_id c) i) cs = Some chat ->
        List.Forall
          (fun sub => List.find (fun c => String.eqb (chat_id c) (snd sub)) cs = None)
          later ->
        let s' := step s (ChatListChange cs) in
        _chatViewObject s' = Some (VChat chat)
        /\ chatViewPath s' = Some (chatMessagesPath chat))
  /\ (forall value (c : MessagesListView.Component),
        MessagesListView.one_feed c ->
        value = None \/ value = Some "" ->
        MessagesListView.listeners (MessagesListView.set_messagesPath value c) = []).
Proof.
  repeat split.
  - simpl. intros H. now rewrite H.
  - simpl. intros H. apply String.eqb_neq in H. now rewrite H.
  - simpl in *. now rewrite H.
  - simpl in *. now rewrite H.
  - simpl. now destruct (chatListChange_last cs s subs later k i chat H H0 H1) as (? & _).
  - simpl. now destruct (chatListChange_last cs s subs later k i chat H H0 H1) as (_ & ? & _).
  - intros value c Hc Hv.
    rewrite (MessagesListViewFacts.set_messagesPath_listeners value c Hc).
    destruct Hv as [->| ->]; reflexivity.
Qed.

(** ** Navigation complete *)

(** C3, as the code has it.  When the timer of a [setChatViewObject] call
    fires, the view object is left as it is, [navigationCompleteSubject]
    gets its [next], the promise of the call is fulfilled, and
    [navigationComplete] is emitted exactly when the view object is the
    very channel the call selected, or the call selected a user and the
    view object is a chat, whichever chat that is. *)
Theorem C3_navigationComplete_condition
    (s : State) (k : nat) (object : Channel + User) (rest : list Timer) :
  timers s = ResumeSetChatViewObject k object :: rest ->
  let s' := step s TimerFires in
  let emits :=
    (exists channel c, object = inl channel
                       /\ _chatViewObject s = Some (VChannel c)
                       /\ channel_ref c = channel_ref channel)
    \/ (exists user chat, object = inr user
                          /\ _chatViewObject s = Some (VChat chat)) in
  _chatViewObject s' = _chatViewObject s
  /\ navigationCompleteSubject s' = S (navigationCompleteSubject s)
  /\ settled s' = (settled s ++ [(k, Fulfilled)])%list
  /\ (emits -> navigationComplete s' = (navigationComplete s ++ [k])%list)
  /\ (~ emits -> navigationComplete s' = navigationComplete s)
  /\ (forall channel, object = inl channel ->
        navigationComplete s' <> navigationComplete s ->
        requested s k object (_chatViewObject s)).
Proof.
  intros Ht. simpl. rewrite Ht. simpl.
  unfold setChatViewObject_resume. simpl.
  assert (Hcond :
    same_object (_chatViewObject s) object
      || (is_Chat (_chatViewObject s) && is_User object) = true
    <-> ((exists channel c, object = inl channel
                       /\ _chatViewObject s = Some (VChannel c)
                       /\ channel_ref c = channel_ref channel)
    \/ (exists user chat, object = inr user
                          /\ _chatViewObject s = Some (VChat chat)))).
  { destruct (_chatViewObject s) as [[c|chat]|], object as [channel|user]; simpl.
    - rewrite orb_false_r, Nat.eqb_eq. split.
      + intros H. left. now exists channel, c.
      + intros [(ch & c' & [= <-] & [= <-] & H)|(u & ch & [=] & _)]. exact H.
    - split; [discriminate|].
      intros [(ch & c' & [=] & _)|(u & ch & _ & [=])].
    - split; [discriminate|].
      intros [(ch & c' & _ & [=] & _)|(u & ch & [=] & _)].
    - split; [|reflexivity]. intros _. right. now exists user, chat.
    - split; [discriminate|].
      intros [(ch & c' & _ & [=] & _)|(u & ch & _ & [=])].
    - split; [discriminate|].
      intros [(ch & c' & _ & [=] & _)|(u & ch & _ & [=])]. }
  destruct (same_object (_chatViewObject s) object
            || (is_Chat (_chatViewObject s) && is_User object)) eqn:E; simpl.
  - repeat split; try reflexivity.
    + intros Hn. exfalso. apply Hn. now apply Hcond.
    + intros channel -> _.
      destruct (_chatViewObject s) as [[c|chat]|]; simpl in *; try discriminate.
      rewrite orb_false_r in E. now apply Nat.eqb_eq.
  - repeat split; try reflexivity.
    + intros He. apply Hcond in He. discriminate.
    + intros channel _ Hne. now contradiction Hne.
Qed.

(** ** Pending resolutions and creation requests *)

Lemma task_in_drop k k' ts :
  task_in k (List.filter (fun t => negb (Nat.eqb (fst t) k')) ts) =
    if Nat.eqb k' k then None else task_in k ts.
Proof.
  unfold task_in. rewrite find_key_filter. now destruct (Nat.eqb k' k).
Qed.

Lemma task_in_put k k' t ts :
  task_in k (List.filter (fun t => negb (Nat.eqb (fst t) k')) ts ++ [(k', t)]) =
    if Nat.eqb k' k then Some t else task_in k ts.
Proof.
  unfold task_in. rewrite find_app_key, find_key_filter. simpl.
  destruct (Nat.eqb k' k); [reflexivity|].
  now destruct (List.find _ ts).
Qed.

Lemma creations_in_snoc k cs c :
  creations_in k (cs ++ [c]) = (creations_in k cs ++ creations_in k [c])%list.
Proof. unfold creations_in. apply List.filter_app. Qed.

(** What a step does to the pending resolutions, to the calls sent to
    ChannelService and to the call counter. *)
Lemma step_calls s e :
  (tasks (step s e), service_calls (step s e), next_call (step s e)) =
  match e with
  | Call_setChatViewObject (inl _) =>
      (tasks s, service_calls s, S (next_call s))
  | Call_setChatViewObject (inr user) =>
      ((List.filter (fun t => negb (Nat.eqb (fst t) (next_call s))) (tasks s)
          ++ [(next_call s, AwaitGetChat user)])%list,
       (service_calls s ++ [getChatWithUserByID (next_call s) (user_id user)])%list,
       S (next_call s))
  | Settle_getChatWithUserByID k r =>
      match task_of k s with
      | Some (AwaitGetChat user) =>
          match r with
          | Resolves None =>
              ((List.filter (fun t => negb (Nat.eqb (fst t) k)) (tasks s)
                  ++ [(k, AwaitAddChat user)])%list,
               (service_calls s ++ [addChatWithUserOnFirestore k (user_id user)])%list,
               next_call s)
          | _ =>
              (List.filter (fun t => negb (Nat.eqb (fst t) k)) (tasks s),
               service_calls s, next_call s)
          end
      | _ => (tasks s, service_calls s, next_call s)
      end
  | Settle_addChatWithUserOnFirestore k r =>
      match task_of k s with
      | Some (AwaitAddChat _) =>
          (List.filter (fun t => negb (Nat.eqb (fst t) k)) (tasks s),
           service_calls s, next_call s)
      | _ => (tasks s, service_calls s, next_call s)
      end
  | _ => (tasks s, service_calls s, next_call s)
  end.
Proof.
  destruct e as [[channel|user]|message| |k r|k r|cs|]; simpl.
  - reflexivity.
  - reflexivity.
  - unfold setThreadViewObject. now destruct (answerable message).
  - reflexivity.
  - destruct (task_of k s) as [[user|user]|]; try reflexivity.
    destruct r as [[chat|]|]; reflexivity.
  - destruct (task_of k s) as [[user|user]|]; try reflexivity.
    destruct r as [[i|]|]; simpl; try reflexivity.
    now destruct (truthy i).
  - unfold chatListChange.
    destruct (fold_on_chatListChange_frame (subscriptions (set_chats cs s))
                (set_chats cs s)) as (_ & _ & -> & -> & -> & _).
    reflexivity.
  - destruct (timers s) as [|[k object|k] ts]; try reflexivity.
    simpl. unfold setChatViewObject_resume. simpl.
    now destruct (same_object _ _ || _).
Qed.

Ltac use_step_calls H :=
  let Ht := fresh "Ht" in
  let Hc := fresh "Hc" in
  let Hn := fresh "Hn" in
  assert (Ht := f_equal (fun x => fst (fst x)) H);
  assert (Hc := f_equal (fun x => snd (fst x)) H);
  assert (Hn := f_equal snd H);
  cbn [fst snd] in Ht, Hc, Hn;
  rewrite ?Ht, ?Hc, ?Hn; clear Ht Hc Hn H.

Lemma step_calls_in_order s e : calls_in_order s -> calls_in_order (step s e).
Proof.
  intros Hs k0. destruct (Hs k0) as (H1 & H2 & H3).
  unfold creations, task_of in *.
  pose proof (step_calls s e) as Hstep.
  assert (Hsame :
    (length (creations_in k0 (service_calls s)) <= 1)%nat
    /\ ((next_call s <= k0)%nat ->
        task_in k0 (tasks s) = None /\ creations_in k0 (service_calls s) = [])
    /\ (forall user, task_in k0 (tasks s) = Some (AwaitGetChat user) ->
        creations_in k0 (service_calls s) = [])) by auto.
  assert (Hdrop : forall k,
    (length (creations_in k0 (service_calls s)) <= 1)%nat
    /\ ((next_call s <= k0)%nat ->
        (if Nat.eqb k k0 then None else task_in k0 (tasks s)) = None
        /\ creations_in k0 (service_calls s) = [])
    /\ (forall user,
          (if Nat.eqb k k0 then None else task_in k0 (tasks s))
          = Some (AwaitGetChat user) ->
          creations_in k0 (service_calls s) = [])).
  { intros k. split; [exact H1|]. split.
    - intros Hn. destruct (H2 Hn) as [Ht Hc]. rewrite Ht.
      now destruct (Nat.eqb k k0).
    - intros user. destruct (Nat.eqb k k0); [discriminate | apply H3]. }
  destruct e as [[channel|user]|message| |k r|k r|cs|];
    try (use_step_calls Hstep; exact Hsame).
  - (* a channel is selected *)
    use_step_calls Hstep. split; [exact H1|]. split; [|exact H3].
    intros Hn. apply H2. lia.
  - (* a user is selected *)
    use_step_calls Hstep.
    rewrite task_in_put, creations_in_snoc. simpl. rewrite List.app_nil_r.
    destruct (Nat.eqb_spec (next_call s) k0) as [<-|Hne].
    + destruct H2 as [_ Hc]; [lia|]. rewrite Hc.
      split; [simpl; lia|]. split; [lia | reflexivity].
    + split; [exact H1|]. split; [|exact H3]. intros Hn. apply H2. lia.
  - (* the lookup settles *)
    unfold task_of in Hstep.
    destruct (task_in k (tasks s)) as [[user|user]|] eqn:Hk;
      [| use_step_calls Hstep; exact Hsame..].
    destruct r as [[chat|]|]; use_step_calls Hstep.
    + rewrite task_in_drop. apply Hdrop.
    + rewrite task_in_put, creations_in_snoc. simpl.
      destruct (Nat.eqb_spec k k0) as [<-|Hne].
      * rewrite (H3 user Hk). simpl. split; [lia|]. split; [|discriminate].
        intros Hn. destruct (H2 Hn) as [Hnone _]. congruence.
      * rewrite List.app_nil_r. exact Hsame.
    + rewrite task_in_drop. apply Hdrop.
  - (* the creation settles *)
    unfold task_of in Hstep.
    destruct (task_in k (tasks s)) as [[user|user]|] eqn:Hk;
      use_step_calls Hstep; try exact Hsame.
    rewrite task_in_drop. apply Hdrop.
Qed.

Lemma run_calls_in_order es s : calls_in_order s -> calls_in_order (run es s).
Proof.
  revert s. induction es as [|e es IH]; intros s Hs; simpl.
  - exact Hs.
  - apply IH. now apply step_calls_in_order.
Qed.

Lemma init_calls_in_order : calls_in_order init.
Proof. intros k. repeat split; auto; discriminate. Qed.

(** Once the resolution of a call is over, the call sends nothing more. *)
Lemma step_resolution_over s e k :
  task_of k s = None -> (k < next_call s)%nat ->
  task_of k (step s e) = None
  /\ (k < next_call (step s e))%nat
  /\ creations k (step s e) = creations k s.
Proof.
  intros Hk Hlt. unfold creations, task_of in *.
  pose proof (step_calls s e) as Hstep.
  destruct e as [[channel|user]|message| |k' r|k' r|cs|];
    try (use_step_calls Hstep; repeat split; auto; lia).
  - use_step_calls Hstep.
    rewrite task_in_put, creations_in_snoc. simpl. rewrite List.app_nil_r.
    destruct (Nat.eqb_spec (next_call s) k); [lia|]. repeat split; auto.
  - unfold task_of in Hstep.
    destruct (task_in k' (tasks s)) as [[user|user]|] eqn:Hk';
      [| use_step_calls Hstep; auto..].
    assert (Hne : k' <> k) by congruence.
    destruct r as [[chat|]|]; use_step_calls Hstep;
      rewrite ?task_in_drop, ?task_in_put, ?creations_in_snoc; simpl;
      destruct (Nat.eqb_spec k' k); try contradiction;
      rewrite ?List.app_nil_r; auto.
  - unfold task_of in Hstep.
    destruct (task_in k' (tasks s)) as [[user|user]|] eqn:Hk';
      use_step_calls Hstep; auto.
    assert (Hne : k' <> k) by congruence.
    rewrite task_in_drop. destruct (Nat.eqb_spec k' k); try contradiction; auto.
Qed.

Lemma run_resolution_over es s k :
  task_of k s = None -> (k < next_call s)%nat ->
  creations k (run es s) = creations k s.
Proof.
  revert s. induction es as [|e es IH]; intros s Hk Hlt; simpl.
  - reflexivity.
  - destruct (step_resolution_over s e k Hk Hlt) as (Hk' & Hlt' & <-).
    now apply IH.
Qed.

(** The promise of [setChatViewObject] is only ever fulfilled. *)
Lemma step_settled_fulfilled s e :
  List.Forall (fun p => snd p = Fulfilled) (settled s) ->
  List.Forall (fun p => snd p = Fulfilled) (settled (step s e)).
Proof.
  intros Hs.
  destruct e as [[channel|user]|message| |k r|k r|cs|]; simpl; try exact Hs.
  - unfold setThreadViewObject. now destruct (answerable message).
  - destruct (task_of k s) as [[user|user]|]; try exact Hs.
    destruct r as [[chat|]|]; exact Hs.
  - destruct (task_of k s) as [[user|user]|]; try exact Hs.
    destruct r as [[i|]|]; simpl; try exact Hs.
    now destruct (truthy i).
  - unfold chatListChange.
    destruct (fold_on_chatListChange_frame (subscriptions (set_chats cs s))
                (set_chats cs s)) as (_ & _ & _ & _ & _ & -> & _).
    exact Hs.
  - destruct (timers s) as [|[k object|k] ts]; try exact Hs.
    simpl. unfold setChatViewObject_resume. simpl.
    destruct (same_object _ _ || _); simpl;
      (apply List.Forall_app; split; [exact Hs | now repeat constructor]).
Qed.

Lemma run_settled_fulfilled es s :
  List.Forall (fun p => snd p = Fulfilled) (settled s) ->
  List.Forall (fun p => snd p = Fulfilled) (settled (run es s)).
Proof.
  revert s. induction es as [|e es IH]; intros s Hs; simpl.
  - exact Hs.
  - apply IH. now apply step_settled_fulfilled.
Qed.

(** ** A creation request that fails *)

Lemma pending_call_is_made s k t :
  calls_in_order s -> task_of k s = Some t -> (k < next_call s)%nat.
Proof.
  intros Hs Hk. destruct (Hs k) as (_ & H2 & _).
  destruct (Nat.lt_ge_cases k (next_call s)) as [Hlt|Hge]; [exact Hlt|].
  destruct (H2 Hge) as [Hnone _]. congruence.
Qed.

(** C6, as the code has it.  Selecting a user and finding no chat leave
    the view object and its path alone.  When the creation request of
    call [k] then fails (its promise resolves without a usable id, or
    rejects), the view object, its path and the thread stay as they are,
    nobody is subscribed, and the request is never repeated.  Nothing reaches the
    caller: the promise of [setChatViewObject] is not settled by this and
    is only ever fulfilled.  A request that resolved without an id still
    emits [chatViewObjectSetAsChat]; a rejected one goes unhandled. *)
Theorem C6_failed_creation_is_silent
    (s : State) (k : nat) (user : User) (r : Settled (option string)) :
  calls_in_order s ->
  task_of k s = Some (AwaitAddChat user) ->
  creation_failed r = true ->
  let s' := step s (Settle_addChatWithUserOnFirestore k r) in
  _chatViewObject s' = _chatViewObject s
  /\ _chatViewPath s' = _chatViewPath s
  /\ _threadViewObject s' = _threadViewObject s
  /\ _threadViewPath s' = _threadViewPath s
  /\ subscriptions s' = subscriptions s
  /\ timers s' = timers s
  /\ settled s' = settled s
  /\ navigationComplete s' = navigationComplete s
  /\ changes s' =
       (changes s ++ match r with
                     | Resolves _ => [chatViewObjectSetAsChat]
                     | Rejects => []
                     end)%list
  /\ unhandled s' =
       (unhandled s ++ match r with
                       | Resolves _ => []
                       | Rejects => [k]
                       end)%list
  /\ (forall es, creations k (run es s') = creations k s)
  /\ (forall es, List.Forall (fun p => snd p = Fulfilled) (settled s) ->
                 List.Forall (fun p => snd p = Fulfilled) (settled (run es s')))
  /\ (forall s0 u,
        let s1 := step s0 (Call_setChatViewObject (inr u)) in
        _chatViewObject s1 = _chatViewObject s0
        /\ _chatViewPath s1 = _chatViewPath s0)
  /\ (forall s0 k0,
        let s1 := step s0 (Settle_getChatWithUserByID k0 (Resolves None)) in
        _chatViewObject s1 = _chatViewObject s0
        /\ _chatViewPath s1 = _chatViewPath s0).
Proof.
  intros Hs Hk Hr s'.
  assert (Hlt : (k < next_call s)%nat) by (eapply pending_call_is_made; eauto).
  assert (Hover : task_of k s' = None /\ next_call s' = next_call s
                  /\ creations k s' = creations k s).
  { subst s'. unfold task_of, creations.
    pose proof (step_calls s (Settle_addChatWithUserOnFirestore k r)) as Hstep.
    cbv beta iota in Hstep. rewrite Hk in Hstep. use_step_calls Hstep.
    rewrite task_in_drop, Nat.eqb_refl. auto. }
  destruct Hover as (Hnone & Hnext & Hcre).
  assert (Hfields :
    _chatViewObject s' = _chatViewObject s
    /\ _chatViewPath s' = _chatViewPath s
    /\ _threadViewObject s' = _threadViewObject s
    /\ _threadViewPath s' = _threadViewPath s
    /\ subscriptions s' = subscriptions s
    /\ timers s' = timers s
    /\ settled s' = settled s
    /\ navigationComplete s' = navigationComplete s
    /\ changes s' =
         (changes s ++ match r with
                       | Resolves _ => [chatViewObjectSetAsChat]
                       | Rejects => []
                       end)%list
    /\ unhandled s' =
         (unhandled s ++ match r with
                         | Resolves _ => []
                         | Rejects => [k]
                         end)%list).
  { subst s'. simpl. rewrite Hk. clear Hnone Hnext Hcre.
    destruct r as [[i|]|]; simpl in *.
    - apply negb_true_iff in Hr. rewrite Hr. simpl.
      rewrite !List.app_nil_r. frame_fields.
    - rewrite !List.app_nil_r. frame_fields.
    - rewrite !List.app_nil_r. frame_fields. }
  destruct Hfields as (F1 & F2 & F3 & F4 & F5 & F6 & F7 & F8 & F9 & F10).
  repeat split; try assumption.
  - intros es. rewrite <- Hcre.
    apply run_resolution_over; [exact Hnone | lia].
  - intros es Hf. apply run_settled_fulfilled. now rewrite F7.
  - simpl. destruct (task_of k0 s0) as [[u|u]|]; reflexivity.
  - simpl. destruct (task_of k0 s0) as [[u|u]|]; reflexivity.
Qed.

(** ** Creating a chat and waiting for it *)

Lemma step_subscriptions s e sub :
  In sub (subscriptions (step s e)) ->
  In sub (subscriptions s)
  \/ exists r user, e = Settle_addChatWithUserOnFirestore (fst sub) r
                    /\ task_of (fst sub) s = Some (AwaitAddChat user).
Proof.
  destruct e as [[channel|user]|message| |k r|k r|cs|]; simpl; auto.
  - unfold setThreadViewObject. destruct (answerable message); auto.
  - destruct (task_of k s) as [[user|user]|]; auto.
    destruct r as [[chat|]|]; auto.
  - destruct (task_of k s) as [[user|user]|] eqn:Hk; auto.
    destruct r as [[i|]|]; simpl; auto.
    destruct (truthy i); simpl; auto.
    intros Hin. apply List.in_app_or in Hin as [Hin|[<-|[]]]; [now left|].
    right. simpl. eauto.
  - unfold chatListChange.
    destruct (fold_on_chatListChange_frame (subscriptions (set_chats cs s))
                (set_chats cs s)) as (_ & -> & _). auto.
  - destruct (timers s) as [|[k object|k] ts]; auto; simpl.
    + unfold setChatViewObject_resume. simpl.
      destruct (same_object _ _ || _); auto.
    + intros Hin. apply List.filter_In in Hin. tauto.
Qed.

Lemma run_unsubscribed_for_good es s k :
  task_of k s = None -> (k < next_call s)%nat ->
  (forall i, ~ In (k, i) (subscriptions s)) ->
  forall i, ~ In (k, i) (subscriptions (run es s)).
Proof.
  revert s. induction es as [|e es IH]; intros s Hk Hlt Hs i; simpl.
  - apply Hs.
  - destruct (step_resolution_over s e k Hk Hlt) as (Hk' & Hlt' & _).
    apply IH; try assumption.
    intros j Hin. apply step_subscriptions in Hin as [Hin|(r & u & _ & Ht)].
    + exact (Hs j Hin).
    + simpl in Ht. congruence.
Qed.

(** C2, as the code has it.  No call ever sends more than one creation
    request, and the call whose lookup finds no chat sends exactly one.
    When the request delivers an id the call subscribes to the chat list
    changes, once.  A change that shows a chat with that id makes the chat
    the view object (when one change shows the chats of several
    subscriptions, the most recent of them wins) and sets a 100 ms timer
    for the unsubscription; the subscription stays in place until that
    timer fires.  When it fires the
    subscription is removed and does not come back, and with nobody
    subscribed a chat list change only replaces the list. *)
Theorem C2_create_once_then_await_chat :
  (forall es k, (length (creations k (run es init)) <= 1)%nat)
  /\ (forall s k user,
        task_of k s = Some (AwaitGetChat user) ->
        let s' := step s (Settle_getChatWithUserByID k (Resolves None)) in
        service_calls s' =
          (service_calls s ++ [addChatWithUserOnFirestore k (user_id user)])%list
        /\ task_of k s' = Some (AwaitAddChat user))
  /\ (forall s k user i,
        task_of k s = Some (AwaitAddChat user) -> i <> "" ->
        let s' := step s (Settle_addChatWithUserOnFirestore k (Resolves (Some i))) in
        subscriptions s' = (subscriptions s ++ [(k, i)])%list
        /\ service_calls s' = service_calls s
        /\ task_of k s' = None)
  /\ (forall s subs later k i cs chat,
        subscriptions s = (subs ++ (k, i) :: later)%list ->
        List.find (fun c => String.eqb (chat_id c) i) cs = Some chat ->
        List.Forall
          (fun sub => List.find (fun c => String.eqb (chat_id c) (snd sub)) cs = None)
          later ->
        let s' := step s (ChatListChange cs) in
        _chatViewObject s' = Some (VChat chat)
        /\ _chatViewPath s' = Some (chatMessagesPath chat)
        /\ In (Unsubscribe k) (timers s')
        /\ subscriptions s' = subscriptions s)
  /\ (forall s k rest,
        timers s = Unsubscribe k :: rest ->
        let s' := step s TimerFires in
        (forall i, ~ In (k, i) (subscriptions s'))
        /\ _chatViewObject s' = _chatViewObject s
        /\ _chatViewPath s' = _chatViewPath s
        /\ (task_of k s = None -> (k < next_call s)%nat ->
            forall es i, ~ In (k, i) (subscriptions (run es s'))))
  /\ (forall s cs,
        subscriptions s = [] -> step s (ChatListChange cs) = set_chats cs s).
Proof.
  split; [|split; [|split; [|split; [|split]]]].
  - intros es k.
    destruct (run_calls_in_order es init init_calls_in_order k) as (H & _).
    exact H.
  - intros s k user Hk s'. subst s'. split.
    + simpl. now rewrite Hk.
    + unfold task_of.
      pose proof (step_calls s (Settle_getChatWithUserByID k (Resolves None)))
        as Hstep.
      cbv beta iota in Hstep. rewrite Hk in Hstep. use_step_calls Hstep.
      now rewrite task_in_put, Nat.eqb_refl.
  - intros s k user i Hk Hi s'. subst s'.
    apply truthy_true in Hi. split; [|split].
    + simpl. rewrite Hk. simpl. now rewrite Hi.
    + simpl. rewrite Hk. simpl. now rewrite Hi.
    + unfold task_of.
      pose proof (step_calls s
                    (Settle_addChatWithUserOnFirestore k (Resolves (Some i))))
        as Hstep.
      cbv beta iota in Hstep. rewrite Hk in Hstep. use_step_calls Hstep.
      now rewrite task_in_drop, Nat.eqb_refl.
  - intros s subs later k i cs chat Hsubs Hfind Hlater s'. subst s'. simpl.
    destruct (chatListChange_last cs s subs later k i chat Hsubs Hfind Hlater)
      as (H1 & H2 & H3 & _ & H5).
    auto.
  - intros s k rest Ht s'.
    assert (Hgone : forall i, ~ In (k, i) (subscriptions s')).
    { subst s'. simpl. rewrite Ht. simpl. intros i Hin.
      apply List.filter_In in Hin as [_ Hin]. simpl in Hin.
      now rewrite Nat.eqb_refl in Hin. }
    split; [exact Hgone|].
    split; [subst s'; simpl; now rewrite Ht|].
    split; [subst s'; simpl; now rewrite Ht|].
    intros Hk Hlt es i.
    destruct (step_resolution_over s TimerFires k Hk Hlt) as (Hk' & Hlt' & _).
    now apply run_unsubscribed_for_good.
  - intros s cs Hs. simpl. now apply chatListChange_unsubscribed.
Qed.

End NavigationFacts.

(** * Scenarios *)

Module Scenarios.

Import Sample.

(** ** The messages list *)

Section Messages.

Import MessagesListView MessagesListViewFacts.

Example first_batch_sorted : messages after_first_batch = [1; 0; 2]%nat.
Proof. reflexivity. Qed.

Example session_sorted : messages (run session init) = [3; 0; 2]%nat.
Proof. reflexivity. Qed.

Example session_contents :
  map (fun m => (id m, createdAt m, content m))
      (omap (fun r => store (run session init) !! r) (messages (run session init)))
  = [("m4", 40, "four"); ("m1", 50, "one, edited"); ("m3", 50, "three")].
Proof. reflexivity. Qed.

Example edit_after_removal_is_ignored :
  fold_left (apply_change "channels/c1/messages") [remove_m1; edit_m1]
            (false, after_first_batch)
  = apply_change "channels/c1/messages" (false, after_first_batch) remove_m1.
Proof. reflexivity. Qed.

Lemma C1_witness :
  (forall m d, createdAt (Message_update m d) = createdAt m)
  /\ StronglySorted (by_createdAt (store (run session init)))
                    (messages (run session init))
  /\ StronglySorted (arrival_order (store (run session init)))
                    (messages (run session init)).
Proof.
  split; [reflexivity|].
  apply (@C1_messages_sorted_by_createdAt_stable
           _ MessageModel.message_class (fun m d => eq_refl) session).
Defined.

Lemma C4_witness :
  (forall m d, id (Message_update m d) = id m)
  /\ type edit_m1 = modified
  /\ messages (snd (apply_change "channels/c1/messages"
                                 (false, after_first_batch) edit_m1))
     = messages after_first_batch.
Proof.
  split; [reflexivity|]. split; [reflexivity|].
  destruct (@C4_modified_updates_in_place
              _ MessageModel.message_class (fun m d => eq_refl)
              "channels/c1/messages" false after_first_batch edit_m1 eq_refl)
    as (_ & H & _).
  exact H.
Defined.

Lemma C9_witness :
  messages (set_messagesPath (Some "chats/chat-ab/messages") (run session init)) = []
  /\ listeners (set_messagesPath (Some "chats/chat-ab/messages") (run session init))
     = [(1%nat, "chats/chat-ab/messages")].
Proof.
  destruct (C9_switching_path_cancels_and_resets session
              (Some "chats/chat-ab/messages")) as (H1 & H2 & _).
  split; [exact H1 | exact H2].
Defined.

End Messages.

(** ** The navigation service *)

Section Service.

Import Navigation NavigationFacts.

Example context_of_general :
  getSearchContext as_alice init = "in:#general".
Proof. reflexivity. Qed.

Example context_of_chat_with_bob :
  getSearchContext as_alice (showing (VChat chat_alice_bob) None) = "in:@bob".
Proof. reflexivity. Qed.

Example context_of_self_chat :
  getSearchContext as_alice (showing (VChat chat_alice_alice) None) = "in:@alice".
Proof. reflexivity. Qed.

Example channel_then_channel :
  _chatViewObject
    (run [Call_setChatViewObject (inl general); Call_setChatViewObject (inl dev);
          TimerFires; TimerFires] init)
  = Some (VChannel dev)
  /\ navigationComplete
       (run [Call_setChatViewObject (inl general); Call_setChatViewObject (inl dev);
             TimerFires; TimerFires] init)
     = [1%nat].
Proof. split; reflexivity. Qed.

(** C2 as stated fails: the chat list has shown the new chat and the chat
    is on display, yet the subscription is still in place; alice selects a
    channel, the chat list changes once more before the 100 ms are over,
    and the chat is back on display. *)
Lemma C2_counterexample :
  let s1 := run bob_chat_created init in
  let s2 := step s1 (Call_setChatViewObject (inl dev)) in
  let s3 := step s2 (ChatListChange [chat_alice_alice; chat_alice_bob]) in
  _chatViewObject s1 = Some (VChat chat_alice_bob)
  /\ subscriptions s1 = [(0%nat, "chat-ab")]
  /\ _chatViewObject s2 = Some (VChannel dev)
  /\ _chatViewObject s3 = Some (VChat chat_alice_bob)
  /\ _chatViewObject s3 <> _chatViewObject s2
  /\ ~ AsStated.C2_as_stated.
Proof.
  repeat split; try reflexivity; try discriminate.
  intros H.
  destruct (H (run [ Call_setChatViewObject (inr bob);
                     Settle_getChatWithUserByID 0 (Resolves None);
                     Settle_addChatWithUserOnFirestore 0 (Resolves (Some "chat-ab"));
                     TimerFires ] init)
              [] [] 0%nat "chat-ab" [chat_alice_bob] chat_alice_bob
              eq_refl eq_refl (List.Forall_nil _)) as (_ & Hgone & _).
  apply (Hgone "chat-ab"). now left.
Qed.

Lemma C2_witness :
  let s := run [ Call_setChatViewObject (inr bob);
                 Settle_getChatWithUserByID 0 (Resolves None);
                 Settle_addChatWithUserOnFirestore 0 (Resolves (Some "chat-ab"));
                 TimerFires ] init in
  subscriptions s = ([] ++ [(0%nat, "chat-ab")])%list
  /\ List.find (fun c => String.eqb (chat_id c) "chat-ab") [chat_alice_bob]
     = Some chat_alice_bob
  /\ _chatViewObject (step s (ChatListChange [chat_alice_bob]))
     = Some (VChat chat_alice_bob).
Proof.
  cbv zeta. split; [reflexivity|]. split; [reflexivity|].
  destruct C2_create_once_then_await_chat as (_ & _ & _ & H & _).
  refine (proj1 (H _ [] [] 0%nat "chat-ab" [chat_alice_bob] chat_alice_bob _ _ _));
    first [reflexivity | constructor].
Defined.

(** C3 as stated fails: nameless was selected, then bob; when the timer of
    the first call fires the chat with bob is on display, which is not
    what the first call asked for, and [navigationComplete] is emitted for
    the first call all the same. *)
Lemma C3_counterexample :
  let s := run nameless_then_bob init in
  timers s = [ ResumeSetChatViewObject 0 (inr nameless);
               ResumeSetChatViewObject 1 (inr bob) ]
  /\ _chatViewObject s = Some (VChat chat_alice_bob)
  /\ navigationComplete s = []
  /\ navigationComplete (step s TimerFires) = [0%nat]
  /\ ~ requested s 0 (inr nameless) (_chatViewObject s)
  /\ ~ AsStated.C3_as_stated.
Proof.
  assert (Hnot : ~ requested (run nameless_then_bob init) 0 (inr nameless)
                     (_chatViewObject (run nameless_then_bob init))).
  { simpl. intros [H|[H|[]]]; discriminate. }
  repeat split; try reflexivity; try exact Hnot.
  intros H. apply Hnot.
  apply (H nameless_then_bob 0%nat (inr nameless)
           [ResumeSetChatViewObject 1 (inr bob)] eq_refl).
  discriminate.
Qed.

Lemma C3_witness :
  let s := run [Call_setChatViewObject (inl dev)] init in
  timers s = [ResumeSetChatViewObject 0 (inl dev)]
  /\ navigationComplete (step s TimerFires) = [0%nat].
Proof.
  cbv zeta. split; [reflexivity|].
  destruct (C3_navigationComplete_condition
              (run [Call_setChatViewObject (inl dev)] init) 0 (inl dev) []
              eq_refl) as (_ & _ & _ & H & _).
  apply H. left. exists dev, dev. repeat split.
Defined.

(** C5 as stated fails: the chat partner is found in the directory, but
    its name is the empty string, and the context is the empty string
    rather than [in:@] followed by the name. *)
Lemma C5_counterexample :
  let s := showing (VChat chat_alice_nameless) (Some "chats/chat-an/messages") in
  chatViewObject as_alice s = VChat chat_alice_nameless
  /\ chat_partner as_alice chat_alice_nameless = Some "u3"
  /\ getUserByID as_alice "u3" = Some nameless
  /\ getSearchContext as_alice s = ""
  /\ getSearchContext as_alice s <> "in:@" ++ user_name nameless
  /\ ~ AsStated.C5_as_stated.
Proof.
  repeat split; try reflexivity; try discriminate.
  intros H.
  destruct (H as_alice
              (showing (VChat chat_alice_nameless) (Some "chats/chat-an/messages")))
    as (_ & Hp & _).
  specialize (Hp chat_alice_nameless "u3" nameless eq_refl eq_refl eq_refl).
  discriminate Hp.
Qed.

Lemma C5_witness :
  let s := showing (VChat chat_alice_bob) (Some "chats/chat-ab/messages") in
  chat_partner as_alice chat_alice_bob = Some "u2"
  /\ getUserByID as_alice "u2" = Some bob
  /\ getSearchContext as_alice s = "in:@bob".
Proof.
  cbv zeta. split; [reflexivity|]. split; [reflexivity|].
  destruct (C5_getSearchContext_cases as_alice
              (showing (VChat chat_alice_bob) (Some "chats/chat-ab/messages")))
    as (_ & H & _).
  apply (H chat_alice_bob "u2" bob); first [reflexivity | discriminate].
Defined.

(** C6 as stated fails: the creation request is rejected, and the promise
    of [setChatViewObject] is fulfilled when its timer fires; the caller is
    told nothing. *)
Lemma C6_counterexample :
  let s := run bob_chat_refused init in
  service_calls s = [ getChatWithUserByID 0 "u2";
                      addChatWithUserOnFirestore 0 "u2" ]
  /\ settled s = [(0%nat, Fulfilled)]
  /\ ~ In (0%nat, Rejected) (settled s)
  /\ ~ AsStated.C6_as_stated.
Proof.
  repeat split; try reflexivity.
  - simpl. intros [H|[]]. discriminate.
  - intros H.
    destruct (H [ Call_setChatViewObject (inr bob);
                  Settle_getChatWithUserByID 0 (Resolves None) ]
                0%nat bob Rejects eq_refl eq_refl) as (es' & Hin).
    pose proof (run_settled_fulfilled es' _ (List.Forall_nil _ : List.Forall _
                  (settled (step (run [ Call_setChatViewObject (inr bob);
                                        Settle_getChatWithUserByID 0 (Resolves None) ]
                                      init)
                                 (Settle_addChatWithUserOnFirestore 0 Rejects)))))
      as Hall.
    rewrite List.Forall_forall in Hall. specialize (Hall _ Hin). discriminate Hall.
Qed.

Lemma C6_witness :
  let s := run [ Call_setChatViewObject (inr bob);
                 Settle_getChatWithUserByID 0 (Resolves None) ] init in
  calls_in_order s
  /\ task_of 0 s = Some (AwaitAddChat bob)
  /\ creation_failed Rejects = true
  /\ _chatViewObject (step s (Settle_addChatWithUserOnFirestore 0 Rejects))
     = _chatViewObject s.
Proof.
  cbv zeta.
  assert (Hs : calls_in_order
                 (run [ Call_setChatViewObject (inr bob);
                        Settle_getChatWithUserByID 0 (Resolves None) ] init))
    by (apply run_calls_in_order, init_calls_in_order).
  split; [exact Hs|]. split; [reflexivity|]. split; [reflexivity|].
  exact (proj1 (C6_failed_creation_is_silent _ 0%nat bob Rejects
                  Hs eq_refl eq_refl)).
Defined.

Lemma C7_witness :
  answerable notice = false
  /\ step (showing (VChannel dev) (Some "channels/c1/messages"))
          (Call_setThreadViewObject notice)
     = showing (VChannel dev) (Some "channels/c1/messages").
Proof.
  split; [reflexivity|].
  apply (proj1 (C7_setThreadViewObject_only_if_answerable notice
                  (showing (VChannel dev) (Some "channels/c1/messages")))).
  reflexivity.
Defined.

Example earlier_revision_opens_any_thread :
  EarlierRevision._threadViewObject
    (EarlierRevision.setThreadViewObject notice
       (EarlierRevision.mkThreadView None None [""]))
  = Some notice.
Proof. reflexivity. Qed.

Example thread_on_question :
  threadViewObject (step init (Call_setThreadViewObject question)) = Some question
  /\ changes (step init (Call_setThreadViewObject question))
     = [unknow; threadViewObjectSet].
Proof. split; reflexivity. Qed.

(** C8 as stated fails for a chat: its empty messages path is handed on as
    the empty string, not as [undefined]. *)
Lemma C8_counterexample :
  let s := run [ Call_setChatViewObject (inr bob);
                 Settle_getChatWithUserByID 0 (Resolves (Some chat_without_path)) ]
               init in
  _chatViewObject s = Some (VChat chat_without_path)
  /\ chatMessagesPath chat_without_path = ""
  /\ chatViewPath s = Some ""
  /\ chatViewPath s <> None
  /\ ~ AsStated.C8_as_stated.
Proof.
  repeat split; try reflexivity; try discriminate.
  intros [_ H].
  specialize (H (run [Call_setChatViewObject (inr bob)] init) 0%nat bob
                chat_without_path eq_refl eq_refl).
  discriminate H.
Qed.

Lemma C8_witness :
  channelMessagesPath general = ""
  /\ chatViewPath (step init (Call_setChatViewObject (inl general))) = None.
Proof.
  split; [reflexivity|].
  destruct C8_view_object_and_path as (H & _).
  apply (H init general). reflexivity.
Defined.

(** C10 as stated fails: nobody is logged in, the first member is found in
    the directory, but its name is the empty string, and the context is
    the empty string rather than [in:@] followed by the name. *)
Lemma C10_counterexample :
  let s := showing (VChat chat_nameless_nameless) (Some "chats/chat-nn/messages") in
  currentUser logged_out = None
  /\ chatViewObject logged_out s = VChat chat_nameless_nameless
  /\ head (memberIDs chat_nameless_nameless) = Some "u3"
  /\ getUserByID logged_out "u3" = Some nameless
  /\ isSelfChat logged_out s = false
  /\ getSearchContext logged_out s = ""
  /\ getSearchContext logged_out s <> "in:@" ++ user_name nameless
  /\ ~ AsStated.C10_as_stated.
Proof.
  repeat split; try reflexivity; try discriminate.
  intros H.
  destruct (H logged_out
              (showing (VChat chat_nameless_nameless) (Some "chats/chat-nn/messages"))
              chat_nameless_nameless eq_refl eq_refl) as (_ & Hp & _).
  specialize (Hp "u3" nameless eq_refl eq_refl). discriminate Hp.
Qed.

Lemma C10_witness :
  let s := showing (VChat chat_alice_alice) (Some "chats/chat-aa/messages") in
  currentUser logged_out = None
  /\ chatViewObject logged_out s = VChat chat_alice_alice
  /\ isSelfChat logged_out s = false
  /\ getSearchContext logged_out s = "in:@alice".
Proof.
  cbv zeta. split; [reflexivity|]. split; [reflexivity|].
  destruct (C10_getSearchContext_without_current_user logged_out
              (showing (VChat chat_alice_alice) (Some "chats/chat-aa/messages"))
              chat_alice_alice eq_refl eq_refl) as (H1 & _ & H3 & _).
  split; [exact H1|].
  apply (H3 "u1" alice); first [reflexivity | discriminate].
Defined.

End Service.

End Scenarios.

(** * More facts about the messages list component *)

Module MessagesListMoreFacts.

Import MessagesListView MessagesListHelpers MessagesListViewFacts.

Lemma List_filter_all {A : Type} (f : A -> bool) (l : list A) :
  (forall x, In x l -> f x = true) -> List.filter f l = l.
Proof.
  induction l as [|x l IH]; intros H; simpl; [reflexivity|].
  rewrite (H x) by now left. f_equal. apply IH. intros y Hy. apply H. now right.
Qed.

Lemma List_filter_length_le {A : Type} (f : A -> bool) (l : list A) :
  (length (List.filter f l) <= length l)%nat.
Proof.
  induction l as [|x l IH]; simpl; [lia|]. destruct (f x); simpl; lia.
Qed.

Lemma has_id_other s i j r : has_id s j r = true -> j <> i -> has_id s i r = false.
Proof.
  unfold has_id. destruct (s !! r) as [m|]; [|discriminate].
  intros Hj Hne. apply String.eqb_eq in Hj. apply String.eqb_neq. congruence.
Qed.

(** A list sorted by time and then by arrival is left as it is by the
    sort. *)
Lemma Array_sort_of_sorted s l :
  StronglySorted (before s) l -> Array_sort (compare_createdAt s) l = l.
Proof.
  induction 1 as [|x l Hs IH Hall]; [reflexivity|].
  cbn [Array_sort foldr]. fold (Array_sort (compare_createdAt s) l). rewrite IH.
  destruct l as [|y l]; [reflexivity|]. cbn [insert_by].
  inversion Hall as [|? ? Hxy _]; subst.
  unfold compare_createdAt at 1.
  destruct (Z.leb_spec (createdAt_of s x - createdAt_of s y) 0) as [_|Hgt];
    [reflexivity|].
  unfold before in Hxy. lia.
Qed.

Lemma before_irreflexive s a : ~ before s a a.
Proof. unfold before. lia. Qed.

Section Facts.

Context {DocData : Type} `{!MessageClass DocData}.

Hypothesis update_createdAt :
  forall m d, createdAt (Message_update m d) = createdAt m.
Hypothesis new_id :
  forall d path i, id (Message_new d path i) = i.

(** ** A [removed] delta *)

(** X1.  A [removed] delta takes every held message with the id of the
    delta out of the list and leaves the other messages where they are,
    in their order; the store of message objects is not touched and no
    sort is asked for.  For an id that is not held the delta changes
    nothing.  A sorted list stays sorted. *)
Theorem X1_removed_takes_out_every_match
    (path : string) (sortNeeded : bool) (c : Component)
    (change : DocumentChange DocData) :
  type change = removed ->
  let i := doc_id change in
  let c' := snd (apply_change path (sortNeeded, c) change) in
  fst (apply_change path (sortNeeded, c) change) = sortNeeded
  /\ store c' = store c
  /\ messages c' = List.filter (fun r => negb (has_id (store c) i r)) (messages c)
  /\ ~ present c' i
  /\ (forall j, j <> i -> (present c' j <-> present c j))
  /\ (~ present c i -> c' = c)
  /\ (at_rest c -> at_rest c').
Proof.
  intros Hty i c'. subst i c'. unfold apply_change. rewrite Hty. simpl.
  split; [reflexivity|]. split; [reflexivity|]. split; [reflexivity|].
  split; [apply filter_out_not_present|]. split; [|split].
  - intros j Hne. unfold present. simpl. split.
    + intros (r & Hin & Hid). exists r. split; [|exact Hid].
      apply List.filter_In in Hin. tauto.
    + intros (r & Hin & Hid). exists r. split; [|exact Hid].
      apply List.filter_In. split; [exact Hin|].
      now rewrite (has_id_other _ _ _ _ Hid Hne).
  - intros Hn. unfold filter_out. rewrite List_filter_all.
    + now destruct c.
    + intros r Hin. apply negb_true_iff.
      destruct (has_id (store c) (doc_id change) r) eqn:E; [|reflexivity].
      exfalso. apply Hn. now exists r.
  - intros [Hv Hs]. split.
    + unfold valid in *. simpl. rewrite List.Forall_forall in Hv |- *.
      intros r Hr. apply List.filter_In in Hr. now apply Hv.
    + simpl. now apply StronglySorted_List_filter.
Qed.

(** ** An [added] delta *)

Lemma has_id_push s m i r :
  (r < length s)%nat -> has_id (s ++ [m]) i r = has_id s i r.
Proof. intros Hr. unfold has_id. now rewrite lookup_app_l. Qed.

Lemma held_with_id_push (c : Component) d path i j :
  valid c ->
  held_with_id (push_new d path i c) j =
    (held_with_id c j ++ if String.eqb i j then [length (store c)] else [])%list.
Proof using new_id.
  intros Hv. unfold held_with_id. simpl. rewrite List.filter_app. f_equal.
  - apply List.filter_ext_in. intros r Hr. apply has_id_push.
    unfold valid in Hv. rewrite List.Forall_forall in Hv. now apply Hv.
  - simpl. unfold has_id. rewrite lookup_app_r by lia.
    rewrite Nat.sub_diag. simpl. rewrite new_id.
    now destruct (String.eqb i j).
Qed.

(** X2.  An [added] delta constructs one message and puts it at the end of
    the list, under a reference that was not in the list; the objects
    already held are not touched, and the sort is asked for.  The id is
    not looked up first: an [added] delta for an id that is already held
    leaves one more message with that id in the list. *)
Theorem X2_added_appends_without_lookup
    (path : string) (sortNeeded : bool) (c : Component)
    (change : DocumentChange DocData) :
  type change = added ->
  valid c ->
  let i := doc_id change in
  let c' := snd (apply_change path (sortNeeded, c) change) in
  fst (apply_change path (sortNeeded, c) change) = true
  /\ messages c' = (messages c ++ [length (store c)])%list
  /\ ~ In (length (store c)) (messages c)
  /\ store c' !! length (store c) = Some (Message_new (doc_data change) path i)
  /\ (forall r, (r < length (store c))%nat -> store c' !! r = store c !! r)
  /\ present c' i
  /\ length (held_with_id c' i) = S (length (held_with_id c i))
  /\ (forall j, j <> i -> held_with_id c' j = held_with_id c j).
Proof using new_id.
  intros Hty Hv i c'. subst i c'. unfold apply_change. rewrite Hty. simpl.
  split; [reflexivity|]. split; [reflexivity|]. split; [|split; [|split]].
  - intros Hin. unfold valid in Hv. rewrite List.Forall_forall in Hv.
    specialize (Hv _ Hin). lia.
  - rewrite lookup_app_r by lia. now rewrite Nat.sub_diag.
  - intros r Hr. now rewrite lookup_app_l.
  - split; [|split].
    + exists (length (store c)). split.
      * apply List.in_or_app. right. now left.
      * unfold has_id. simpl. rewrite lookup_app_r by lia.
        rewrite Nat.sub_diag. simpl. rewrite new_id. apply String.eqb_refl.
    + rewrite (held_with_id_push c _ _ _ _ Hv), String.eqb_refl.
      rewrite length_app. simpl. lia.
    + intros j Hne. rewrite (held_with_id_push c _ _ _ _ Hv).
      apply not_eq_sym in Hne. apply String.eqb_neq in Hne. rewrite Hne.
      apply List.app_nil_r.
Qed.

(** ** The length of the list after a batch *)

Lemma update_found_messages i (d : DocData) (c : Component) :
  messages (update_found i d c) = messages c.
Proof.
  unfold update_found. destruct (List.find _ _); [|reflexivity].
  now destruct (store c !! _).
Qed.

Lemma fold_apply_change_length path (batch : list (DocumentChange DocData)) acc :
  let c' := snd (fold_left (apply_change path) batch acc) in
  (length (messages c') <=
     length (messages (snd acc)) + length (List.filter is_added batch))%nat
  /\ (List.filter is_removed batch = [] ->
      length (messages c') =
        (length (messages (snd acc)) + length (List.filter is_added batch))%nat)
  /\ (List.filter is_removed batch = [] -> List.filter is_added batch = [] ->
      messages c' = messages (snd acc)
      /\ fst (fold_left (apply_change path) batch acc) = fst acc).
Proof.
  revert acc. induction batch as [|ch batch IH]; intros [b c]; cbn [fold_left].
  - simpl. repeat split; lia.
  - destruct (IH (apply_change path (b, c) ch)) as (IH1 & IH2 & IH3).
    unfold is_added, is_removed in *. cbn [List.filter].
    unfold apply_change in *. destruct (type ch); cbn [fst snd] in *.
    + cbn [messages push_new] in *. rewrite length_app in *. cbn [length] in *.
      split; [lia|]. split; [intros H; specialize (IH2 H); lia | discriminate].
    + rewrite update_found_messages in *. auto.
    + cbn [messages filter_out] in *.
      pose proof (List_filter_length_le
                    (fun r => negb (has_id (store c) (doc_id ch) r)) (messages c)).
      split; [lia|]. split; discriminate.
Qed.

(** X3.  A batch changes the length of the list by no more than the
    number of its [added] deltas, and by exactly that number when it holds
    no [removed] delta.  A batch of [modified] deltas alone leaves the
    list of references as it is: the same objects in the same order. *)
Theorem X3_batch_length
    (path : string) (batch : list (DocumentChange DocData)) (c : Component) :
  let c' := on_snapshot path batch c in
  (length (messages c') <=
     length (messages c) + length (List.filter is_added batch))%nat
  /\ (List.filter is_removed batch = [] ->
      length (messages c') =
        (length (messages c) + length (List.filter is_added batch))%nat)
  /\ (List.filter is_removed batch = [] -> List.filter is_added batch = [] ->
      messages c' = messages c).
Proof.
  cbv zeta. unfold on_snapshot.
  pose proof (fold_apply_change_length path batch (false, c)) as H.
  destruct (fold_left (apply_change path) batch (false, c)) as [b c'].
  cbn [fst snd] in H. destruct H as (H1 & H2 & H3).
  assert (Hlen : length (messages (if b then sort_messages c' else c'))
                 = length (messages c')).
  { destruct b; [|reflexivity]. simpl.
    apply Permutation_length, Array_sort_perm. }
  rewrite Hlen. split; [exact H1|]. split; [exact H2|].
  intros Hr Ha. destruct (H3 Hr Ha) as [Hm Hb]. subst b. exact Hm.
Qed.

(** ** Skipping the sort *)

(** X4.  In every state the component reaches, sorting the held list once
    more would leave it as it is.  So where a batch without [added]
    deltas skips the sort, nothing is lost. *)
Theorem X4_sort_is_never_missed (es : list (Event DocData)) :
  let c := run es init in
  Array_sort (compare_createdAt (store c)) (messages c) = messages c.
Proof using update_createdAt.
  cbv zeta.
  destruct (run_at_rest update_createdAt es init init_at_rest) as [_ Hs].
  now apply Array_sort_of_sorted.
Qed.

(** ** The references held *)

Lemma apply_change_held_once path acc (change : DocumentChange DocData) :
  held_once (snd acc) -> held_once (snd (apply_change path acc change)).
Proof.
  destruct acc as [b c]. cbn [snd]. intros [Hv Hn]. unfold apply_change.
  destruct (type change); cbn [snd].
  - split.
    + unfold valid in *. simpl. apply List.Forall_app. split.
      * eapply List.Forall_impl; [|exact Hv]. cbv beta. intros r Hr.
        rewrite length_app. simpl. lia.
      * repeat constructor. rewrite length_app. simpl. lia.
    + simpl. apply (Permutation_NoDup (Permutation_cons_append _ _)).
      constructor; [|exact Hn].
      intros Hin. unfold valid in Hv. rewrite List.Forall_forall in Hv.
      specialize (Hv _ Hin). lia.
  - unfold update_found. destruct (List.find _ _) as [r|]; [|now split].
    destruct (store c !! r); [|now split].
    split; [|exact Hn]. unfold valid in *. simpl. now rewrite length_insert.
  - split.
    + unfold valid in *. simpl. rewrite List.Forall_forall in Hv |- *.
      intros r Hr. apply List.filter_In in Hr. now apply Hv.
    + simpl. now apply List.NoDup_filter.
Qed.

Lemma on_snapshot_held_once path (batch : list (DocumentChange DocData)) c :
  held_once c -> held_once (on_snapshot path batch c).
Proof.
  intros Hc. unfold on_snapshot.
  assert (H : forall acc : bool * Component,
            held_once (snd acc) ->
            held_once (snd (fold_left (apply_change path) batch acc))).
  { induction batch as [|ch batch IH]; intros acc Hacc; cbn [fold_left].
    - exact Hacc.
    - apply IH. now apply apply_change_held_once. }
  specialize (H (false, c) Hc).
  destruct (fold_left (apply_change path) batch (false, c)) as [b c'].
  cbn [snd] in H. destruct b; [|exact H]. destruct H as [Hv Hn].
  pose proof (Array_sort_perm (compare_createdAt (store c')) (messages c')) as Hp.
  split.
  - unfold valid in *. simpl. rewrite List.Forall_forall in Hv |- *.
    intros r Hr. apply Hv. now apply (Permutation_in _ Hp).
  - simpl. apply (Permutation_NoDup (Permutation_sym Hp) Hn).
Qed.

Lemma run_held_once (es : list (Event DocData)) c :
  held_once c -> held_once (run es c).
Proof.
  revert c. induction es as [|e es IH]; intros c Hc; cbn [run fold_left].
  - exact Hc.
  - apply IH. destruct e as [v|h batch|]; cbn [step].
    + unfold set_messagesPath, subscribeMessages.
      destruct v as [p|]; [destruct (truthy p)|]; (split; constructor).
    + unfold deliver. destruct (path_of h (listeners c)); [|exact Hc].
      now apply on_snapshot_held_once.
    + exact Hc.
Qed.

Lemma init_held_once : held_once (init : Component).
Proof. split; constructor. Qed.

(** X5.  In every state the component reaches, whatever [Message.update]
    does, no message object is in the list twice and every place of the
    list holds a message that was constructed. *)
Theorem X5_each_message_held_once (es : list (Event DocData)) :
  let c := run es init in
  List.NoDup (messages c)
  /\ (forall index, (index < length (messages c))%nat ->
        exists m, message_at c index = Some m).
Proof.
  cbv zeta. destruct (run_held_once es init init_held_once) as [Hv Hn].
  split; [exact Hn|]. intros index Hi. unfold message_at.
  destruct (lookup_lt_is_Some_2 (messages (run es init)) index Hi) as [r Hr].
  rewrite Hr. unfold valid in Hv. rewrite List.Forall_forall in Hv.
  assert (Hin : In r (messages (run es init))).
  { apply list_elem_of_In. eapply list_elem_of_lookup_2. exact Hr. }
  destruct (lookup_lt_is_Some_2 (store (run es init)) r (Hv r Hin)) as [m Hm].
  now exists m.
Qed.

(** ** The helpers of the template *)

Lemma message_at_Some (c : Component) index :
  valid c ->
  (exists m, message_at c index = Some m) <-> (index < length (messages c))%nat.
Proof.
  intros Hv. unfold message_at. split.
  - intros [m Hm]. destruct (messages c !! index) as [r|] eqn:Hr; [|discriminate].
    eapply lookup_lt_Some. exact Hr.
  - intros Hi. destruct (lookup_lt_is_Some_2 (messages c) index Hi) as [r Hr].
    rewrite Hr. unfold valid in Hv. rewrite List.Forall_forall in Hv.
    assert (Hin : In r (messages c)).
    { apply list_elem_of_In. eapply list_elem_of_lookup_2. exact Hr. }
    destruct (lookup_lt_is_Some_2 (store c) r (Hv r Hin)) as [m Hm]. now exists m.
Qed.

(** X6.  [ifDaySeparatorIsNeeded] and [ifMessageFromSameUserAsPrevious]
    answer for index 0 without reading the list (true and false, also on
    the empty list); for any other index they answer exactly when the
    index is a place of the list, and throw beyond the end. *)
Theorem X6_template_helpers_bounds
    (getDate : Z -> Z) (es : list (Event DocData)) (index : nat) :
  let c := run es init in
  ifDaySeparatorIsNeeded getDate c 0 = Some true
  /\ ifMessageFromSameUserAsPrevious c 0 = Some false
  /\ ((exists b, ifDaySeparatorIsNeeded getDate c (S index) = Some b)
      <-> (S index < length (messages c))%nat)
  /\ ((exists b, ifMessageFromSameUserAsPrevious c (S index) = Some b)
      <-> (S index < length (messages c))%nat).
Proof.
  cbv zeta. destruct (run_held_once es init init_held_once) as [Hv _].
  split; [reflexivity|]. split; [reflexivity|].
  pose proof (message_at_Some (run es init) (S index) Hv) as H1.
  pose proof (message_at_Some (run es init) index Hv) as H0.
  unfold ifDaySeparatorIsNeeded, ifMessageFromSameUserAsPrevious.
  cbn [Nat.eqb]. replace (S index - 1)%nat with index by lia.
  split; split.
  - intros [b Hb]. apply H1.
    destruct (message_at (run es init) (S index)) as [m|]; [now exists m | discriminate].
  - intros Hi. destruct (proj2 H1 Hi) as [m ->].
    assert (Hi' : (index < length (messages (run es init)))%nat) by lia.
    destruct (proj2 H0 Hi') as [m' ->]. eauto.
  - intros [b Hb]. apply H1.
    destruct (message_at (run es init) (S index)) as [m|]; [now exists m | discriminate].
  - intros Hi. destruct (proj2 H1 Hi) as [m ->].
    assert (Hi' : (index < length (messages (run es init)))%nat) by lia.
    destruct (proj2 H0 Hi') as [m' ->]. eauto.
Qed.

(** ** Without a listener *)

Lemma deliver_detached h (batch : list (DocumentChange DocData)) (c : Component) :
  listeners c = [] -> deliver h batch c = c.
Proof. intros Hl. unfold deliver, path_of. now rewrite Hl. Qed.

Lemma run_snapshots_detached
    (snaps : list (nat * list (DocumentChange DocData))) (c : Component) :
  listeners c = [] ->
  run (map (fun hb => Snapshot (fst hb) (snd hb)) snaps) c = c.
Proof.
  intros Hl. induction snaps as [|[h b] snaps IH]; cbn [map run fold_left step fst snd].
  - reflexivity.
  - rewrite deliver_detached by exact Hl. exact IH.
Qed.

(** X7.  When the [messagesPath] input is set to [undefined] or to the
    empty string, and when the component is destroyed, no listener is
    left: whatever batches Firestore still has, none of them is applied
    and the component stays as it is.  Destroying twice is the same as
    destroying once. *)
Theorem X7_no_listener_no_change
    (es : list (Event DocData)) (value : option string)
    (snaps : list (nat * list (DocumentChange DocData))) :
  let c := run es init in
  let later := map (fun hb => Snapshot (fst hb) (snd hb)) snaps in
  (attached value = None ->
   run later (set_messagesPath value c) = set_messagesPath value c
   /\ messages (run later (set_messagesPath value c)) = [])
  /\ run later (ngOnDestroy c) = ngOnDestroy c
  /\ ngOnDestroy (ngOnDestroy c) = ngOnDestroy c.
Proof.
  cbv zeta.
  assert (Hone : one_feed (run es init)) by (apply run_one_feed; now left).
  assert (Hd : listeners (ngOnDestroy (run es init)) = []).
  { unfold ngOnDestroy. cbn [listeners].
    destruct Hone as [Hl|(h & p & Hu & Hl & _)].
    - rewrite Hl. now destruct (unsubMessages (run es init)).
    - rewrite Hu, Hl. apply detach_single. }
  split; [|split].
  - intros Ha.
    assert (Hl : listeners (set_messagesPath value (run es init)) = []).
    { rewrite (set_messagesPath_listeners value _ Hone). now rewrite Ha. }
    rewrite run_snapshots_detached by exact Hl. split; [reflexivity|].
    unfold set_messagesPath, subscribeMessages.
    destruct value as [q|]; [destruct (truthy q)|]; reflexivity.
  - now apply run_snapshots_detached.
  - unfold ngOnDestroy at 1 3. cbn [store messages unsubMessages listeners
                                     next_handle messageEditorOpen].
    fold (ngOnDestroy (run es init)). rewrite Hd.
    unfold ngOnDestroy. cbn. f_equal.
    destruct Hone as [Hl|(h & p & Hu & Hl & _)].
    + rewrite Hl. now destruct (unsubMessages (run es init)).
    + rewrite Hu, Hl. now rewrite detach_single.
Qed.

End Facts.

End MessagesListMoreFacts.

(** * Facts about scrolling to a message *)

Module ScrollFacts.

Import ScrollToMessage.

Lemma find_seq_first (f : nat -> bool) (a n j : nat) :
  List.find f (seq a n) = Some j ->
  (a <= j < a + n)%nat /\ f j = true /\ forall i, (a <= i < j)%nat -> f i = false.
Proof.
  revert a. induction n as [|n IH]; intros a; cbn [seq List.find]; [discriminate|].
  destruct (f a) eqn:Ha.
  - intros [= <-]. repeat split; try lia. exact Ha.
  - intros Hf. destruct (IH (S a) Hf) as (Hr & Hj & Hlt).
    repeat split; try lia; [exact Hj|].
    intros i Hi. destruct (Nat.eq_dec i a) as [->|Hne]; [exact Ha|].
    apply Hlt. lia.
Qed.

Lemma find_seq_none (f : nat -> bool) (a n : nat) :
  List.find f (seq a n) = None -> forall i, (a <= i < a + n)%nat -> f i = false.
Proof.
  intros Hf i Hi. apply (List.find_none _ _ Hf). apply List.in_seq. lia.
Qed.

Lemma map_seq_succ {B : Type} (g : nat -> B) (n : nat) :
  map g (seq 0 (S n)) = g 0%nat :: map (fun i => g (S i)) (seq 0 n).
Proof. cbn [seq map]. f_equal. now rewrite <- List.seq_shift, List.map_map. Qed.

Section Scroll.

Variable present : Z -> bool.

(** The element is found at the attempt with number [j] from [t] on, and
    not before. *)
Lemma scrollToElement_found (j fuel attempts : nat) (t : Z) :
  (attempts + fuel = maxAttempts)%nat -> (j <= fuel)%nat ->
  (forall i, (i < j)%nat -> present (t + 500 * Z.of_nat i) = false) ->
  present (t + 500 * Z.of_nat j) = true ->
  scrollToElement present fuel attempts t =
    (map (fun i => getElementById (t + 500 * Z.of_nat i)) (seq 0 (S j))
     ++ [ scrollIntoView (t + 500 * Z.of_nat j);
          classList_add (t + 500 * Z.of_nat j);
          classList_remove (t + 500 * Z.of_nat j + 1750) ])%list.
Proof.
  revert fuel attempts t.
  induction j as [|j IH]; intros fuel attempts t Hsum Hj Hbefore Hat.
  - replace (t + 500 * Z.of_nat 0) with t in * by lia.
    destruct fuel; cbn [scrollToElement]; rewrite Hat; cbn [seq map app];
      now replace (t + 500 * Z.of_nat 0) with t by lia.
  - destruct fuel as [|fuel]; [lia|].
    assert (H0 : present t = false).
    { specialize (Hbefore 0%nat ltac:(lia)).
      now replace (t + 500 * Z.of_nat 0) with t in Hbefore by lia. }
    cbn [scrollToElement]. rewrite H0.
    assert (Hlt : Nat.ltb attempts maxAttempts = true) by (apply Nat.ltb_lt; lia).
    rewrite Hlt.
    rewrite (IH fuel (S attempts) (t + 500)); try lia.
    + rewrite (map_seq_succ _ (S j)). cbn [app].
      replace (t + 500 * Z.of_nat 0) with t by lia. f_equal.
      replace (t + 500 * Z.of_nat (S j)) with (t + 500 + 500 * Z.of_nat j) by lia.
      f_equal. apply List.map_ext. intros i. f_equal. lia.
    + intros i Hi. specialize (Hbefore (S i) ltac:(lia)).
      now replace (t + 500 + 500 * Z.of_nat i)
        with (t + 500 * Z.of_nat (S i)) by lia.
    + now replace (t + 500 + 500 * Z.of_nat j)
        with (t + 500 * Z.of_nat (S j)) by lia.
Qed.

(** The element is not found at any attempt. *)
Lemma scrollToElement_absent (fuel attempts : nat) (t : Z) :
  (attempts + fuel = maxAttempts)%nat ->
  (forall i, (i <= fuel)%nat -> present (t + 500 * Z.of_nat i) = false) ->
  scrollToElement present fuel attempts t =
    map (fun i => getElementById (t + 500 * Z.of_nat i)) (seq 0 (S fuel)).
Proof.
  revert attempts t. induction fuel as [|fuel IH]; intros attempts t Hsum Habs.
  - cbn [scrollToElement seq map].
    replace (t + 500 * Z.of_nat 0) with t by lia.
    specialize (Habs 0%nat ltac:(lia)).
    replace (t + 500 * Z.of_nat 0) with t in Habs by lia. rewrite Habs.
    assert (Hlt : Nat.ltb attempts maxAttempts = false) by (apply Nat.ltb_ge; lia).
    now rewrite Hlt.
  - assert (H0 : present t = false).
    { specialize (Habs 0%nat ltac:(lia)).
      now replace (t + 500 * Z.of_nat 0) with t in Habs by lia. }
    cbn [scrollToElement]. rewrite H0.
    assert (Hlt : Nat.ltb attempts maxAttempts = true) by (apply Nat.ltb_lt; lia).
    rewrite Hlt. rewrite (IH (S attempts) (t + 500)); try lia.
    + rewrite (map_seq_succ _ (S fuel)).
      replace (t + 500 * Z.of_nat 0) with t by lia. f_equal.
      apply List.map_ext. intros i. f_equal. lia.
    + intros i Hi. specialize (Habs (S i) ltac:(lia)).
      now replace (t + 500 + 500 * Z.of_nat i)
        with (t + 500 * Z.of_nat (S i)) by lia.
Qed.

(** The bound on the retries is the counter, not the fuel. *)
Lemma scrollToElement_fuel (fuel extra attempts : nat) (t : Z) :
  (maxAttempts <= attempts + fuel)%nat ->
  scrollToElement present (fuel + extra) attempts t
  = scrollToElement present fuel attempts t.
Proof.
  revert attempts t. induction fuel as [|fuel IH]; intros attempts t Hsum.
  - assert (Hlt : Nat.ltb attempts maxAttempts = false) by (apply Nat.ltb_ge; lia).
    destruct extra; cbn [Nat.add scrollToElement]; now rewrite Hlt.
  - cbn [Nat.add scrollToElement]. rewrite IH by lia. reflexivity.
Qed.

(** X8.  [scrollToMessageInView] looks for the element 100 ms after the
    call and then every 500 ms, six times at most.  At the first of these
    times at which the element is there, it scrolls to it, adds the
    highlight class and removes that class 1750 ms later, and looks no
    more; when the element is there at none of the six times, it does
    nothing but look.  The retries are bounded by the counter of the
    function: following more of them gives the same. *)
Theorem X8_scroll_at_first_sight (t0 : Z) :
  scrollToMessageInView present t0 =
    match List.find (fun i => present (attempt_time t0 i)) (seq 0 6) with
    | Some j =>
        (lookups t0 (S j)
         ++ [ scrollIntoView (attempt_time t0 j);
              classList_add (attempt_time t0 j);
              classList_remove (attempt_time t0 j + 1750) ])%list
    | None => lookups t0 6
    end
  /\ (forall extra,
        scrollToElement present (maxAttempts + extra) 0 (t0 + 100)
        = scrollToMessageInView present t0).
Proof.
  split; [|intros extra; apply scrollToElement_fuel; lia].
  unfold scrollToMessageInView, lookups, attempt_time.
  destruct (List.find _ (seq 0 6)) as [j|] eqn:Hf.
  - destruct (find_seq_first _ _ _ _ Hf) as (Hr & Hj & Hlt).
    apply scrollToElement_found.
    + reflexivity.
    + unfold maxAttempts. lia.
    + intros i Hi. apply Hlt. lia.
    + exact Hj.
  - apply scrollToElement_absent; [reflexivity|].
    intros i Hi. apply (find_seq_none _ _ _ Hf). unfold maxAttempts in Hi. lia.
Qed.

End Scroll.

End ScrollFacts.

(** * Facts about the thread view component *)

Module ThreadviewFacts.

Import Navigation Threadview.

Lemma last_some_from {A B : Type} (g : B -> option A) (l : list B) (acc : option A) :
  fold_left (fun acc x => match g x with
                          | Some y => Some y
                          | None => acc
                          end) l acc
  = match last_some g l with
    | Some y => Some y
    | None => acc
    end.
Proof.
  unfold last_some. revert acc. induction l as [|x l IH]; intros acc; cbn [fold_left].
  - reflexivity.
  - rewrite (IH (match g x with Some y => Some y | None => acc end)).
    rewrite (IH (match g x with Some y => Some y | None => None end)).
    destruct (fold_left _ l None); [reflexivity|]. now destruct (g x).
Qed.

Lemma last_some_cons {A B : Type} (g : B -> option A) (x : B) (l : list B) :
  last_some g (x :: l) = match last_some g l with
                         | Some y => Some y
                         | None => g x
                         end.
Proof.
  unfold last_some at 1. cbn [fold_left]. rewrite last_some_from.
  destruct (last_some g l); [reflexivity|]. now destruct (g x).
Qed.

Section Facts.

Variable is_defaultChannel : Channel -> bool.

Lemma run_cons change changes (c : Component) :
  run is_defaultChannel (change :: changes) c
  = run is_defaultChannel changes (ngOnChanges is_defaultChannel change c).
Proof. reflexivity. Qed.

(** X9.  The flags [isAChannel] and [isAChat] are only ever set: after any
    number of changes of the input, each is true exactly when the input
    has been a channel, respectively a chat, at some time (or the flag was
    true before).  So once the input has been both, both flags are true.
    [isDefaultChannel] and [currentChannel] follow the last value of the
    input. *)
Theorem X9_object_type_flags_are_sticky
    (changes : list (option ViewObject)) (c : Component) :
  let c' := run is_defaultChannel changes c in
  isAChannel c' = isAChannel c || existsb is_channel_change changes
  /\ isAChat c' = isAChat c || existsb is_chat_change changes
  /\ currentChannel c' =
       match last_value changes with
       | Some v => Some v
       | None => currentChannel c
       end
  /\ isDefaultChannel c' =
       match last_value changes with
       | Some (VChannel channel) => is_defaultChannel channel
       | Some (VChat _) => false
       | None => isDefaultChannel c
       end.
Proof.
  cbv zeta. revert c. induction changes as [|change changes IH]; intros c.
  - cbn. rewrite !orb_false_r. auto.
  - rewrite run_cons. destruct (IH (ngOnChanges is_defaultChannel change c))
      as (H1 & H2 & H3 & H4).
    rewrite H1, H2, H3, H4. unfold last_value in *. rewrite last_some_cons.
    cbn [existsb]. destruct (last_some _ changes) as [v|].
    + destruct change as [[ch|ch]|]; cbn; rewrite ?orb_true_r, ?orb_false_r;
        repeat split; try reflexivity; now rewrite ?orb_assoc, ?orb_true_r.
    + destruct change as [[ch|ch]|]; cbn; rewrite ?orb_true_r, ?orb_false_r;
        repeat split; try reflexivity; now rewrite ?orb_assoc, ?orb_true_r.
Qed.

(** X10.  [requiredAvatars] holds the first three member ids (all of
    them, when there are fewer) of the last channel the input has been;
    while the input is a chat the avatars of that channel stay.  There are
    never more than three, given that there were no more before. *)
Theorem X10_required_avatars_of_last_channel
    (changes : list (option ViewObject)) (c : Component) :
  let c' := run is_defaultChannel changes c in
  requiredAvatars c' =
    match last_channel changes with
    | Some channel => take 3 (channel_memberIDs channel)
    | None => requiredAvatars c
    end
  /\ ((length (requiredAvatars c) <= 3)%nat -> (length (requiredAvatars c') <= 3)%nat).
Proof.
  cbv zeta.
  assert (H : forall c,
    requiredAvatars (run is_defaultChannel changes c) =
      match last_channel changes with
      | Some channel => take 3 (channel_memberIDs channel)
      | None => requiredAvatars c
      end).
  { clear c. induction changes as [|change changes IH]; intros c.
    - reflexivity.
    - rewrite run_cons, IH. unfold last_channel. rewrite last_some_cons.
      destruct (last_some channel_of changes); [reflexivity|].
      now destruct change as [[ch|ch]|]. }
  split; [apply H|]. rewrite H. intros Hc.
  destruct (last_channel changes); [|exact Hc].
  rewrite length_take. lia.
Qed.

End Facts.

End ThreadviewFacts.

(** * More facts about the navigation service *)

Module NavigationMoreFacts.

Import Navigation NavigationNotions NavigationFacts.

(** ** The view object and its path *)

Lemma on_chatListChange_path s sub :
  _chatViewPath s = path_for (_chatViewObject s) ->
  _chatViewPath (on_chatListChange s sub)
  = path_for (_chatViewObject (on_chatListChange s sub)).
Proof.
  intros Hs. destruct sub as [k i]. unfold on_chatListChange.
  destruct (List.find _ _); [reflexivity | exact Hs].
Qed.

Lemma fold_on_chatListChange_path subs s :
  _chatViewPath s = path_for (_chatViewObject s) ->
  _chatViewPath (fold_left on_chatListChange subs s)
  = path_for (_chatViewObject (fold_left on_chatListChange subs s)).
Proof.
  revert s. induction subs as [|sub subs IH]; intros s Hs; cbn [fold_left].
  - exact Hs.
  - apply IH. now apply on_chatListChange_path.
Qed.

Lemma step_path s e :
  _chatViewPath s = path_for (_chatViewObject s) ->
  _chatViewPath (step s e) = path_for (_chatViewObject (step s e)).
Proof.
  intros Hs.
  destruct e as [[channel|user]|message| |k r|k r|cs|]; cbn [step].
  - reflexivity.
  - exact Hs.
  - unfold setThreadViewObject. destruct (answerable message); exact Hs.
  - exact Hs.
  - destruct (task_of k s) as [[user|user]|]; try exact Hs.
    destruct r as [[chat|]|]; [reflexivity | exact Hs | exact Hs].
  - destruct (task_of k s) as [[user|user]|]; try exact Hs.
    destruct r as [[i|]|]; cbn; try exact Hs. destruct (truthy i); exact Hs.
  - unfold chatListChange. cbv zeta.
    apply fold_on_chatListChange_path. exact Hs.
  - destruct (timers s) as [|[k object|k] ts]; try exact Hs.
    cbn. unfold setChatViewObject_resume. cbn.
    destruct (same_object _ _ || _); exact Hs.
Qed.

(** X11.  The view object and its path are always set together: in every
    state the service reaches, the path is the messages path of the view
    object (for a channel with [undefined] for the empty string), and
    [undefined] while nothing has been selected. *)
Theorem X11_path_belongs_to_view_object (es : list Event) :
  chatViewPath (run es init) = path_for (_chatViewObject (run es init)).
Proof.
  unfold chatViewPath.
  assert (H : forall s, _chatViewPath s = path_for (_chatViewObject s) ->
                        _chatViewPath (run es s) = path_for (_chatViewObject (run es s))).
  { induction es as [|e es IH]; intros s Hs; cbn [run fold_left].
    - exact Hs.
    - apply IH. now apply step_path. }
  now apply H.
Qed.

(** ** The thread *)

Lemma step_thread_frame s e :
  is_call e = false ->
  _threadViewObject (step s e) = _threadViewObject s
  /\ _threadViewPath (step s e) = _threadViewPath s.
Proof.
  destruct e as [[channel|user]|message| |k r|k r|cs|]; cbn [is_call step];
    try discriminate; intros _.
  - destruct (task_of k s) as [[user|user]|]; try now split.
    destruct r as [[chat|]|]; now split.
  - destruct (task_of k s) as [[user|user]|]; try now split.
    destruct r as [[i|]|]; cbn; try now split. destruct (truthy i); now split.
  - unfold chatListChange.
    destruct (fold_on_chatListChange_frame (subscriptions (set_chats cs s))
                (set_chats cs s)) as (_ & _ & _ & _ & _ & _ & _ & _ & -> & ->).
    now split.
  - destruct (timers s) as [|[k object|k] ts]; try now split.
    cbn. unfold setChatViewObject_resume. cbn.
    destruct (same_object _ _ || _); now split.
Qed.

(** X12.  Only the calls of [setChatViewObject], [setThreadViewObject] and
    [clearThreadViewObject] touch the thread; a lookup or a creation that
    settles, a chat list change and a timer leave it alone.  So a thread
    that is opened while the lookup for a selected user is still under way
    stays open when the chat that is found becomes the view object. *)
Theorem X12_thread_survives_the_resolved_chat :
  (forall s e, is_call e = false ->
     _threadViewObject (step s e) = _threadViewObject s
     /\ _threadViewPath (step s e) = _threadViewPath s)
  /\ (forall s k user chat message,
        task_of k s = Some (AwaitGetChat user) ->
        answerable message = true ->
        let s' := run [ Call_setThreadViewObject message;
                        Settle_getChatWithUserByID k (Resolves (Some chat)) ] s in
        _chatViewObject s' = Some (VChat chat)
        /\ threadViewObject s' = Some message
        /\ threadViewPath s' = Some (answerPath message)).
Proof.
  split; [exact step_thread_frame|].
  intros s k user chat message Hk Ha. cbn [run fold_left step].
  unfold setThreadViewObject. rewrite Ha.
  change (task_of k (changeSubject_next threadViewObjectSet
                       (set_thread (Some message) (Some (answerPath message)) s)))
    with (task_of k s).
  rewrite Hk. repeat split.
Qed.

Lemma step_thread_consistent s e :
  thread_consistent s -> thread_consistent (step s e).
Proof.
  intros Hs. destruct (is_call e) eqn:He.
  - destruct e as [[channel|user]|message| |k r|k r|cs|]; try discriminate;
      cbn [step].
    + reflexivity.
    + reflexivity.
    + unfold setThreadViewObject. destruct (answerable message) eqn:Ha; [|exact Hs].
      unfold thread_consistent. cbn. now split.
    + reflexivity.
  - destruct (step_thread_frame s e He) as [Ho Hp].
    unfold thread_consistent in *. now rewrite Ho, Hp.
Qed.

(** X13.  In every state the service reaches, a thread is open only on an
    answerable message, and the thread path is the answer path of that
    message; with no thread there is no thread path. *)
Theorem X13_thread_is_answerable_with_its_path (es : list Event) :
  match threadViewObject (run es init) with
  | Some message =>
      answerable message = true
      /\ threadViewPath (run es init) = Some (answerPath message)
  | None => threadViewPath (run es init) = None
  end.
Proof.
  unfold threadViewObject, threadViewPath.
  assert (H : forall s, thread_consistent s -> thread_consistent (run es s)).
  { induction es as [|e es IH]; intros s Hs; cbn [run fold_left].
    - exact Hs.
    - apply IH. now apply step_thread_consistent. }
  exact (H init eq_refl).
Qed.

(** ** One completion for each call *)

Lemma on_chatListChange_timers s sub :
  resume_calls (timers (on_chatListChange s sub)) = resume_calls (timers s)
  /\ navigationCompleteSubject (on_chatListChange s sub) = navigationCompleteSubject s.
Proof.
  destruct sub as [k i]. unfold on_chatListChange.
  destruct (List.find _ _); [|now split]. cbn. split; [|reflexivity].
  unfold resume_calls. rewrite omap_app. cbn. apply List.app_nil_r.
Qed.

Lemma fold_on_chatListChange_timers subs s :
  resume_calls (timers (fold_left on_chatListChange subs s)) = resume_calls (timers s)
  /\ navigationCompleteSubject (fold_left on_chatListChange subs s)
     = navigationCompleteSubject s.
Proof.
  revert s. induction subs as [|sub subs IH]; intros s; cbn [fold_left].
  - now split.
  - destruct (IH (on_chatListChange s sub)) as [-> ->].
    apply on_chatListChange_timers.
Qed.

Lemma accounted_call (s s' : State) (t : Timer) :
  accounted s ->
  settled s' = settled s -> navigationComplete s' = navigationComplete s ->
  navigationCompleteSubject s' = navigationCompleteSubject s ->
  timers s' = (timers s ++ [t])%list ->
  resume_calls [t] = [next_call s] ->
  next_call s' = S (next_call s) ->
  accounted s'.
Proof.
  intros (H1 & H2 & H3) Hs Hn Hc Ht Hr Hk. unfold accounted.
  rewrite Hs, Hn, Hc, Ht, Hk. split; [|now split].
  unfold resume_calls in *. rewrite omap_app, Hr, List.app_assoc, H1.
  symmetry. apply List.seq_S.
Qed.

Lemma accounted_same (s s' : State) :
  accounted s ->
  settled s' = settled s -> navigationComplete s' = navigationComplete s ->
  navigationCompleteSubject s' = navigationCompleteSubject s ->
  resume_calls (timers s') = resume_calls (timers s) ->
  next_call s' = next_call s ->
  accounted s'.
Proof.
  intros (H1 & H2 & H3) Hs Hn Hc Ht Hk. unfold accounted.
  now rewrite Hs, Hn, Hc, Ht, Hk.
Qed.

Lemma step_accounted s e : accounted s -> accounted (step s e).
Proof.
  intros Hs.
  destruct e as [[channel|user]|message| |k r|k r|cs|]; cbn [step].
  - eapply accounted_call; try exact Hs; reflexivity.
  - eapply accounted_call; try exact Hs; reflexivity.
  - unfold setThreadViewObject. destruct (answerable message); [|exact Hs].
    eapply accounted_same; try exact Hs; reflexivity.
  - eapply accounted_same; try exact Hs; reflexivity.
  - destruct (task_of k s) as [[user|user]|]; try exact Hs.
    destruct r as [[chat|]|]; eapply accounted_same; try exact Hs; reflexivity.
  - destruct (task_of k s) as [[user|user]|]; try exact Hs.
    destruct r as [[i|]|]; cbn; [destruct (truthy i)| |];
      eapply accounted_same; try exact Hs; reflexivity.
  - unfold chatListChange. cbv zeta.
    destruct (fold_on_chatListChange_frame (subscriptions (set_chats cs s))
                (set_chats cs s)) as (_ & _ & _ & _ & Hk & Hse & _ & Hn & _).
    destruct (fold_on_chatListChange_timers (subscriptions (set_chats cs s))
                (set_chats cs s)) as [Ht Hc].
    eapply accounted_same; try exact Hs; assumption.
  - destruct (timers s) as [|[k object|k] ts] eqn:Ht; try exact Hs.
    + destruct Hs as (H1 & H2 & H3). rewrite Ht in H1. cbn in H1.
      cbn. unfold setChatViewObject_resume. cbn.
      assert (Hsub : sublist (navigationComplete s)
                             (map fst (settled s) ++ [k])%list).
      { now apply sublist_inserts_r. }
      assert (Hsub' : sublist (navigationComplete s ++ [k])%list
                              (map fst (settled s) ++ [k])%list).
      { now apply sublist_app. }
      destruct (same_object _ _ || _); unfold accounted; cbn;
        rewrite List.map_app, length_app; cbn;
        rewrite <- List.app_assoc; cbn; (split; [exact H1|]); (split; [lia|]);
        assumption.
    + eapply accounted_same; try exact Hs; try reflexivity.
      cbn. now rewrite Ht.
Qed.

(** X14.  In every state the service reaches, each [setChatViewObject]
    call made so far is either still waiting for its 100 ms timer or has
    had its promise fulfilled, and the promises are fulfilled in the order
    of the calls.  [navigationCompleteSubject] has had exactly one [next()]
    for each fulfilled call, and [navigationComplete] has been emitted at
    most once per call, for fulfilled calls only and in their order. *)
Theorem X14_one_completion_for_each_call (es : list Event) :
  let s := run es init in
  (map fst (settled s) ++ resume_calls (timers s))%list = seq 0 (next_call s)
  /\ navigationCompleteSubject s = length (settled s)
  /\ sublist (navigationComplete s) (map fst (settled s))
  /\ List.NoDup (navigationComplete s).
Proof.
  cbv zeta.
  assert (H : forall s, accounted s -> accounted (run es s)).
  { induction es as [|e es IH]; intros s Hs; cbn [run fold_left].
    - exact Hs.
    - apply IH. now apply step_accounted. }
  destruct (H init) as (H1 & H2 & H3).
  { unfold accounted. cbn. repeat split. constructor. }
  repeat split; try assumption.
  assert (Hnd : List.NoDup (seq 0 (next_call (run es init)))) by apply List.seq_NoDup.
  rewrite <- H1 in Hnd. apply List.NoDup_app_remove_r in Hnd.
  apply NoDup_ListNoDup. eapply sublist_NoDup; [|exact H3].
  now apply NoDup_ListNoDup.
Qed.

(** ** Selecting does not cancel *)

(** X15.  Selecting a channel or a user cancels nothing that an earlier
    selection has set going: the subscriptions to the chat list, the
    timers and the lookups and creations under way all stay.  So when the
    chat awaited by an earlier selection shows up in the chat list after
    another selection, that chat takes the view all the same. *)
Theorem X15_selecting_cancels_nothing
    (s : State) (object : Channel + User) :
  let s' := step s (Call_setChatViewObject object) in
  subscriptions s' = subscriptions s
  /\ timers s' = (timers s ++ [ResumeSetChatViewObject (next_call s) object])%list
  /\ (calls_in_order s ->
      forall k t, task_of k s = Some t -> task_of k s' = Some t)
  /\ (forall subs later k i cs chat,
        subscriptions s = (subs ++ (k, i) :: later)%list ->
        List.find (fun c => String.eqb (chat_id c) i) cs = Some chat ->
        List.Forall
          (fun sub => List.find (fun c => String.eqb (chat_id c) (snd sub)) cs = None)
          later ->
        _chatViewObject (step s' (ChatListChange cs)) = Some (VChat chat)).
Proof.
  cbv zeta.
  assert (Hsubs : subscriptions (step s (Call_setChatViewObject object))
                  = subscriptions s) by (destruct object; reflexivity).
  split; [exact Hsubs|]. split; [destruct object; reflexivity|]. split.
  - intros Hs k t Hk.
    pose proof (pending_call_is_made s k t Hs Hk) as Hlt.
    destruct object as [channel|user]; [exact Hk|].
    unfold task_of in *.
    change (tasks (step s (Call_setChatViewObject (inr user))))
      with (List.filter (fun t => negb (Nat.eqb (fst t) (next_call s))) (tasks s)
            ++ [(next_call s, AwaitGetChat user)])%list.
    rewrite task_in_put.
    destruct (Nat.eqb_spec (next_call s) k); [lia | exact Hk].
  - intros subs later k i cs chat Hs Hf Hl.
    rewrite <- Hsubs in Hs.
    now destruct (chatListChange_last cs _ subs later k i chat Hs Hf Hl) as (? & _).
Qed.

(** ** A selection that is left alone *)

Lemma run_app es1 es2 s : run (es1 ++ es2) s = run es2 (run es1 s).
Proof. unfold run. apply fold_left_app. Qed.

(** Firing the timers at the head of the queue changes neither the view
    nor the thread, and takes nothing back. *)
Lemma fire_queue ts : forall rest s,
  timers s = (ts ++ rest)%list ->
  let s' := run (repeat TimerFires (length ts)) s in
  timers s' = rest
  /\ _chatViewObject s' = _chatViewObject s
  /\ _chatViewPath s' = _chatViewPath s
  /\ _threadViewObject s' = _threadViewObject s
  /\ _threadViewPath s' = _threadViewPath s
  /\ service_calls s' = service_calls s
  /\ tasks s' = tasks s
  /\ next_call s' = next_call s.
Proof.
  induction ts as [|t ts IH]; intros rest s Ht; cbn [length repeat run fold_left].
  - repeat split. exact Ht.
  - cbn [step]. rewrite Ht. cbn [app].
    set (s1 := fire t (set_timers (ts ++ rest) s)).
    assert (H1 : timers s1 = (ts ++ rest)%list
                 /\ _chatViewObject s1 = _chatViewObject s
                 /\ _chatViewPath s1 = _chatViewPath s
                 /\ _threadViewObject s1 = _threadViewObject s
                 /\ _threadViewPath s1 = _threadViewPath s
                 /\ service_calls s1 = service_calls s
                 /\ tasks s1 = tasks s
                 /\ next_call s1 = next_call s).
    { subst s1. destruct t as [k object|k]; cbn.
      - unfold setChatViewObject_resume. cbn.
        destruct (same_object _ _ || _); repeat split.
      - repeat split. }
    destruct H1 as (T & V & P & TO & TP & SC & TK & NC).
    destruct (IH rest s1 T) as (T' & V' & P' & TO' & TP' & SC' & TK' & NC').
    fold (run (repeat TimerFires (length ts)) s1).
    repeat split; congruence.
Qed.

(** X16.  A channel selection that is followed by nothing but the passing
    of time completes: once the timers that were waiting and its own have
    fired, the channel is the view object with its path, no thread is
    open, the promise of the call is fulfilled and [navigationComplete]
    has been emitted for the call.  No request was sent to ChannelService
    for it. *)
Theorem X16_channel_selection_completes (s : State) (channel : Channel) :
  let k := next_call s in
  let s' := run (Call_setChatViewObject (inl channel)
                 :: repeat TimerFires (S (length (timers s)))) s in
  _chatViewObject s' = Some (VChannel channel)
  /\ chatViewPath s' = path_for (Some (VChannel channel))
  /\ threadViewObject s' = None
  /\ timers s' = []
  /\ In k (navigationComplete s')
  /\ In (k, Fulfilled) (settled s')
  /\ service_calls s' = service_calls s.
Proof.
  cbv zeta. cbn [run fold_left]. fold (run (repeat TimerFires (S (length (timers s))))
                                        (step s (Call_setChatViewObject (inl channel)))).
  set (s1 := step s (Call_setChatViewObject (inl channel))).
  replace (repeat TimerFires (S (length (timers s))))
    with (repeat TimerFires (length (timers s)) ++ [TimerFires])%list
    by (symmetry; apply (List.repeat_cons (length (timers s)) TimerFires)).
  rewrite run_app.
  destruct (fire_queue (timers s) [ResumeSetChatViewObject (next_call s) (inl channel)]
              s1 eq_refl) as (T & V & P & TO & TP & SC & TK & NC).
  set (s2 := run (repeat TimerFires (length (timers s))) s1) in *.
  cbn [run fold_left step]. rewrite T. cbn [fire].
  unfold setChatViewObject_resume. cbn.
  rewrite V. cbn. rewrite Nat.eqb_refl. cbn.
  repeat split;
    try (rewrite ?V, ?P, ?TO, ?SC; reflexivity);
    apply List.in_or_app; right; now left.
Qed.

(** X17.  A user selection for which the lookup finds a chat, followed by
    nothing but the passing of time, completes as well: the chat that was
    found is the view object with its path, the promise is fulfilled and
    [navigationComplete] has been emitted for the call.  The lookup is the
    only request that was sent: no chat is created and nobody is
    subscribed to the chat list for it. *)
Theorem X17_selection_of_a_known_chat_completes
    (s : State) (user : User) (chat : Chat) :
  let k := next_call s in
  let s' := run (Call_setChatViewObject (inr user)
                 :: Settle_getChatWithUserByID k (Resolves (Some chat))
                 :: repeat TimerFires (S (length (timers s)))) s in
  _chatViewObject s' = Some (VChat chat)
  /\ chatViewPath s' = Some (chatMessagesPath chat)
  /\ timers s' = []
  /\ In k (navigationComplete s')
  /\ In (k, Fulfilled) (settled s')
  /\ service_calls s' = (service_calls s ++ [getChatWithUserByID k (user_id user)])%list
  /\ task_of k s' = None.
Proof.
  cbv zeta. cbn [run fold_left].
  set (s0 := step s (Call_setChatViewObject (inr user))).
  assert (Hk : task_of (next_call s) s0 = Some (AwaitGetChat user)).
  { subst s0. unfold task_of.
    change (tasks (step s (Call_setChatViewObject (inr user))))
      with (List.filter (fun t => negb (Nat.eqb (fst t) (next_call s))) (tasks s)
            ++ [(next_call s, AwaitGetChat user)])%list.
    now rewrite task_in_put, Nat.eqb_refl. }
  cbn [step]. rewrite Hk.
  set (s1 := setChatViewObjectAsChat_got (next_call s) user (Resolves (Some chat)) s0).
  fold (run (repeat TimerFires (S (length (timers s)))) s1).
  replace (repeat TimerFires (S (length (timers s))))
    with (repeat TimerFires (length (timers s)) ++ [TimerFires])%list
    by (symmetry; apply (List.repeat_cons (length (timers s)) TimerFires)).
  rewrite run_app.
  assert (Hk1 : task_of (next_call s) s1 = None).
  { subst s1. unfold task_of.
    change (tasks (setChatViewObjectAsChat_got (next_call s) user
                     (Resolves (Some chat)) s0))
      with (List.filter (fun t => negb (Nat.eqb (fst t) (next_call s))) (tasks s0)).
    rewrite task_in_drop. now rewrite Nat.eqb_refl. }
  destruct (fire_queue (timers s) [ResumeSetChatViewObject (next_call s) (inr user)]
              s1 eq_refl) as (T & V & P & TO & TP & SC & TK & NC).
  set (s2 := run (repeat TimerFires (length (timers s))) s1) in *.
  cbn [run fold_left step]. rewrite T. cbn [fire].
  unfold setChatViewObject_resume. cbn.
  rewrite V. cbn.
  repeat split;
    try (rewrite ?V, ?P, ?SC; reflexivity);
    try (apply List.in_or_app; right; now left).
  unfold task_of in *. cbn [tasks settle set_completion]. now rewrite TK.
Qed.

(** ** Self chat and chat partner *)

(** X18.  A chat is never taken for a self chat and for a chat with a
    partner at once: when [isSelfChat] holds, [getChatPartnerName] gives
    nothing.  When nothing has been selected, the search context is the
    one of the default channel. *)
Theorem X18_self_chat_has_no_partner (env : Services) (s : State) :
  (isSelfChat env s = true -> getChatPartnerName env s = None)
  /\ (forall n, getChatPartnerName env s = Some n -> isSelfChat env s = false)
  /\ (_chatViewObject s = None ->
      getSearchContext env s = "in:#" ++ channel_name (defaultChannel env)).
Proof.
  assert (H : isSelfChat env s = true -> getChatPartnerName env s = None).
  { unfold isSelfChat, getChatPartnerName.
    destruct (chatViewObject env s) as [channel|chat]; [reflexivity|].
    destruct (currentUser env) as [u|] eqn:Hu; [|discriminate].
    intros Hall. apply forallb_self in Hall.
    destruct (List.find (not_current env) (memberIDs chat)) as [pid|] eqn:Hf;
      [|reflexivity].
    exfalso. exact (find_not_current_Some env _ _ Hf u Hu Hall). }
  split; [exact H|]. split.
  - intros n Hn. destruct (isSelfChat env s) eqn:E; [|reflexivity].
    rewrite (H eq_refl) in Hn. discriminate.
  - intros Hv. unfold getSearchContext, chatViewObject. now rewrite Hv.
Qed.

End NavigationMoreFacts.

(** * Facts about the earlier revision of the service *)

Module EarlierServiceFacts.

Import EarlierService.

(** X19.  In the earlier revision the view object never changes without
    the thread being closed in the same step: the thread is cleared after
    the lookup, together with the view. *)
Theorem X19_earlier_view_change_closes_thread (s : State) (e : Event) :
  _chatViewObject (step s e) <> _chatViewObject s ->
  _threadViewObject (step s e) = None /\ _threadViewPath (step s e) = None.
Proof.
  destruct e as [[channel|user]|message|k r|]; cbn [step].
  - intros _. now split.
  - intros H. now contradiction H.
  - intros H. now contradiction H.
  - destruct (task_of k s) as [user|]; [|intros H; now contradiction H].
    destruct r as [[chat|]|]; intros H;
      [now split | now contradiction H | now contradiction H].
  - destruct (timers s) as [|[k object] ts]; intros H; now contradiction H.
Qed.

(** X20.  The earlier revision, when the lookup for a selected user
    settles.  Finding no chat leaves the view object and its path as they
    are, and still closes the thread, sends [chatViewObjectSet] and sets
    the timer of the call.  A rejected lookup rejects the promise of the
    call: nothing else changes, no timer is set, and
    [navigationCompleteSubject] gets no [next()] for the call. *)
Theorem X20_earlier_lookup_without_result
    (s : State) (k : nat) (user : Navigation.User) :
  task_of k s = Some user ->
  (let s' := step s (Settle_getChatWithUserByID k (Navigation.Resolves None)) in
   _chatViewObject s' = _chatViewObject s
   /\ _chatViewPath s' = _chatViewPath s
   /\ _threadViewObject s' = None
   /\ _threadViewPath s' = None
   /\ changes s' = (changes s ++ ["chatViewObjectSet"])%list
   /\ timers s' = (timers s ++ [(k, inr user)])%list
   /\ settled s' = settled s)
  /\ (let s' := step s (Settle_getChatWithUserByID k Navigation.Rejects) in
      _chatViewObject s' = _chatViewObject s
      /\ _chatViewPath s' = _chatViewPath s
      /\ _threadViewObject s' = _threadViewObject s
      /\ _threadViewPath s' = _threadViewPath s
      /\ changes s' = changes s
      /\ timers s' = timers s
      /\ navigationCompleteSubject s' = navigationCompleteSubject s
      /\ settled s' = (settled s ++ [(k, Navigation.Rejected)])%list
      /\ task_of k s' = None).
Proof.
  intros Hk. cbv zeta. cbn [step]. rewrite Hk. split; [repeat split|].
  repeat split. unfold task_of. cbn.
  rewrite NavigationFacts.find_key_filter. now rewrite Nat.eqb_refl.
Qed.

(** X21.  [ifMainMessageObjectIsChannel] and [ifMainMessageObjectIsChat]
    read the field, not the getter: while nothing has been selected both
    are false, although [chatViewObject] is the default channel.  Once
    something has been selected, exactly one of them is true and it says
    what [chatViewObject] is. *)
Theorem X21_earlier_type_tests_read_the_field
    (env : Navigation.Services) (s : State) :
  (_chatViewObject s = None ->
   ifMainMessageObjectIsChannel s = false
   /\ ifMainMessageObjectIsChat s = false
   /\ chatViewObject env s = Navigation.VChannel (Navigation.defaultChannel env))
  /\ (forall v, _chatViewObject s = Some v ->
        chatViewObject env s = v
        /\ ifMainMessageObjectIsChannel s = negb (ifMainMessageObjectIsChat s)
        /\ (ifMainMessageObjectIsChannel s = true <->
            exists channel, v = Navigation.VChannel channel)).
Proof.
  unfold ifMainMessageObjectIsChannel, ifMainMessageObjectIsChat, chatViewObject.
  split.
  - intros ->. repeat split.
  - intros v ->. split; [reflexivity|]. destruct v as [channel|chat]; cbn.
    + split; [reflexivity|]. split; [eauto | reflexivity].
    + split; [reflexivity|]. split; [discriminate | intros [c Hc]; discriminate].
Qed.

End EarlierServiceFacts.

(** * Failures of the lookup *)

Module NavigationFailureFacts.

Import Navigation NavigationNotions NavigationFacts.

(** X22.  When the lookup for a selected user is rejected, the view
    object, its path and the thread stay as they are, no change value is
    sent, nobody is subscribed and no chat is ever created for the call;
    the rejection is left unhandled.  The caller does not learn of it: the
    promise of [setChatViewObject] is not settled by this and is only ever
    fulfilled. *)
Theorem X22_rejected_lookup_is_silent
    (s : State) (k : nat) (user : User) :
  calls_in_order s ->
  task_of k s = Some (AwaitGetChat user) ->
  let s' := step s (Settle_getChatWithUserByID k Rejects) in
  _chatViewObject s' = _chatViewObject s
  /\ _chatViewPath s' = _chatViewPath s
  /\ _threadViewObject s' = _threadViewObject s
  /\ _threadViewPath s' = _threadViewPath s
  /\ changes s' = changes s
  /\ subscriptions s' = subscriptions s
  /\ timers s' = timers s
  /\ settled s' = settled s
  /\ unhandled s' = (unhandled s ++ [k])%list
  /\ (forall es, creations k (run es s') = [])
  /\ (forall es, List.Forall (fun p => snd p = Fulfilled) (settled s) ->
                 List.Forall (fun p => snd p = Fulfilled) (settled (run es s'))).
Proof.
  intros Hs Hk s'.
  assert (Hlt : (k < next_call s)%nat) by (eapply pending_call_is_made; eauto).
  assert (Hnone : creations k s = []).
  { destruct (Hs k) as (_ & _ & H3). exact (H3 user Hk). }
  assert (Hover : task_of k s' = None /\ next_call s' = next_call s
                  /\ creations k s' = creations k s).
  { subst s'. unfold task_of, creations.
    pose proof (step_calls s (Settle_getChatWithUserByID k Rejects)) as Hstep.
    cbv beta iota in Hstep. rewrite Hk in Hstep. use_step_calls Hstep.
    rewrite task_in_drop, Nat.eqb_refl. auto. }
  destruct Hover as (Ht & Hn & Hc).
  assert (Hfields :
    _chatViewObject s' = _chatViewObject s
    /\ _chatViewPath s' = _chatViewPath s
    /\ _threadViewObject s' = _threadViewObject s
    /\ _threadViewPath s' = _threadViewPath s
    /\ changes s' = changes s
    /\ subscriptions s' = subscriptions s
    /\ timers s' = timers s
    /\ settled s' = settled s
    /\ unhandled s' = (unhandled s ++ [k])%list).
  { subst s'. cbn [step]. rewrite Hk. frame_fields. }
  destruct Hfields as (F1 & F2 & F3 & F4 & F5 & F6 & F7 & F8 & F9).
  repeat split; try assumption.
  - intros es. rewrite <- Hnone, <- Hc.
    apply run_resolution_over; [exact Ht | lia].
  - intros es Hf. apply run_settled_fulfilled. now rewrite F8.
Qed.

End NavigationFailureFacts.

(** * Further scenarios *)

Module MoreScenarios.

Import Sample.

Section Messages.

Import MessagesListView MessagesListHelpers MessagesListMoreFacts.

Example removal_of_m1 :
  messages (snd (apply_change "channels/c1/messages" (false, after_first_batch)
                              remove_m1)) = [1; 2]%nat.
Proof. reflexivity. Qed.

Lemma sample_valid : valid after_first_batch.
Proof. unfold valid. cbn. repeat constructor. Qed.

Lemma X1_witness :
  type remove_m1 = removed
  /\ ~ present (snd (apply_change "channels/c1/messages"
                                  (false, after_first_batch) remove_m1)) "m1".
Proof.
  split; [reflexivity|].
  destruct (X1_removed_takes_out_every_match
              "channels/c1/messages" false after_first_batch remove_m1 eq_refl)
    as (_ & _ & _ & H & _).
  exact H.
Defined.

Lemma X2_witness :
  (forall d path i, id (Message_new d path i) = i)
  /\ type (mkChange added "m1" (doc "u1" 60 "once more")) = added
  /\ valid after_first_batch
  /\ length (held_with_id
               (snd (apply_change "channels/c1/messages" (false, after_first_batch)
                                  (mkChange added "m1" (doc "u1" 60 "once more"))))
               "m1")
     = S (length (held_with_id after_first_batch "m1")).
Proof.
  split; [reflexivity|]. split; [reflexivity|]. split; [exact sample_valid|].
  destruct (@X2_added_appends_without_lookup
              _ MessageModel.message_class (fun d path i => eq_refl)
              "channels/c1/messages" false after_first_batch
              (mkChange added "m1" (doc "u1" 60 "once more")) eq_refl sample_valid)
    as (_ & _ & _ & _ & _ & _ & H & _).
  exact H.
Defined.

Lemma X4_witness :
  (forall m d, createdAt (Message_update m d) = createdAt m)
  /\ Array_sort (compare_createdAt (store (run session init)))
                (messages (run session init))
     = messages (run session init).
Proof.
  split; [reflexivity|].
  apply (@X4_sort_is_never_missed _ MessageModel.message_class
           (fun m d => eq_refl) session).
Defined.

Lemma X3_witness :
  List.filter is_removed first_batch = []
  /\ length (messages (on_snapshot "channels/c1/messages" first_batch init))
     = (length (messages (init : Component)) + 3)%nat.
Proof.
  split; [reflexivity|].
  destruct (@X3_batch_length _ MessageModel.message_class
              "channels/c1/messages" first_batch init) as (_ & H & _).
  exact (H eq_refl).
Defined.

Lemma X5_witness : List.NoDup (messages (run session init)).
Proof.
  exact (proj1 (@X5_each_message_held_once _ MessageModel.message_class session)).
Defined.

Lemma X6_witness :
  (exists b, ifMessageFromSameUserAsPrevious (run session init) 2 = Some b)
  <-> (2 < length (messages (run session init)))%nat.
Proof.
  destruct (@X6_template_helpers_bounds _ MessageModel.message_class
              (fun t => t / 86400000) session 1%nat) as (_ & _ & _ & H).
  exact H.
Defined.

Lemma X7_witness :
  run (map (fun hb => Snapshot (fst hb) (snd hb)) [(0%nat, second_batch)])
      (ngOnDestroy (run session init))
  = ngOnDestroy (run session init).
Proof.
  destruct (@X7_no_listener_no_change _ MessageModel.message_class
              session None [(0%nat, second_batch)]) as (_ & H & _).
  exact H.
Defined.

End Messages.

Section Scroll.

Import ScrollToMessage.

(** The element appears 1.2 s after the call: it is found at the fourth
    look. *)
Example scroll_when_rendered_late :
  scrollToMessageInView (fun t => 1200 <=? t) 0
  = [ getElementById 100; getElementById 600; getElementById 1100;
      getElementById 1600;
      scrollIntoView 1600; classList_add 1600; classList_remove 3350 ].
Proof. reflexivity. Qed.

Example scroll_gives_up :
  scrollToMessageInView (fun _ => false) 0
  = [ getElementById 100; getElementById 600; getElementById 1100;
      getElementById 1600; getElementById 2100; getElementById 2600 ].
Proof. reflexivity. Qed.

End Scroll.

Section Thread.

Import Navigation Threadview.

Example channel_then_chat_sets_both_flags :
  let c := run (fun _ => false) [Some (VChannel dev); Some (VChat chat_alice_bob)]
               (init) in
  isAChannel c = true /\ isAChat c = true
  /\ currentChannel c = Some (VChat chat_alice_bob)
  /\ requiredAvatars c = ["u1"; "u2"].
Proof. repeat split. Qed.

Lemma X10_witness :
  (length (requiredAvatars init) <= 3)%nat
  /\ (length (requiredAvatars
                (run (fun _ => false)
                     [Some (VChannel general); Some (VChat chat_alice_bob)] init))
      <= 3)%nat.
Proof.
  assert (H : (length (requiredAvatars init) <= 3)%nat) by (cbn; lia).
  split; [exact H|].
  exact (proj2 (ThreadviewFacts.X10_required_avatars_of_last_channel
                  (fun _ => false)
                  [Some (VChannel general); Some (VChat chat_alice_bob)] init) H).
Defined.

End Thread.

Section Service.

Import Navigation NavigationFacts NavigationMoreFacts MoreSample.

Lemma X12_witness :
  task_of 0 bob_selected = Some (AwaitGetChat bob)
  /\ answerable question = true
  /\ threadViewObject
       (run [ Call_setThreadViewObject question;
              Settle_getChatWithUserByID 0 (Resolves (Some chat_alice_bob)) ]
            bob_selected)
     = Some question.
Proof.
  split; [reflexivity|]. split; [reflexivity|].
  destruct X12_thread_survives_the_resolved_chat as [_ H].
  exact (proj1 (proj2 (H bob_selected 0%nat bob chat_alice_bob question
                         eq_refl eq_refl))).
Defined.

Lemma X15_witness :
  subscriptions awaiting_bob_chat = ([] ++ (0%nat, "chat-ab") :: [])%list
  /\ _chatViewObject
       (step (step awaiting_bob_chat (Call_setChatViewObject (inl dev)))
             (ChatListChange [chat_alice_bob]))
     = Some (VChat chat_alice_bob).
Proof.
  split; [reflexivity|].
  destruct (X15_selecting_cancels_nothing awaiting_bob_chat (inl dev))
    as (_ & _ & _ & H).
  exact (H [] [] 0%nat "chat-ab" [chat_alice_bob] chat_alice_bob
           eq_refl eq_refl (List.Forall_nil _)).
Defined.

Lemma X18_witness :
  isSelfChat as_alice (showing (VChat chat_alice_alice)
                               (Some "chats/chat-aa/messages")) = true
  /\ getChatPartnerName as_alice (showing (VChat chat_alice_alice)
                                          (Some "chats/chat-aa/messages")) = None.
Proof.
  assert (H : isSelfChat as_alice (showing (VChat chat_alice_alice)
                                           (Some "chats/chat-aa/messages")) = true)
    by reflexivity.
  split; [exact H|].
  exact (proj1 (X18_self_chat_has_no_partner as_alice _) H).
Defined.

End Service.

Section Earlier.

Import EarlierService EarlierServiceFacts.

Lemma X19_witness :
  _chatViewObject (step init (Call_setChatViewObject (inl dev)))
  <> _chatViewObject init
  /\ _threadViewObject (step init (Call_setChatViewObject (inl dev))) = None.
Proof.
  assert (H : _chatViewObject (step init (Call_setChatViewObject (inl dev)))
              <> _chatViewObject init) by discriminate.
  split; [exact H|].
  exact (proj1 (X19_earlier_view_change_closes_thread
                  init (Call_setChatViewObject (inl dev)) H)).
Defined.

Lemma X20_witness :
  let s := step init (Call_setChatViewObject (inr bob)) in
  task_of 0 s = Some bob
  /\ settled (step s (Settle_getChatWithUserByID 0 Navigation.Rejects))
     = [(0%nat, Navigation.Rejected)].
Proof.
  cbv zeta. split; [reflexivity|].
  destruct (X20_earlier_lookup_without_result
              (step init (Call_setChatViewObject (inr bob))) 0 bob eq_refl)
    as (_ & _ & _ & _ & _ & _ & _ & _ & H & _).
  exact H.
Defined.

Lemma X21_witness :
  _chatViewObject init = None
  /\ ifMainMessageObjectIsChannel init = false
  /\ chatViewObject as_alice init = Navigation.VChannel general.
Proof.
  split; [reflexivity|].
  destruct (X21_earlier_type_tests_read_the_field as_alice init) as [H _].
  destruct (H eq_refl) as (H1 & _ & H3).
  split; [exact H1 | exact H3].
Defined.

End Earlier.

Section Failure.

Import Navigation NavigationFacts NavigationFailureFacts.

Lemma X22_witness :
  let s := run [Call_setChatViewObject (inr bob)] init in
  calls_in_order s
  /\ task_of 0 s = Some (AwaitGetChat bob)
  /\ unhandled (step s (Settle_getChatWithUserByID 0 Rejects)) = [0%nat].
Proof.
  cbv zeta.
  assert (Hs : calls_in_order (run [Call_setChatViewObject (inr bob)] init))
    by (apply run_calls_in_order, init_calls_in_order).
  split; [exact Hs|]. split; [reflexivity|].
  destruct (X22_rejected_lookup_is_silent _ 0%nat bob Hs eq_refl)
    as (_ & _ & _ & _ & _ & _ & _ & _ & H & _).
  exact H.
Defined.

End Failure.

End MoreScenarios.
